(** * HLK-LD2450 configuration channel (ld2450_config.c)

    A shallow embedding of the command/acknowledgement engine of the
    LD2450 radar driver: frame validation, the ACK-await loop of
    [ld2450_send_command], the configuration-mode gate and the public
    bracketed operations, with the properties the specification states
    about them. *)

From Stdlib Require Import List ZArith NArith Arith Bool Lia.
From Stdlib Require String Ascii DecimalString.
Import ListNotations.
Import String.StringSyntax.
Delimit Scope string_scope with string.

Set Implicit Arguments.

(** ** Bytes and buffers

    A byte is a [Z]; the buffers of the driver are lists of bytes. *)

Definition byte := Z.

Fixpoint bytes_eqb (a b : list byte) : bool :=
  match a, b with
  | [], [] => true
  | x :: a', y :: b' => Z.eqb x y && bytes_eqb a' b'
  | _, _ => false
  end.

(** [memcpy(&buf[off], data, length data)].  The driver only writes inside
    the buffer; a write past its end would extend the list here. *)
Definition write_at (off : nat) (data buf : list byte) : list byte :=
  firstn off buf ++ data ++ skipn (off + length data) buf.

(** [memcmp(&buf[off], pat, length pat) == 0], without any bounds check:
    the form used on the driver's own fixed-size buffers. *)
Definition mem_eq (buf : list byte) (off : nat) (pat : list byte) : bool :=
  bytes_eqb (firstn (length pat) (skipn off buf)) pat.

(** Bounds-checked reads, for code that receives a pointer and a length:
    [None] stands for an access outside the [len] bytes handed in. *)
Definition peek (buf : list byte) (i : nat) : option byte := nth_error buf i.

Definition memcmp_eq (buf : list byte) (off : nat) (pat : list byte)
  : option bool :=
  if off + length pat <=? length buf
  then Some (mem_eq buf off pat)
  else None.

(** C's short-circuit [a || b] over checked operands: [b] is only
    evaluated when [a] is false. *)
Definition c_or (a b : option bool) : option bool :=
  match a with
  | Some true => Some true
  | Some false => b
  | None => None
  end.

Definition obind {A B} (o : option A) (k : A -> option B) : option B :=
  match o with Some a => k a | None => None end.

Notation "'check' x <- o ; k" := (obind o (fun x => k))
  (at level 10, x name, o at level 100, k at level 200).

(** ** Error codes, commands, log lines *)

Inductive esp_err_t :=
| ESP_OK
| ESP_FAIL
| ESP_ERR_INVALID_ARG
| ESP_ERR_INVALID_STATE
| ESP_ERR_INVALID_SIZE
| ESP_ERR_TIMEOUT
| ESP_ERR_INVALID_RESPONSE.

Definition esp_err_eqb (a b : esp_err_t) : bool :=
  match a, b with
  | ESP_OK, ESP_OK | ESP_FAIL, ESP_FAIL
  | ESP_ERR_INVALID_ARG, ESP_ERR_INVALID_ARG
  | ESP_ERR_INVALID_STATE, ESP_ERR_INVALID_STATE
  | ESP_ERR_INVALID_SIZE, ESP_ERR_INVALID_SIZE
  | ESP_ERR_TIMEOUT, ESP_ERR_TIMEOUT
  | ESP_ERR_INVALID_RESPONSE, ESP_ERR_INVALID_RESPONSE => true
  | _, _ => false
  end.

Definition is_ok (e : esp_err_t) : bool := esp_err_eqb e ESP_OK.

(** [ld2450_cmd_t]: the command words the driver sends. *)
Inductive ld2450_cmd_t :=
| LD2450_CMD_ENABLE_CONFIG
| LD2450_CMD_END_CONFIG
| LD2450_CMD_SINGLE_TARGET
| LD2450_CMD_MULTI_TARGET
| LD2450_CMD_QUERY_TARGET_MODE
| LD2450_CMD_READ_FW_VERSION
| LD2450_CMD_SET_BAUD_RATE
| LD2450_CMD_RESTORE_FACTORY
| LD2450_CMD_RESTART_MODULE
| LD2450_CMD_SET_BLUETOOTH
| LD2450_CMD_GET_MAC_ADDRESS
| LD2450_CMD_SET_REGION
| LD2450_CMD_QUERY_REGION.

Definition cmd_eqb (a b : ld2450_cmd_t) : bool :=
  match a, b with
  | LD2450_CMD_ENABLE_CONFIG, LD2450_CMD_ENABLE_CONFIG
  | LD2450_CMD_END_CONFIG, LD2450_CMD_END_CONFIG
  | LD2450_CMD_SINGLE_TARGET, LD2450_CMD_SINGLE_TARGET
  | LD2450_CMD_MULTI_TARGET, LD2450_CMD_MULTI_TARGET
  | LD2450_CMD_QUERY_TARGET_MODE, LD2450_CMD_QUERY_TARGET_MODE
  | LD2450_CMD_READ_FW_VERSION, LD2450_CMD_READ_FW_VERSION
  | LD2450_CMD_SET_BAUD_RATE, LD2450_CMD_SET_BAUD_RATE
  | LD2450_CMD_RESTORE_FACTORY, LD2450_CMD_RESTORE_FACTORY
  | LD2450_CMD_RESTART_MODULE, LD2450_CMD_RESTART_MODULE
  | LD2450_CMD_SET_BLUETOOTH, LD2450_CMD_SET_BLUETOOTH
  | LD2450_CMD_GET_MAC_ADDRESS, LD2450_CMD_GET_MAC_ADDRESS
  | LD2450_CMD_SET_REGION, LD2450_CMD_SET_REGION
  | LD2450_CMD_QUERY_REGION, LD2450_CMD_QUERY_REGION => true
  | _, _ => false
  end.

(** The [ESP_LOGE]/[ESP_LOGW] lines of the transaction engine; they tell
    apart failures that share one error code. *)
Inductive log_line :=
| LogMutexTimeout (cmd : ld2450_cmd_t)
| LogSendFailed (cmd : ld2450_cmd_t) (sent : Z) (cmd_len : nat)
| LogRadarFrameSkipped
| LogIncompleteAck (cmd : ld2450_cmd_t) (idx : nat)
| LogAckTooShort (len : nat)
| LogBadHeaderFooter
| LogBadEcho (b6 b7 : byte)
| LogBadStatus (cmd : ld2450_cmd_t) (b8 b9 : byte).

(** ** Constants of the missing headers *)

(** Modelled from the spec: the frame magics are macros of
    ld2450_private.h, which is not among the sources; section 6 of the
    specification gives them: configuration header FD FC FB FA and footer
    04 03 02 01, telemetry header AA FF 03 00. *)
Definition LD2450_CONFIG_FRAME_HEADER : list byte := [0xFD; 0xFC; 0xFB; 0xFA]%Z.
Definition LD2450_CONFIG_FRAME_FOOTER : list byte := [0x04; 0x03; 0x02; 0x01]%Z.
Definition LD2450_DATA_FRAME_HEADER : list byte := [0xAA; 0xFF; 0x03; 0x00]%Z.

(** Modelled from the spec: LD2450_CONFIG_TIMEOUT_MS is a macro of
    ld2450_private.h, which is not among the sources.  The specification
    calls it the standard configuration timeout; the comment at the
    firmware query of the source ("1 second instead of 3") gives its
    value, three seconds. *)
Definition LD2450_CONFIG_TIMEOUT_MS : N := 3000.

(** The remaining values of ld2450.h, ld2450_private.h and FreeRTOSConfig.h
    the code depends on; every definition below takes them as a parameter. *)
Record header_values := {
  LD2450_ACK_BUFFER_SIZE : nat;
  LD2450_ERROR_BUFFER_SIZE : nat;
  LD2450_RESTART_TIMEOUT_MS : N;
  configTICK_RATE_HZ : N;
  cmd_word : ld2450_cmd_t -> Z;
  LD2450_BAUD_9600 : Z;
  LD2450_BAUD_460800 : Z;
  VERSION_STRING_SIZE : nat
}.

(** ** The session

    [ld2450_state_t], the singleton the driver calls its instance. *)
Record ld2450_state_t := {
  initialized : bool;
  in_config_mode : bool;
  mutex_held : bool;
  cmd_buffer : list byte;
  ack_buffer : list byte;
  error_buffer : list byte;
  error_buffer_len : nat
}.

Definition set_in_config_mode (b : bool) (s : ld2450_state_t) :=
  {| initialized := initialized s; in_config_mode := b;
     mutex_held := mutex_held s; cmd_buffer := cmd_buffer s;
     ack_buffer := ack_buffer s; error_buffer := error_buffer s;
     error_buffer_len := error_buffer_len s |}.

Definition set_mutex_held (b : bool) (s : ld2450_state_t) :=
  {| initialized := initialized s; in_config_mode := in_config_mode s;
     mutex_held := b; cmd_buffer := cmd_buffer s;
     ack_buffer := ack_buffer s; error_buffer := error_buffer s;
     error_buffer_len := error_buffer_len s |}.

Definition set_cmd_buffer (b : list byte) (s : ld2450_state_t) :=
  {| initialized := initialized s; in_config_mode := in_config_mode s;
     mutex_held := mutex_held s; cmd_buffer := b;
     ack_buffer := ack_buffer s; error_buffer := error_buffer s;
     error_buffer_len := error_buffer_len s |}.

Definition set_ack_buffer (b : list byte) (s : ld2450_state_t) :=
  {| initialized := initialized s; in_config_mode := in_config_mode s;
     mutex_held := mutex_held s; cmd_buffer := cmd_buffer s;
     ack_buffer := b; error_buffer := error_buffer s;
     error_buffer_len := error_buffer_len s |}.

Definition set_error_capture (b : list byte) (n : nat) (s : ld2450_state_t) :=
  {| initialized := initialized s; in_config_mode := in_config_mode s;
     mutex_held := mutex_held s; cmd_buffer := cmd_buffer s;
     ack_buffer := ack_buffer s; error_buffer := b;
     error_buffer_len := n |}.

(** ** The environment of a transaction

    The UART driver, the event queue and the scheduler are outside the
    repository.  One [exchange] says what they do during one call of
    [ld2450_send_command]: when the mutex becomes free, what
    [uart_write_bytes] returns, and, for each iteration of the await loop,
    how many ticks the iteration takes and what [xQueueReceive] delivers. *)
Inductive poll :=
| Quiet                        (* no event within the 10 ms wait *)
| OtherEvent                   (* an event whose type is not UART_DATA *)
| UartData (chunk : list byte) (* UART_DATA: [chunk] has entered the ring
                                  buffer, event.size = length chunk *).

Record exchange := {
  lock_wait : option N;        (* ticks until the mutex is free; None: never *)
  tx_accepted : option Z;      (* None: the whole frame; Some n: the write returns n *)
  rx_polls : list (N * poll)
}.

(** Nothing in the way and nothing on the line. *)
Definition silent : exchange :=
  {| lock_wait := Some 0%N; tx_accepted := None; rx_polls := [] |}.

(** What the driver does to the outside, in order; [Txn] marks the return
    of a transaction that got past the initialisation check. *)
Inductive effect :=
| UartFlush
| QueueDrain
| TaskDelay (ms : N)
| UartWrite (cmd : ld2450_cmd_t) (frame : list byte) (sent : Z)
| Log (l : log_line)
| Txn (cmd : ld2450_cmd_t) (timeout_ms : N) (ret : esp_err_t).

Record world := {
  dev : ld2450_state_t;
  pending : list exchange;
  effects : list effect
}.

(** A small state monad over the world. *)
Definition M (A : Type) : Type := world -> A * world.

Definition ret {A} (a : A) : M A := fun w => (a, w).

Definition bind {A B} (m : M A) (k : A -> M B) : M B :=
  fun w => let (a, w') := m w in k a w'.

Notation "x <- m ;; k" := (bind m (fun x => k))
  (at level 61, m at next level, right associativity).
Notation "m ;; k" := (bind m (fun _ => k))
  (at level 61, right associativity).

Definition get_dev : M ld2450_state_t := fun w => (dev w, w).

Definition modify_dev (f : ld2450_state_t -> ld2450_state_t) : M unit :=
  fun w => (tt, {| dev := f (dev w); pending := pending w;
                   effects := effects w |}).

Definition emit (es : list effect) : M unit :=
  fun w => (tt, {| dev := dev w; pending := pending w;
                   effects := effects w ++ es |}).

Definition next_exchange : M exchange :=
  fun w => match pending w with
           | [] => (silent, w)
           | ex :: rest => (ex, {| dev := dev w; pending := rest;
                                   effects := effects w |})
           end.

Definition vTaskDelay (ms : N) : M unit := emit [TaskDelay ms].
Definition uart_flush : M unit := emit [UartFlush].
Definition drain_event_queue : M unit := emit [QueueDrain].

(** State of the await loop of [ld2450_send_command]. *)
Record rx_state := {
  rx_buf : list byte;         (* instance->ack_buffer *)
  rx_idx : nat;               (* idx *)
  rx_fifo : list byte;        (* bytes left in the UART ring buffer *)
  found_header : bool;
  found_cmd_echo : bool;
  found_footer : bool;
  rx_skips : nat              (* radar frames skipped so far *)
}.

(** ** Public types of ld2450.h used by the operations *)

Inductive ld2450_tracking_mode_t :=
| LD2450_MODE_SINGLE_TARGET
| LD2450_MODE_MULTI_TARGET.

(** Four [int16_t] corners. *)
Record ld2450_region_t := { x1 : Z; y1 : Z; x2 : Z; y2 : Z }.

Definition regions3 : Type :=
  (ld2450_region_t * ld2450_region_t * ld2450_region_t)%type.

Record ld2450_firmware_version_t := {
  main_version : Z;                 (* uint16_t *)
  sub_version : Z;                  (* uint32_t *)
  version_string : String.string
}.

(** Integer conversions of C on the values read from a frame. *)
Definition to_uint16 (z : Z) : Z := Z.land z 0xFFFF.
Definition to_uint32 (z : Z) : Z := Z.land z 0xFFFFFFFF.
Definition to_int16 (z : Z) : Z :=
  let u := Z.land z 0xFFFF in
  if (u <? 0x8000)%Z then u else (u - 0x10000)%Z.

(** [buf[i] | (buf[i+1] << 8)] on a local array. *)
Definition le16 (buf : list byte) (i : nat) : Z :=
  Z.lor (nth i buf 0%Z) (Z.shiftl (nth (i + 1) buf 0%Z) 8).

(** printf's [%u] and zero padding to a width. *)
Definition dec (n : Z) : String.string :=
  DecimalString.NilZero.string_of_uint (N.to_uint (Z.to_N n)).

Fixpoint zeros (n : nat) : String.string :=
  match n with
  | 0 => String.EmptyString
  | S k => String.String (Ascii.ascii_of_nat 48) (zeros k)
  end.

Definition pad0 (width : nat) (s : String.string) : String.string :=
  String.append (zeros (width - String.length s)) s.

(** [snprintf(dst, size, "V%u.%02u.%08lu", major, minor, sub)]. *)
Definition snprintf_version (old : String.string) (size : nat)
    (major minor sub : Z) : String.string :=
  match size with
  | 0 => old
  | S room =>
      String.substring 0 room
        (String.append "V"%string
          (String.append (dec major)
            (String.append "."%string
              (String.append (pad0 2 (dec minor))
                (String.append "."%string (pad0 8 (dec sub)))))))
  end.

Section Driver.

Variable hv : header_values.

Definition pdMS_TO_TICKS (ms : N) : N := (ms * configTICK_RATE_HZ hv / 1000)%N.

Definition cmd_low_byte (cmd : ld2450_cmd_t) : byte :=
  Z.land (cmd_word hv cmd) 0xFF.

(** ** ld2450_validate_ack

    [ack] holds the [len] bytes the caller hands in ([len = length ack]);
    every read goes through [peek]/[memcmp_eq].  The result carries the
    line the function logs next to the code it returns. *)
Definition ld2450_validate_ack (ack : list byte) (cmd : ld2450_cmd_t)
  : option (esp_err_t * list log_line) :=
  let len := length ack in
  if len <? 10 then Some (ESP_ERR_INVALID_SIZE, [LogAckTooShort len])
  else
    check bad_frame <-
      c_or (option_map negb (memcmp_eq ack 0 LD2450_CONFIG_FRAME_HEADER))
           (option_map negb (memcmp_eq ack (len - 4) LD2450_CONFIG_FRAME_FOOTER));
    if bad_frame then Some (ESP_ERR_INVALID_RESPONSE, [LogBadHeaderFooter])
    else
      check bad_echo <-
        c_or (option_map (fun b => negb (Z.eqb b (cmd_low_byte cmd))) (peek ack 6))
             (option_map (fun b => negb (Z.eqb b 0x01)) (peek ack 7));
      if bad_echo then
        check b6 <- peek ack 6;
        check b7 <- peek ack 7;
        Some (ESP_ERR_INVALID_RESPONSE, [LogBadEcho b6 b7])
      else
        check bad_status <-
          c_or (option_map (fun b => negb (Z.eqb b 0x00)) (peek ack 8))
               (option_map (fun b => negb (Z.eqb b 0x00)) (peek ack 9));
        if bad_status then
          check b8 <- peek ack 8;
          check b9 <- peek ack 9;
          Some (ESP_ERR_INVALID_RESPONSE, [LogBadStatus cmd b8 b9])
        else Some (ESP_OK, []).

(** ** build_command_packet

    Header, data length (command word plus value), command word, value,
    footer, written at the start of [cmd_buffer]; returns the packet size.
    A NULL value is the empty list.  The function does not check that the
    packet fits [cmd_buffer]; what is proved of the packet it leaves there
    assumes that it does. *)
Definition command_frame (cmd : ld2450_cmd_t) (value : list byte) : list byte :=
  let value_len := Z.of_nat (length value) in
  LD2450_CONFIG_FRAME_HEADER
  ++ [Z.land (value_len + 2) 0xFF;
      Z.land (Z.shiftr (value_len + 2) 8) 0xFF;
      Z.land (cmd_word hv cmd) 0xFF;
      Z.land (Z.shiftr (cmd_word hv cmd) 8) 0xFF]%Z
  ++ value
  ++ LD2450_CONFIG_FRAME_FOOTER.

Definition build_command_packet (instance : ld2450_state_t)
    (cmd : ld2450_cmd_t) (value : list byte) : ld2450_state_t * nat :=
  (set_cmd_buffer (write_at 0 (command_frame cmd value) (cmd_buffer instance))
                  instance,
   8 + length value + 4).

(** ** ld2450_get_last_error_data

    [mutex_free] says whether the mutex is obtained within 100 ms. *)
Definition ld2450_get_last_error_data (instance : ld2450_state_t)
    (buffer_size : nat) (mutex_free : bool) : esp_err_t * list byte :=
  if negb (initialized instance) then (ESP_ERR_INVALID_ARG, [])
  else if negb mutex_free then (ESP_ERR_TIMEOUT, [])
  else
    let copy_len := error_buffer_len instance in
    let copy_len := if buffer_size <? copy_len then buffer_size else copy_len in
    (ESP_OK, firstn copy_len (error_buffer instance)).

(** ** The await loop of ld2450_send_command *)

(** The body of [if (event.type == UART_DATA)]: one read and the checks
    that follow it. *)
Definition rx_data (cmd : ld2450_cmd_t) (chunk : list byte) (st : rx_state)
  : rx_state :=
  let idx := rx_idx st in
  let fifo := rx_fifo st ++ chunk in
  let bytes_to_read := Nat.min (length chunk) (LD2450_ACK_BUFFER_SIZE hv - idx) in
  let got := firstn bytes_to_read fifo in
  let bytes_read := length got in
  let buf := write_at idx got (rx_buf st) in
  let fifo' := skipn bytes_to_read fifo in
  if 0 <? bytes_read then
    if negb (found_header st) && (4 <=? idx + bytes_read)
       && mem_eq buf 0 LD2450_DATA_FRAME_HEADER
    then
      (* idx = 0; continue; *)
      {| rx_buf := buf; rx_idx := 0; rx_fifo := fifo';
         found_header := found_header st;
         found_cmd_echo := found_cmd_echo st;
         found_footer := found_footer st;
         rx_skips := S (rx_skips st) |}
    else
      let idx := idx + bytes_read in
      let fh :=
        if negb (found_header st) && (4 <=? idx)
        then (if mem_eq buf 0 LD2450_CONFIG_FRAME_HEADER then true
              else found_header st)
        else found_header st in
      let fe :=
        if fh && negb (found_cmd_echo st) && (8 <=? idx)
        then (if Z.eqb (nth 6 buf 0%Z) (cmd_low_byte cmd)
                 && Z.eqb (nth 7 buf 0%Z) 0x01
              then true else found_cmd_echo st)
        else found_cmd_echo st in
      let ff :=
        if fh && (12 <=? idx)
        then (if mem_eq buf (idx - 4) LD2450_CONFIG_FRAME_FOOTER then true
              else found_footer st)
        else found_footer st in
      {| rx_buf := buf; rx_idx := idx; rx_fifo := fifo';
         found_header := fh; found_cmd_echo := fe; found_footer := ff;
         rx_skips := rx_skips st |}
  else
    {| rx_buf := buf; rx_idx := idx; rx_fifo := fifo';
       found_header := found_header st;
       found_cmd_echo := found_cmd_echo st;
       found_footer := found_footer st;
       rx_skips := rx_skips st |}.

(** [while ((xTaskGetTickCount() - start_time) < timeout_ticks && idx <
    LD2450_ACK_BUFFER_SIZE)].  [elapsed] is the tick difference read at the
    head of the iteration.  Once [polls] is used up nothing arrives any
    more and the loop leaves at the deadline with its state unchanged.
    The loop is left early by the [break] after the footer is found. *)
Fixpoint await_ack (cmd : ld2450_cmd_t) (timeout_ticks : N)
    (polls : list (N * poll)) (elapsed : N) (st : rx_state) : rx_state :=
  if (elapsed <? timeout_ticks)%N && (rx_idx st <? LD2450_ACK_BUFFER_SIZE hv)
  then
    match polls with
    | [] => st
    | (dt, p) :: rest =>
        match p with
        | UartData chunk =>
            let st' := rx_data cmd chunk st in
            if found_footer st' then st'
            else await_ack cmd timeout_ticks rest (elapsed + dt)%N st'
        | Quiet | OtherEvent =>
            await_ack cmd timeout_ticks rest (elapsed + dt)%N st
        end
    end
  else st.

Definition rx_start (instance : ld2450_state_t) : rx_state :=
  {| rx_buf := ack_buffer instance; rx_idx := 0; rx_fifo := [];
     found_header := false; found_cmd_echo := false; found_footer := false;
     rx_skips := 0 |}.

Definition xSemaphoreTake (ex : exchange) (ticks : N) : bool :=
  match lock_wait ex with
  | Some d => (d <=? ticks)%N
  | None => false
  end.

Definition uart_write_bytes (ex : exchange) (cmd_len : nat) : Z :=
  match tx_accepted ex with
  | None => Z.of_nat cmd_len
  | Some n => n
  end.

(** ** ld2450_send_command

    [want_ack] says whether the caller passes [ack_buffer]/[ack_len]; the
    second component of the result is what the call stores there.  The
    [None] branch of the validation is never taken (validation reads
    inside the bytes it is given, see [validate_ack_total]). *)
Definition ld2450_send_command (cmd : ld2450_cmd_t) (value : list byte)
    (want_ack : bool) (timeout_ms : N) : M (esp_err_t * option (list byte)) :=
  instance <- get_dev ;;
  if negb (initialized instance) then ret (ESP_ERR_INVALID_STATE, None)
  else
    ex <- next_exchange ;;
    if negb (xSemaphoreTake ex (pdMS_TO_TICKS timeout_ms)) then
      emit [Log (LogMutexTimeout cmd); Txn cmd timeout_ms ESP_ERR_TIMEOUT] ;;
      ret (ESP_ERR_TIMEOUT, None)
    else
      modify_dev (set_mutex_held true) ;;
      let (instance', cmd_len) := build_command_packet instance cmd value in
      modify_dev (set_cmd_buffer (cmd_buffer instance')) ;;
      uart_flush ;;
      drain_event_queue ;;
      let bytes_sent := uart_write_bytes ex cmd_len in
      emit [UartWrite cmd (firstn cmd_len (cmd_buffer instance')) bytes_sent] ;;
      if negb (Z.eqb bytes_sent (Z.of_nat cmd_len)) then
        emit [Log (LogSendFailed cmd bytes_sent cmd_len)] ;;
        modify_dev (set_mutex_held false) ;;
        emit [Txn cmd timeout_ms ESP_FAIL] ;;
        ret (ESP_FAIL, None)
      else
        let st := await_ack cmd (pdMS_TO_TICKS timeout_ms) (rx_polls ex)
                            0%N (rx_start instance) in
        let idx := rx_idx st in
        modify_dev (set_ack_buffer (rx_buf st)) ;;
        emit (repeat (Log LogRadarFrameSkipped) (rx_skips st)) ;;
        if negb (found_header st) || negb (found_footer st) then
          emit [Log (LogIncompleteAck cmd idx)] ;;
          let n := if LD2450_ERROR_BUFFER_SIZE hv <? idx
                   then LD2450_ERROR_BUFFER_SIZE hv else idx in
          modify_dev (fun s =>
            set_error_capture
              (if 0 <? idx
               then write_at 0 (firstn n (ack_buffer s)) (error_buffer s)
               else error_buffer s)
              n s) ;;
          modify_dev (set_mutex_held false) ;;
          emit [Txn cmd timeout_ms ESP_ERR_TIMEOUT] ;;
          ret (ESP_ERR_TIMEOUT, None)
        else
          let ack := firstn idx (rx_buf st) in
          let out := if want_ack then Some ack else None in
          let (r, logs) :=
            match ld2450_validate_ack ack cmd with
            | Some v => v
            | None => (ESP_FAIL, [])
            end in
          emit (map Log logs) ;;
          modify_dev (set_mutex_held false) ;;
          emit [Txn cmd timeout_ms r] ;;
          ret (r, out).

(** ** The configuration-mode gate *)

Definition ld2450_enter_config_mode : M esp_err_t :=
  instance <- get_dev ;;
  if negb (initialized instance) then ret ESP_ERR_INVALID_STATE
  else if in_config_mode instance then ret ESP_OK
  else
    modify_dev (set_in_config_mode true) ;;
    vTaskDelay 50 ;;
    uart_flush ;;
    r <- ld2450_send_command LD2450_CMD_ENABLE_CONFIG [0x01; 0x00]%Z false
                             LD2450_CONFIG_TIMEOUT_MS ;;
    if is_ok (fst r) then ret (fst r)
    else
      modify_dev (set_in_config_mode false) ;;
      ret (fst r).

Definition ld2450_exit_config_mode : M esp_err_t :=
  instance <- get_dev ;;
  if negb (initialized instance) then ret ESP_ERR_INVALID_STATE
  else if negb (in_config_mode instance) then ret ESP_OK
  else
    r <- ld2450_send_command LD2450_CMD_END_CONFIG [] false
                             LD2450_CONFIG_TIMEOUT_MS ;;
    if is_ok (fst r) then
      modify_dev (set_in_config_mode false) ;;
      ret (fst r)
    else ret (fst r).

(** [return (ret != ESP_OK) ? ret : exit_ret;] *)
Definition first_error (r exit_ret : esp_err_t) : esp_err_t :=
  if negb (is_ok r) then r else exit_ret.

(** ** The public operations

    Out-parameters are passed in with their old contents and handed back;
    the callers' pointers are taken to be non-NULL. *)

Definition ld2450_set_tracking_mode (mode : ld2450_tracking_mode_t)
  : M esp_err_t :=
  instance <- get_dev ;;
  if negb (initialized instance) then ret ESP_ERR_INVALID_STATE
  else
    r <- ld2450_enter_config_mode ;;
    if negb (is_ok r) then ret r
    else
      let cmd := match mode with
                 | LD2450_MODE_SINGLE_TARGET => LD2450_CMD_SINGLE_TARGET
                 | LD2450_MODE_MULTI_TARGET => LD2450_CMD_MULTI_TARGET
                 end in
      b <- ld2450_send_command cmd [] false LD2450_CONFIG_TIMEOUT_MS ;;
      exit_ret <- ld2450_exit_config_mode ;;
      ret (first_error (fst b) exit_ret).

Definition ack_of (out : option (list byte)) : list byte :=
  match out with Some a => a | None => [] end.

(** The part of [ld2450_get_tracking_mode] between the transaction and
    the exit. *)
Definition parse_tracking_mode (b : esp_err_t * option (list byte))
    (mode : ld2450_tracking_mode_t) : esp_err_t * ld2450_tracking_mode_t :=
  let ack_buffer := ack_of (snd b) in
  if is_ok (fst b) && (12 <=? length ack_buffer) then
    let mode_value := to_uint16 (le16 ack_buffer 10) in
    if Z.eqb mode_value 0x0001 then (fst b, LD2450_MODE_SINGLE_TARGET)
    else if Z.eqb mode_value 0x0002 then (fst b, LD2450_MODE_MULTI_TARGET)
    else (ESP_ERR_INVALID_RESPONSE, mode)
  else (fst b, mode).

Definition ld2450_get_tracking_mode (mode : ld2450_tracking_mode_t)
  : M (esp_err_t * ld2450_tracking_mode_t) :=
  instance <- get_dev ;;
  if negb (initialized instance) then ret (ESP_ERR_INVALID_ARG, mode)
  else
    r <- ld2450_enter_config_mode ;;
    if negb (is_ok r) then ret (r, mode)
    else
      b <- ld2450_send_command LD2450_CMD_QUERY_TARGET_MODE [] true
                               LD2450_CONFIG_TIMEOUT_MS ;;
      let (r, mode') := parse_tracking_mode b mode in
      exit_ret <- ld2450_exit_config_mode ;;
      ret (first_error r exit_ret, mode').

Definition parse_firmware_version (ack_buffer : list byte)
    (version : ld2450_firmware_version_t) : ld2450_firmware_version_t :=
  let main := to_uint16 (le16 ack_buffer 12) in
  let sub :=
    to_uint32
      (Z.lor (Z.lor (Z.lor (nth 14 ack_buffer 0%Z)
                            (Z.shiftl (nth 15 ack_buffer 0%Z) 8))
                    (Z.shiftl (nth 16 ack_buffer 0%Z) 16))
             (Z.shiftl (nth 17 ack_buffer 0%Z) 24)) in
  {| main_version := main;
     sub_version := sub;
     version_string :=
       snprintf_version (version_string version) (VERSION_STRING_SIZE hv)
         (Z.land (Z.shiftr main 8) 0xFF) (Z.land main 0xFF) sub |}.

(** [for (int attempt = 0; attempt < 3; attempt++)], with [attempts]
    iterations to go and [r] the current value of [ret]. *)
Fixpoint firmware_attempts (attempts : nat) (r : esp_err_t)
    (version : ld2450_firmware_version_t)
  : M (esp_err_t * ld2450_firmware_version_t) :=
  match attempts with
  | 0 => ret (r, version)
  | S remaining =>
      b <- ld2450_send_command LD2450_CMD_READ_FW_VERSION [] true 1000 ;;
      let ack_buffer := ack_of (snd b) in
      if is_ok (fst b) && (22 <=? length ack_buffer) then
        ret (fst b, parse_firmware_version ack_buffer version)
      else
        vTaskDelay 200 ;;
        uart_flush ;;
        firmware_attempts remaining (fst b) version
  end.

Definition ld2450_get_firmware_version (version : ld2450_firmware_version_t)
  : M (esp_err_t * ld2450_firmware_version_t) :=
  instance <- get_dev ;;
  if negb (initialized instance) then ret (ESP_ERR_INVALID_ARG, version)
  else
    r <- ld2450_enter_config_mode ;;
    if negb (is_ok r) then ret (r, version)
    else
      vTaskDelay 100 ;;
      uart_flush ;;
      drain_event_queue ;;
      a <- firmware_attempts 3 r version ;;
      let r := if negb (is_ok (fst a)) then ESP_ERR_INVALID_RESPONSE
               else fst a in
      exit_ret <- ld2450_exit_config_mode ;;
      ret (first_error r exit_ret, snd a).

Definition ld2450_set_baud_rate (baud_rate : Z) : M esp_err_t :=
  instance <- get_dev ;;
  if negb (initialized instance) then ret ESP_ERR_INVALID_STATE
  else if (baud_rate <? LD2450_BAUD_9600 hv)%Z
          || (LD2450_BAUD_460800 hv <? baud_rate)%Z
  then ret ESP_ERR_INVALID_ARG
  else
    r <- ld2450_enter_config_mode ;;
    if negb (is_ok r) then ret r
    else
      b <- ld2450_send_command LD2450_CMD_SET_BAUD_RATE
             [Z.land baud_rate 0xFF; Z.land (Z.shiftr baud_rate 8) 0xFF]%Z
             false LD2450_CONFIG_TIMEOUT_MS ;;
      exit_ret <- ld2450_exit_config_mode ;;
      ret (first_error (fst b) exit_ret).

Definition ld2450_restore_factory_settings : M esp_err_t :=
  instance <- get_dev ;;
  if negb (initialized instance) then ret ESP_ERR_INVALID_STATE
  else
    r <- ld2450_enter_config_mode ;;
    if negb (is_ok r) then ret r
    else
      b <- ld2450_send_command LD2450_CMD_RESTORE_FACTORY [] false
                               LD2450_CONFIG_TIMEOUT_MS ;;
      exit_ret <- ld2450_exit_config_mode ;;
      ret (first_error (fst b) exit_ret).

Definition ld2450_restart_module : M esp_err_t :=
  instance <- get_dev ;;
  if negb (initialized instance) then ret ESP_ERR_INVALID_STATE
  else
    r <- ld2450_enter_config_mode ;;
    if negb (is_ok r) then ret r
    else
      b <- ld2450_send_command LD2450_CMD_RESTART_MODULE [] false
                               LD2450_CONFIG_TIMEOUT_MS ;;
      if is_ok (fst b) then
        vTaskDelay (LD2450_RESTART_TIMEOUT_MS hv) ;;
        modify_dev (set_in_config_mode false) ;;
        ret (fst b)
      else
        ld2450_exit_config_mode ;;
        ret (fst b).

Definition ld2450_set_bluetooth (enable : bool) : M esp_err_t :=
  instance <- get_dev ;;
  if negb (initialized instance) then ret ESP_ERR_INVALID_STATE
  else
    r <- ld2450_enter_config_mode ;;
    if negb (is_ok r) then ret r
    else
      b <- ld2450_send_command LD2450_CMD_SET_BLUETOOTH
             [if enable then 0x01 else 0x00; 0x00]%Z
             false LD2450_CONFIG_TIMEOUT_MS ;;
      exit_ret <- ld2450_exit_config_mode ;;
      ret (first_error (fst b) exit_ret).

Definition parse_mac_address (b : esp_err_t * option (list byte))
    (mac : list byte) : esp_err_t * list byte :=
  let ack_buffer := ack_of (snd b) in
  if is_ok (fst b) && (16 <=? length ack_buffer)
  then (fst b, firstn 6 (skipn 10 ack_buffer))
  else (ESP_ERR_INVALID_RESPONSE, mac).

Definition ld2450_get_mac_address (mac : list byte)
  : M (esp_err_t * list byte) :=
  instance <- get_dev ;;
  if negb (initialized instance) then ret (ESP_ERR_INVALID_ARG, mac)
  else
    r <- ld2450_enter_config_mode ;;
    if negb (is_ok r) then ret (r, mac)
    else
      b <- ld2450_send_command LD2450_CMD_GET_MAC_ADDRESS [0x01; 0x00]%Z true
                               LD2450_CONFIG_TIMEOUT_MS ;;
      let (r, mac') := parse_mac_address b mac in
      exit_ret <- ld2450_exit_config_mode ;;
      ret (first_error r exit_ret, mac').

Definition region_bytes (r : ld2450_region_t) : list byte :=
  [Z.land (x1 r) 0xFF; Z.land (Z.shiftr (x1 r) 8) 0xFF;
   Z.land (y1 r) 0xFF; Z.land (Z.shiftr (y1 r) 8) 0xFF;
   Z.land (x2 r) 0xFF; Z.land (Z.shiftr (x2 r) 8) 0xFF;
   Z.land (y2 r) 0xFF; Z.land (Z.shiftr (y2 r) 8) 0xFF]%Z.

Definition ld2450_set_region_filter (type : Z) (regions : regions3)
  : M esp_err_t :=
  instance <- get_dev ;;
  if negb (initialized instance) then ret ESP_ERR_INVALID_ARG
  else
    r <- ld2450_enter_config_mode ;;
    if negb (is_ok r) then ret r
    else
      let '(r0, r1, r2) := regions in
      let value :=
        [Z.land type 0xFF; Z.land (Z.shiftr type 8) 0xFF]%Z
        ++ region_bytes r0 ++ region_bytes r1 ++ region_bytes r2 in
      b <- ld2450_send_command LD2450_CMD_SET_REGION value false
                               LD2450_CONFIG_TIMEOUT_MS ;;
      exit_ret <- ld2450_exit_config_mode ;;
      ret (first_error (fst b) exit_ret).

Definition region_at (ack_buffer : list byte) (i : nat) : ld2450_region_t :=
  let offset := 12 + i * 8 in
  {| x1 := to_int16 (le16 ack_buffer offset);
     y1 := to_int16 (le16 ack_buffer (offset + 2));
     x2 := to_int16 (le16 ack_buffer (offset + 4));
     y2 := to_int16 (le16 ack_buffer (offset + 6)) |}.

Definition parse_region_filter (b : esp_err_t * option (list byte))
    (old : Z * regions3) : esp_err_t * (Z * regions3) :=
  let ack_buffer := ack_of (snd b) in
  if is_ok (fst b) && (40 <=? length ack_buffer)
  then (fst b, (le16 ack_buffer 10,
                (region_at ack_buffer 0, region_at ack_buffer 1,
                 region_at ack_buffer 2)))
  else (ESP_ERR_INVALID_RESPONSE, old).

Definition ld2450_get_region_filter (old : Z * regions3)
  : M (esp_err_t * (Z * regions3)) :=
  instance <- get_dev ;;
  if negb (initialized instance) then ret (ESP_ERR_INVALID_ARG, old)
  else
    r <- ld2450_enter_config_mode ;;
    if negb (is_ok r) then ret (r, old)
    else
      b <- ld2450_send_command LD2450_CMD_QUERY_REGION [] true
                               LD2450_CONFIG_TIMEOUT_MS ;;
      let (r, new) := parse_region_filter b old in
      exit_ret <- ld2450_exit_config_mode ;;
      ret (first_error r exit_ret, new).

End Driver.

Arguments ld2450_validate_ack hv ack cmd : simpl never.

(** ** Sample header values and a simulated device

    The sizes, the tick rate and the command words are not in the sources;
    the theorems hold for all of them.  These values, the command words of
    the LD2450 serial protocol with small buffers, serve to run the model. *)
Definition protocol_cmd_word (c : ld2450_cmd_t) : Z :=
  match c with
  | LD2450_CMD_ENABLE_CONFIG => 0x00FF
  | LD2450_CMD_END_CONFIG => 0x00FE
  | LD2450_CMD_SINGLE_TARGET => 0x0080
  | LD2450_CMD_MULTI_TARGET => 0x0090
  | LD2450_CMD_QUERY_TARGET_MODE => 0x0091
  | LD2450_CMD_READ_FW_VERSION => 0x00A0
  | LD2450_CMD_SET_BAUD_RATE => 0x00A1
  | LD2450_CMD_RESTORE_FACTORY => 0x00A2
  | LD2450_CMD_RESTART_MODULE => 0x00A3
  | LD2450_CMD_SET_BLUETOOTH => 0x00A4
  | LD2450_CMD_GET_MAC_ADDRESS => 0x00A5
  | LD2450_CMD_SET_REGION => 0x00C2
  | LD2450_CMD_QUERY_REGION => 0x00C1
  end%Z.

Definition sample_headers : header_values :=
  {| LD2450_ACK_BUFFER_SIZE := 128;
     LD2450_ERROR_BUFFER_SIZE := 16;
     LD2450_RESTART_TIMEOUT_MS := 2000;
     configTICK_RATE_HZ := 1000;
     cmd_word := protocol_cmd_word;
     LD2450_BAUD_9600 := 1;
     LD2450_BAUD_460800 := 8;
     VERSION_STRING_SIZE := 32 |}.

Definition fresh_session : ld2450_state_t :=
  {| initialized := true; in_config_mode := false; mutex_held := false;
     cmd_buffer := repeat 0%Z 64; ack_buffer := repeat 0%Z 128;
     error_buffer := repeat 0%Z 16; error_buffer_len := 0 |}.

Definition world_with (exs : list exchange) : world :=
  {| dev := fresh_session; pending := exs; effects := [] |}.

(** A well-formed ACK of the device for the command word [c]: echo,
    marker 01, status 00 00, then the result data. *)
Definition ack_frame (c : Z) (data : list byte) : list byte :=
  LD2450_CONFIG_FRAME_HEADER
  ++ [Z.of_nat (4 + length data); 0; Z.land c 0xFF; 0x01; 0x00; 0x00]%Z
  ++ data ++ LD2450_CONFIG_FRAME_FOOTER.

(** A complete telemetry frame: header, 24 bytes of targets, footer. *)
Definition telemetry_frame : list byte :=
  LD2450_DATA_FRAME_HEADER ++ repeat 0x07%Z 24 ++ [0x55; 0xCC]%Z.

(** The device answers with the given chunks, one per loop iteration of
    one tick each. *)
Definition replies (chunks : list (list byte)) : exchange :=
  {| lock_wait := Some 0%N; tx_accepted := None;
     rx_polls := map (fun c => (1%N, UartData c)) chunks |}.

(** Another task keeps the mutex for good. *)
Definition locked_out : exchange :=
  {| lock_wait := None; tx_accepted := None; rx_polls := [] |}.

(** The firmware ACK of the protocol: firmware type 00 00, then the two
    main-version bytes [b12 b13] and the sub-version bytes 16 24 06 22. *)
Definition firmware_ack (b12 b13 : byte) : list byte :=
  ack_frame 0xA0%Z [0x00; 0x00; b12; b13; 0x16; 0x24; 0x06; 0x22]%Z.

(** The device acknowledges ENABLE_CONFIG, stays silent for two firmware
    queries, answers the third, and acknowledges END_CONFIG. *)
Definition firmware_retry_world (b12 b13 : byte) : world :=
  world_with [replies [ack_frame 0xFF%Z [0x01; 0x00; 0x40; 0x00]%Z];
              silent; silent;
              replies [firmware_ack b12 b13];
              replies [ack_frame 0xFE%Z []]].

Definition blank_version : ld2450_firmware_version_t :=
  {| main_version := 0; sub_version := 0;
     version_string := String.EmptyString |}.

(** Enter succeeds, the MAC query gets no answer, exit succeeds. *)
Definition mac_timeout_world : world :=
  world_with [replies [ack_frame 0xFF%Z [0x01; 0x00; 0x40; 0x00]%Z];
              silent;
              replies [ack_frame 0xFE%Z []]].

(** ** The validation as the specification words it

    [TooShort], [FramingMismatch], [UnexpectedEcho], [DeviceRejected], in
    that order; [None] is success.  The minimum length is the one the code
    checks. *)
Inductive ProtocolError :=
| TooShort
| FramingMismatch
| UnexpectedEcho
| DeviceRejected.

Definition spec_validate (hv : header_values) (bytes : list byte)
    (expected_command : ld2450_cmd_t) : option ProtocolError :=
  if length bytes <? 10 then Some TooShort
  else if negb (bytes_eqb (firstn 4 bytes) LD2450_CONFIG_FRAME_HEADER)
          || negb (bytes_eqb (skipn (length bytes - 4) bytes)
                             LD2450_CONFIG_FRAME_FOOTER)
  then Some FramingMismatch
  else if negb (Z.eqb (nth 6 bytes 0%Z) (cmd_low_byte hv expected_command))
          || negb (Z.eqb (nth 7 bytes 0%Z) 0x01)
  then Some UnexpectedEcho
  else if negb (Z.eqb (nth 8 bytes 0%Z) 0 && Z.eqb (nth 9 bytes 0%Z) 0)
  then Some DeviceRejected
  else None.

(** The code and the log line the driver gives for each kind. *)
Definition esp_err_of (e : option ProtocolError) : esp_err_t :=
  match e with
  | None => ESP_OK
  | Some TooShort => ESP_ERR_INVALID_SIZE
  | Some _ => ESP_ERR_INVALID_RESPONSE
  end.

Definition kind_of_log (l : log_line) : option ProtocolError :=
  match l with
  | LogAckTooShort _ => Some TooShort
  | LogBadHeaderFooter => Some FramingMismatch
  | LogBadEcho _ _ => Some UnexpectedEcho
  | LogBadStatus _ _ _ => Some DeviceRejected
  | _ => None
  end.

Definition kinds_logged (logs : list log_line) : list ProtocolError :=
  flat_map (fun l => match kind_of_log l with Some k => [k] | None => [] end)
           logs.

Definition kinds_expected (e : option ProtocolError) : list ProtocolError :=
  match e with Some k => [k] | None => [] end.

(** ** Vocabulary of the statements *)

Section Vocabulary.

Variable hv : header_values.

(** The loop has filled the first [rx_idx] bytes of its buffer, and only
    looks for the footer after the header. *)
Definition rx_inv (st : rx_state) : Prop :=
  rx_idx st <= length (rx_buf st)
  /\ (found_footer st = true -> found_header st = true).

(** What the await loop of a transaction started in [w] ends with. *)
Definition rx_result (cmd : ld2450_cmd_t) (timeout_ms : N) (w : world)
  : rx_state :=
  await_ack hv cmd (pdMS_TO_TICKS hv timeout_ms)
            (rx_polls (fst (next_exchange w))) 0%N (rx_start (dev w)).


(** The effects of a transaction up to and including the write. *)
Definition tx_effects (cmd : ld2450_cmd_t) (value : list byte) (w : world)
  : list effect :=
  let n := 8 + length value + 4 in
  [UartFlush; QueueDrain;
   UartWrite cmd
     (firstn n (write_at 0 (command_frame hv cmd value) (cmd_buffer (dev w))))
     (uart_write_bytes (fst (next_exchange w)) n)].


(** [idx > LD2450_ERROR_BUFFER_SIZE ? LD2450_ERROR_BUFFER_SIZE : idx] *)
Definition capture_len (idx : nat) : nat :=
  if LD2450_ERROR_BUFFER_SIZE hv <? idx then LD2450_ERROR_BUFFER_SIZE hv
  else idx.


(** A chunk the loop takes for a radar data frame, no longer than the ACK
    buffer. *)
Definition telemetry_chunk (f : list byte) : Prop :=
  firstn 4 f = LD2450_DATA_FRAME_HEADER
  /\ length f <= LD2450_ACK_BUFFER_SIZE hv.

(** An iteration that brings nothing of the ACK: no event, another event,
    or one telemetry frame in a read of its own. *)
Definition harmless (p : N * poll) : Prop :=
  match snd p with
  | UartData f => telemetry_chunk f
  | Quiet | OtherEvent => True
  end.

Definition ticks_spent (polls : list (N * poll)) : N :=
  fold_right (fun p acc => (fst p + acc)%N) 0%N polls.

Definition data_events (polls : list (N * poll)) : nat :=
  length (filter (fun p => match snd p with UartData _ => true | _ => false end)
                 polls).

Definition is_txn (e : effect) : bool :=
  match e with Txn _ _ _ => true | _ => false end.

(** The world in which [ld2450_enter_config_mode] runs its transaction:
    flag set, 50 ms waited, input flushed. *)
Definition entering (w : world) : world :=
  {| dev := set_in_config_mode true (dev w);
     pending := pending w;
     effects := effects w ++ [TaskDelay 50; UartFlush] |}.

Definition with_mode (b : bool) (w : world) : world :=
  {| dev := set_in_config_mode b (dev w);
     pending := pending w;
     effects := effects w |}.

(** Calls of the gate, and a run of several of them. *)
Inductive gate_call := Enter | Exit.

Definition gate_step (c : gate_call) : M esp_err_t :=
  match c with
  | Enter => ld2450_enter_config_mode hv
  | Exit => ld2450_exit_config_mode hv
  end.

Fixpoint run_gate (calls : list gate_call) : M (list esp_err_t) :=
  match calls with
  | [] => ret []
  | c :: rest =>
      r <- gate_step c ;;
      rs <- run_gate rest ;;
      ret (r :: rs)
  end.

(** The mode the device has last acknowledged, read off the effects:
    CONFIGURING ([true]) after an ENABLE_CONFIG transaction that returned
    ESP_OK, NORMAL after an END_CONFIG one, [start] before any. *)
Definition acknowledged_mode (start : bool) (es : list effect) : bool :=
  fold_left
    (fun m e =>
       match e with
       | Txn LD2450_CMD_ENABLE_CONFIG _ ESP_OK => true
       | Txn LD2450_CMD_END_CONFIG _ ESP_OK => false
       | _ => m
       end)
    es start.

(** The public bracketed operations with their arguments (for the
    getters, the old contents of the out-parameter). *)
Inductive public_op :=
| OpSetTrackingMode (mode : ld2450_tracking_mode_t)
| OpGetTrackingMode (mode : ld2450_tracking_mode_t)
| OpGetFirmwareVersion (version : ld2450_firmware_version_t)
| OpSetBaudRate (baud_rate : Z)
| OpRestoreFactorySettings
| OpRestartModule
| OpSetBluetooth (enable : bool)
| OpGetMacAddress (mac : list byte)
| OpSetRegionFilter (type : Z) (regions : regions3)
| OpGetRegionFilter (old : Z * regions3).

(** The error code an operation returns. *)
Definition run_op (op : public_op) : M esp_err_t :=
  match op with
  | OpSetTrackingMode mode => ld2450_set_tracking_mode hv mode
  | OpGetTrackingMode mode =>
      r <- ld2450_get_tracking_mode hv mode ;; ret (fst r)
  | OpGetFirmwareVersion version =>
      r <- ld2450_get_firmware_version hv version ;; ret (fst r)
  | OpSetBaudRate baud_rate => ld2450_set_baud_rate hv baud_rate
  | OpRestoreFactorySettings => ld2450_restore_factory_settings hv
  | OpRestartModule => ld2450_restart_module hv
  | OpSetBluetooth enable => ld2450_set_bluetooth hv enable
  | OpGetMacAddress mac =>
      r <- ld2450_get_mac_address hv mac ;; ret (fst r)
  | OpSetRegionFilter type regions => ld2450_set_region_filter hv type regions
  | OpGetRegionFilter old =>
      r <- ld2450_get_region_filter hv old ;; ret (fst r)
  end.

(** The argument check an operation makes before it enters. *)
Definition args_ok (op : public_op) : bool :=
  match op with
  | OpSetBaudRate baud_rate =>
      negb ((baud_rate <? LD2450_BAUD_9600 hv)%Z
            || (LD2450_BAUD_460800 hv <? baud_rate)%Z)
  | _ => true
  end.

(** The body of an operation: what it does between a successful enter and
    the exit, and the value of [ret] it reaches the exit with. *)
Definition body_step (op : public_op) : M esp_err_t :=
  match op with
  | OpSetTrackingMode mode =>
      b <- ld2450_send_command hv
             (match mode with
              | LD2450_MODE_SINGLE_TARGET => LD2450_CMD_SINGLE_TARGET
              | LD2450_MODE_MULTI_TARGET => LD2450_CMD_MULTI_TARGET
              end) [] false LD2450_CONFIG_TIMEOUT_MS ;;
      ret (fst b)
  | OpGetTrackingMode mode =>
      b <- ld2450_send_command hv LD2450_CMD_QUERY_TARGET_MODE [] true
                               LD2450_CONFIG_TIMEOUT_MS ;;
      ret (fst (parse_tracking_mode b mode))
  | OpGetFirmwareVersion version =>
      vTaskDelay 100 ;;
      uart_flush ;;
      drain_event_queue ;;
      a <- firmware_attempts hv 3 ESP_OK version ;;
      ret (if negb (is_ok (fst a)) then ESP_ERR_INVALID_RESPONSE else fst a)
  | OpSetBaudRate baud_rate =>
      b <- ld2450_send_command hv LD2450_CMD_SET_BAUD_RATE
             [Z.land baud_rate 0xFF; Z.land (Z.shiftr baud_rate 8) 0xFF]%Z
             false LD2450_CONFIG_TIMEOUT_MS ;;
      ret (fst b)
  | OpRestoreFactorySettings =>
      b <- ld2450_send_command hv LD2450_CMD_RESTORE_FACTORY [] false
                               LD2450_CONFIG_TIMEOUT_MS ;;
      ret (fst b)
  | OpRestartModule =>
      b <- ld2450_send_command hv LD2450_CMD_RESTART_MODULE [] false
                               LD2450_CONFIG_TIMEOUT_MS ;;
      ret (fst b)
  | OpSetBluetooth enable =>
      b <- ld2450_send_command hv LD2450_CMD_SET_BLUETOOTH
             [if enable then 0x01 else 0x00; 0x00]%Z
             false LD2450_CONFIG_TIMEOUT_MS ;;
      ret (fst b)
  | OpGetMacAddress mac =>
      b <- ld2450_send_command hv LD2450_CMD_GET_MAC_ADDRESS [0x01; 0x00]%Z
                               true LD2450_CONFIG_TIMEOUT_MS ;;
      ret (fst (parse_mac_address b mac))
  | OpSetRegionFilter type regions =>
      let '(r0, r1, r2) := regions in
      b <- ld2450_send_command hv LD2450_CMD_SET_REGION
             ([Z.land type 0xFF; Z.land (Z.shiftr type 8) 0xFF]%Z
              ++ region_bytes r0 ++ region_bytes r1 ++ region_bytes r2)
             false LD2450_CONFIG_TIMEOUT_MS ;;
      ret (fst b)
  | OpGetRegionFilter old =>
      b <- ld2450_send_command hv LD2450_CMD_QUERY_REGION [] true
                               LD2450_CONFIG_TIMEOUT_MS ;;
      ret (fst (parse_region_filter b old))
  end.

Definition is_restart (op : public_op) : bool :=
  match op with OpRestartModule => true | _ => false end.

(** The effects of the firmware retry loop with [n] attempts to go: each
    attempt is one READ_FW_VERSION transaction with a timeout of 1000 ms;
    a miss is followed by the 200 ms backoff and a flush, a hit ends the
    loop. *)
Inductive attempts_trace : nat -> list effect -> Prop :=
| attempts_done : attempts_trace 0 []
| attempts_hit (n : nat) (evs : list effect) :
    Forall (fun e => is_txn e = false) evs ->
    attempts_trace (S n)
      (evs ++ [Txn LD2450_CMD_READ_FW_VERSION 1000 ESP_OK])
| attempts_miss (n : nat) (evs : list effect) (r : esp_err_t)
    (rest : list effect) :
    Forall (fun e => is_txn e = false) evs ->
    attempts_trace n rest ->
    attempts_trace (S n)
      (evs ++ [Txn LD2450_CMD_READ_FW_VERSION 1000 r]
       ++ [TaskDelay 200; UartFlush] ++ rest).

(** An attempt of the firmware query counts when the transaction returned
    ESP_OK with an ACK of at least 22 bytes. *)
Definition attempt_hit (b : esp_err_t * option (list byte)) : bool :=
  is_ok (fst b) && (22 <=? length (ack_of (snd b))).

End Vocabulary.

(** ** Vocabulary of the further properties *)

(** The 26-byte value [ld2450_set_region_filter] builds: the filter type
    and the corners of the three regions, each little-endian. *)
Definition region_filter_value (type : Z) (regions : regions3) : list byte :=
  let '(r0, r1, r2) := regions in
  [Z.land type 0xFF; Z.land (Z.shiftr type 8) 0xFF]%Z
  ++ region_bytes r0 ++ region_bytes r1 ++ region_bytes r2.

Definition is_int16 (z : Z) : Prop := (-0x8000 <= z < 0x8000)%Z.

Definition region_in_range (r : ld2450_region_t) : Prop :=
  is_int16 (x1 r) /\ is_int16 (y1 r) /\ is_int16 (x2 r) /\ is_int16 (y2 r).

Definition is_byte (z : Z) : Prop := (0 <= z < 256)%Z.

(** The bytes a list of polls brings, in order. *)
Fixpoint polls_bytes (polls : list (N * poll)) : list byte :=
  match polls with
  | [] => []
  | (_, UartData chunk) :: rest => chunk ++ polls_bytes rest
  | _ :: rest => polls_bytes rest
  end.

(** No read of [polls] ends on what the loop takes for a complete frame:
    with [seen] received before, the bytes received up to the end of each
    read are fewer than 12 or do not end with the footer. *)
Fixpoint no_early_footer (seen : list byte) (polls : list (N * poll)) : Prop :=
  match polls with
  | [] => True
  | (_, UartData chunk) :: rest =>
      (length (seen ++ chunk) < 12
       \/ skipn (length (seen ++ chunk) - 4) (seen ++ chunk)
          <> LD2450_CONFIG_FRAME_FOOTER)
      /\ no_early_footer (seen ++ chunk) rest
  | _ :: rest => no_early_footer seen rest
  end.

(** What an operation returns on a session that is not initialised. *)
Definition uninitialized_code (op : public_op) : esp_err_t :=
  match op with
  | OpGetTrackingMode _ | OpGetFirmwareVersion _ | OpGetMacAddress _
  | OpSetRegionFilter _ _ | OpGetRegionFilter _ => ESP_ERR_INVALID_ARG
  | _ => ESP_ERR_INVALID_STATE
  end.

(** The ACK and diagnostic buffers of the session have the sizes their
    declarations give them, and the recorded diagnostic length is within
    the diagnostic buffer. *)
Definition session_sized (hv : header_values) (d : ld2450_state_t) : Prop :=
  length (ack_buffer d) = LD2450_ACK_BUFFER_SIZE hv
  /\ length (error_buffer d) = LD2450_ERROR_BUFFER_SIZE hv
  /\ error_buffer_len d <= LD2450_ERROR_BUFFER_SIZE hv.

(** The read operations that report any failure of their body as
    ESP_ERR_INVALID_RESPONSE. *)
Definition collapses_errors (op : public_op) : bool :=
  match op with
  | OpGetFirmwareVersion _ | OpGetMacAddress _ | OpGetRegionFilter _ => true
  | _ => false
  end.

(** The world in which [ld2450_get_firmware_version] starts its attempts:
    100 ms after the enter, input flushed and the event queue drained. *)
Definition settled (w : world) : world :=
  {| dev := dev w; pending := pending w;
     effects := effects w ++ [TaskDelay 100; UartFlush; QueueDrain] |}.

(** ** Vocabulary of the bracket and of the firmware retries *)

(** The transaction the body of an operation makes after a successful
    enter: its command, its value, and whether the caller's ACK buffer is
    passed.  (The firmware read repeats its query, see [attempt].) *)
Definition body_cmd (op : public_op) : ld2450_cmd_t :=
  match op with
  | OpSetTrackingMode LD2450_MODE_SINGLE_TARGET => LD2450_CMD_SINGLE_TARGET
  | OpSetTrackingMode LD2450_MODE_MULTI_TARGET => LD2450_CMD_MULTI_TARGET
  | OpGetTrackingMode _ => LD2450_CMD_QUERY_TARGET_MODE
  | OpGetFirmwareVersion _ => LD2450_CMD_READ_FW_VERSION
  | OpSetBaudRate _ => LD2450_CMD_SET_BAUD_RATE
  | OpRestoreFactorySettings => LD2450_CMD_RESTORE_FACTORY
  | OpRestartModule => LD2450_CMD_RESTART_MODULE
  | OpSetBluetooth _ => LD2450_CMD_SET_BLUETOOTH
  | OpGetMacAddress _ => LD2450_CMD_GET_MAC_ADDRESS
  | OpSetRegionFilter _ _ => LD2450_CMD_SET_REGION
  | OpGetRegionFilter _ => LD2450_CMD_QUERY_REGION
  end.

Definition body_value (op : public_op) : list byte :=
  match op with
  | OpSetBaudRate baud_rate =>
      [Z.land baud_rate 0xFF; Z.land (Z.shiftr baud_rate 8) 0xFF]%Z
  | OpSetBluetooth enable => [if enable then 0x01 else 0x00; 0x00]%Z
  | OpGetMacAddress _ => [0x01; 0x00]%Z
  | OpSetRegionFilter type regions => region_filter_value type regions
  | _ => []
  end.

Definition body_wants_ack (op : public_op) : bool :=
  match op with
  | OpGetTrackingMode _ | OpGetFirmwareVersion _ | OpGetMacAddress _
  | OpGetRegionFilter _ => true
  | _ => false
  end.

(** Whether a getter takes the acknowledgement its query came back with:
    a tracking-mode word of 1 or 2, a MAC frame of 16 bytes, a region
    frame of 40 bytes at least. *)
Definition reply_accepted (op : public_op) (ack : list byte) : bool :=
  match op with
  | OpGetTrackingMode _ =>
      Z.eqb (to_uint16 (le16 ack 10)) 1 || Z.eqb (to_uint16 (le16 ack 10)) 2
  | OpGetMacAddress _ => 16 <=? length ack
  | OpGetRegionFilter _ => 40 <=? length ack
  | _ => true
  end.

Definition is_firmware_read (op : public_op) : bool :=
  match op with OpGetFirmwareVersion _ => true | _ => false end.

(** The world after the backoff that follows a missed attempt: 200 ms
    waited, input flushed. *)
Definition backed_off (w : world) : world :=
  {| dev := dev w; pending := pending w;
     effects := effects w ++ [TaskDelay 200; UartFlush] |}.

(** One READ_FW_VERSION transaction with the timeout of 1000 ms. *)
Definition fw_query (hv : header_values)
  : M (esp_err_t * option (list byte)) :=
  ld2450_send_command hv LD2450_CMD_READ_FW_VERSION [] true 1000.

(** The world in which attempt [k] (counted from 0) starts when the
    attempts before it, made from [w] on, were each followed by the
    backoff; [attempt] is the transaction made there. *)
Fixpoint attempt_world (hv : header_values) (k : nat) (w : world) : world :=
  match k with
  | 0 => w
  | S k' => attempt_world hv k' (backed_off (snd (fw_query hv w)))
  end.

Definition attempt (hv : header_values) (k : nat) (w : world)
  : (esp_err_t * option (list byte)) * world :=
  fw_query hv (attempt_world hv k w).

(** The attempts before attempt [k] all missed. *)
Definition misses_before (hv : header_values) (k : nat) (w : world) : Prop :=
  forall j, j < k -> attempt_hit (fst (attempt hv j w)) = false.

(** * Properties *)

Unset Implicit Arguments.

(** Unfolds the monad of the embedding. *)
Ltac run_monad :=
  unfold uart_flush, drain_event_queue, vTaskDelay;
  unfold bind, get_dev, ret, modify_dev, emit;
  cbn [fst snd dev pending effects].

Section Validation.

Variable hv : header_values.

Lemma peek_in_range (buf : list byte) (i : nat) :
  i < length buf -> peek buf i = Some (nth i buf 0%Z).
Proof.
  intro Hi. unfold peek. now apply nth_error_nth'.
Qed.

Lemma memcmp_eq_in_range (buf : list byte) (off : nat) (pat : list byte) :
  off + length pat <= length buf ->
  memcmp_eq buf off pat = Some (mem_eq buf off pat).
Proof.
  intro Hle. unfold memcmp_eq.
  now rewrite (proj2 (Nat.leb_le _ _) Hle).
Qed.

Lemma mem_eq_tail (buf : list byte) :
  4 <= length buf ->
  mem_eq buf (length buf - 4) LD2450_CONFIG_FRAME_FOOTER
  = bytes_eqb (skipn (length buf - 4) buf) LD2450_CONFIG_FRAME_FOOTER.
Proof.
  intro Hlen. unfold mem_eq. f_equal.
  apply firstn_all2. rewrite length_skipn. simpl. lia.
Qed.

Lemma bytes_eqb_eq (a b : list byte) : bytes_eqb a b = true <-> a = b.
Proof.
  revert b. induction a as [|x a IH]; intros [|y b]; simpl;
    try (split; [discriminate | discriminate]); [tauto|].
  rewrite andb_true_iff, Z.eqb_eq, IH.
  split; [intros [-> ->]; reflexivity | intros [= -> ->]; auto].
Qed.

(** The code computes what [spec_validate] says, and logs the line of the
    kind it found. *)
Lemma validate_ack_eq (ack : list byte) (cmd : ld2450_cmd_t) :
  exists logs,
    ld2450_validate_ack hv ack cmd
    = Some (esp_err_of (spec_validate hv ack cmd), logs)
    /\ kinds_logged logs = kinds_expected (spec_validate hv ack cmd).
Proof.
  unfold ld2450_validate_ack, spec_validate.
  destruct (length ack <? 10) eqn:Hshort.
  - eexists; split; reflexivity.
  - apply Nat.ltb_ge in Hshort.
    rewrite (memcmp_eq_in_range ack 0 LD2450_CONFIG_FRAME_HEADER)
      by (simpl; lia).
    rewrite (memcmp_eq_in_range ack (length ack - 4) LD2450_CONFIG_FRAME_FOOTER)
      by (simpl; lia).
    rewrite mem_eq_tail by lia.
    rewrite !peek_in_range by lia.
    unfold mem_eq. change (skipn 0 ack) with ack.
    change (length LD2450_CONFIG_FRAME_HEADER) with 4.
    destruct (bytes_eqb (firstn 4 ack) LD2450_CONFIG_FRAME_HEADER); simpl;
      [|eexists; split; reflexivity].
    destruct (bytes_eqb (skipn (length ack - 4) ack)
                LD2450_CONFIG_FRAME_FOOTER); simpl;
      [|eexists; split; reflexivity].
    destruct (Z.eqb (nth 6 ack 0%Z) (cmd_low_byte hv cmd)); simpl;
      [|eexists; split; reflexivity].
    destruct (Z.eqb (nth 7 ack 0%Z) 1); simpl;
      [|eexists; split; reflexivity].
    destruct (Z.eqb (nth 8 ack 0%Z) 0); simpl;
      [|eexists; split; reflexivity].
    destruct (Z.eqb (nth 9 ack 0%Z) 0); simpl;
      eexists; split; reflexivity.
Qed.

(** Validation reads inside the bytes it is given: it always returns. *)
Lemma validate_ack_total (ack : list byte) (cmd : ld2450_cmd_t) :
  exists r logs, ld2450_validate_ack hv ack cmd = Some (r, logs).
Proof.
  destruct (validate_ack_eq ack cmd) as [logs [H _]]. eauto.
Qed.

Lemma spec_validate_ok (ack : list byte) (cmd : ld2450_cmd_t) :
  spec_validate hv ack cmd = None ->
  10 <= length ack
  /\ firstn 4 ack = LD2450_CONFIG_FRAME_HEADER
  /\ skipn (length ack - 4) ack = LD2450_CONFIG_FRAME_FOOTER
  /\ nth 6 ack 0%Z = cmd_low_byte hv cmd
  /\ nth 7 ack 0%Z = 0x01%Z
  /\ nth 8 ack 0%Z = 0%Z
  /\ nth 9 ack 0%Z = 0%Z.
Proof.
  unfold spec_validate.
  destruct (length ack <? 10) eqn:Hshort; [discriminate|].
  apply Nat.ltb_ge in Hshort.
  destruct (bytes_eqb (firstn 4 ack) _) eqn:Hh; simpl; [|discriminate].
  destruct (bytes_eqb (skipn _ ack) _) eqn:Hf; simpl; [|discriminate].
  destruct (Z.eqb (nth 6 ack 0%Z) _) eqn:H6; simpl; [|discriminate].
  destruct (Z.eqb (nth 7 ack 0%Z) _) eqn:H7; simpl; [|discriminate].
  destruct (Z.eqb (nth 8 ack 0%Z) _) eqn:H8; simpl; [|discriminate].
  destruct (Z.eqb (nth 9 ack 0%Z) _) eqn:H9; simpl; [|discriminate].
  intros _.
  apply bytes_eqb_eq in Hh, Hf. apply Z.eqb_eq in H6, H7, H8, H9.
  repeat split; assumption.
Qed.

Lemma esp_err_of_ok (e : option ProtocolError) :
  esp_err_of e = ESP_OK -> e = None.
Proof.
  destruct e as [[]|]; simpl; intro H; try discriminate; reflexivity.
Qed.

(** The checks past the length guard, with every read in bounds. *)
Lemma validate_ack_unfolded (ack : list byte) (cmd : ld2450_cmd_t) :
  10 <= length ack ->
  ld2450_validate_ack hv ack cmd =
  if negb (bytes_eqb (firstn 4 ack) LD2450_CONFIG_FRAME_HEADER)
     || negb (bytes_eqb (skipn (length ack - 4) ack)
                        LD2450_CONFIG_FRAME_FOOTER)
  then Some (ESP_ERR_INVALID_RESPONSE, [LogBadHeaderFooter])
  else if negb (Z.eqb (nth 6 ack 0%Z) (cmd_low_byte hv cmd))
          || negb (Z.eqb (nth 7 ack 0%Z) 0x01)
  then Some (ESP_ERR_INVALID_RESPONSE,
             [LogBadEcho (nth 6 ack 0%Z) (nth 7 ack 0%Z)])
  else if negb (Z.eqb (nth 8 ack 0%Z) 0) || negb (Z.eqb (nth 9 ack 0%Z) 0)
  then Some (ESP_ERR_INVALID_RESPONSE,
             [LogBadStatus cmd (nth 8 ack 0%Z) (nth 9 ack 0%Z)])
  else Some (ESP_OK, []).
Proof.
  intro Hlen. unfold ld2450_validate_ack.
  rewrite (proj2 (Nat.ltb_ge _ _) Hlen).
  rewrite (memcmp_eq_in_range ack 0 LD2450_CONFIG_FRAME_HEADER)
    by (simpl; lia).
  rewrite (memcmp_eq_in_range ack (length ack - 4)
             LD2450_CONFIG_FRAME_FOOTER) by (simpl; lia).
  rewrite mem_eq_tail by lia.
  rewrite !peek_in_range by lia.
  unfold mem_eq. change (skipn 0 ack) with ack.
  change (length LD2450_CONFIG_FRAME_HEADER) with 4.
  destruct (bytes_eqb (firstn 4 ack) _); simpl; [|reflexivity].
  destruct (bytes_eqb (skipn _ ack) _); simpl; [|reflexivity].
  destruct (Z.eqb (nth 6 ack 0%Z) _); simpl; [|reflexivity].
  destruct (Z.eqb (nth 7 ack 0%Z) _); simpl; [|reflexivity].
  destruct (Z.eqb (nth 8 ack 0%Z) _); simpl; [|reflexivity].
  destruct (Z.eqb (nth 9 ack 0%Z) _); reflexivity.
Qed.

Lemma validate_ack_accepts (ack : list byte) (cmd : ld2450_cmd_t) :
  spec_validate hv ack cmd = None ->
  ld2450_validate_ack hv ack cmd = Some (ESP_OK, []).
Proof.
  intro Hok.
  destruct (spec_validate_ok ack cmd Hok)
    as (Hlen & Hh & Hf & H6 & H7 & H8 & H9).
  rewrite validate_ack_unfolded by assumption.
  rewrite Hh, Hf, H6, H7, H8, H9, !Z.eqb_refl.
  reflexivity.
Qed.

Lemma nth_of_skipn (l : list byte) (n i : nat) :
  nth i (skipn n l) 0%Z = nth (n + i) l 0%Z.
Proof.
  revert l. induction n as [|n IH]; intros l; [reflexivity|].
  destruct l as [|x l]; simpl; [now destruct i | apply IH].
Qed.

(** No frame shorter than 14 bytes passes: the footer would lie over the
    marker or the status. *)
Lemma spec_validate_min_length (ack : list byte) (cmd : ld2450_cmd_t) :
  spec_validate hv ack cmd = None -> 14 <= length ack.
Proof.
  intro Hok. apply spec_validate_ok in Hok.
  destruct Hok as (Hlen & _ & Hf & _ & H7 & H8 & H9).
  assert (Hn : forall i, nth (length ack - 4 + i) ack 0%Z
                         = nth i LD2450_CONFIG_FRAME_FOOTER 0%Z).
  { intro i. rewrite <- nth_of_skipn, Hf. reflexivity. }
  destruct (le_lt_dec 14 (length ack)) as [|Hlt]; [assumption|exfalso].
  assert (Hcases : length ack = 10 \/ length ack = 11
                   \/ length ack = 12 \/ length ack = 13) by lia.
  destruct Hcases as [E|[E|[E|E]]].
  - specialize (Hn 1). rewrite E in Hn. simpl in Hn. rewrite Hn in H7.
    discriminate.
  - specialize (Hn 0). rewrite E in Hn. simpl in Hn. rewrite Hn in H7.
    discriminate.
  - specialize (Hn 0). rewrite E in Hn. simpl in Hn. rewrite Hn in H8.
    discriminate.
  - specialize (Hn 0). rewrite E in Hn. simpl in Hn. rewrite Hn in H9.
    discriminate.
Qed.

(** C2: ACK validation applies its checks in the specification's order.
    A buffer under the minimum length the code asks for, 10 bytes, gives
    the too-short error (ESP_ERR_INVALID_SIZE, "ACK too short"); else a
    wrong header or footer gives the framing error
    (ESP_ERR_INVALID_RESPONSE, "Invalid ACK header/footer"); else a wrong echo byte at offset 6 or marker at offset
    7 gives the echo error (ESP_ERR_INVALID_RESPONSE, "Invalid command
    echo"); else a nonzero status word at offsets 8-9 gives the
    device-rejected error (ESP_ERR_INVALID_RESPONSE, "Command failed with
    status"); otherwise validation succeeds. *)
Theorem validate_ack_checks_in_order (ack : list byte) (cmd : ld2450_cmd_t) :
  let len := length ack in
  let framing_ok := firstn 4 ack = LD2450_CONFIG_FRAME_HEADER
                    /\ skipn (len - 4) ack = LD2450_CONFIG_FRAME_FOOTER in
  let echo_ok := nth 6 ack 0%Z = cmd_low_byte hv cmd
                 /\ nth 7 ack 0%Z = 0x01%Z in
  let status_ok := nth 8 ack 0%Z = 0%Z /\ nth 9 ack 0%Z = 0%Z in
  (len < 10 ->
     ld2450_validate_ack hv ack cmd
     = Some (ESP_ERR_INVALID_SIZE, [LogAckTooShort len]))
  /\ (10 <= len -> ~ framing_ok ->
     ld2450_validate_ack hv ack cmd
     = Some (ESP_ERR_INVALID_RESPONSE, [LogBadHeaderFooter]))
  /\ (10 <= len -> framing_ok -> ~ echo_ok ->
     ld2450_validate_ack hv ack cmd
     = Some (ESP_ERR_INVALID_RESPONSE,
             [LogBadEcho (nth 6 ack 0%Z) (nth 7 ack 0%Z)]))
  /\ (10 <= len -> framing_ok -> echo_ok -> ~ status_ok ->
     ld2450_validate_ack hv ack cmd
     = Some (ESP_ERR_INVALID_RESPONSE,
             [LogBadStatus cmd (nth 8 ack 0%Z) (nth 9 ack 0%Z)]))
  /\ (10 <= len -> framing_ok -> echo_ok -> status_ok ->
     ld2450_validate_ack hv ack cmd = Some (ESP_OK, [])).
Proof.
  cbv zeta.
  split.
  { intro Hlen. unfold ld2450_validate_ack.
    now rewrite (proj2 (Nat.ltb_lt _ _) Hlen). }
  pose proof (validate_ack_unfolded ack cmd) as Hcode.
  assert (Hframe : firstn 4 ack = LD2450_CONFIG_FRAME_HEADER
                   /\ skipn (length ack - 4) ack = LD2450_CONFIG_FRAME_FOOTER
                   <-> negb (bytes_eqb (firstn 4 ack) LD2450_CONFIG_FRAME_HEADER)
                       || negb (bytes_eqb (skipn (length ack - 4) ack)
                                          LD2450_CONFIG_FRAME_FOOTER) = false).
  { rewrite orb_false_iff, !negb_false_iff, !bytes_eqb_eq. tauto. }
  assert (Hecho : nth 6 ack 0%Z = cmd_low_byte hv cmd /\ nth 7 ack 0%Z = 1%Z
                  <-> negb (Z.eqb (nth 6 ack 0%Z) (cmd_low_byte hv cmd))
                      || negb (Z.eqb (nth 7 ack 0%Z) 1) = false).
  { rewrite orb_false_iff, !negb_false_iff, !Z.eqb_eq. tauto. }
  assert (Hstat : nth 8 ack 0%Z = 0%Z /\ nth 9 ack 0%Z = 0%Z
                  <-> negb (Z.eqb (nth 8 ack 0%Z) 0)
                      || negb (Z.eqb (nth 9 ack 0%Z) 0) = false).
  { rewrite orb_false_iff, !negb_false_iff, !Z.eqb_eq. tauto. }
  repeat split; intros Hlen; rewrite (Hcode Hlen).
  - intro Hbad. rewrite Hframe in Hbad.
    apply not_false_is_true in Hbad. now rewrite Hbad.
  - intros Hf Hbad. rewrite Hframe in Hf. rewrite Hf.
    rewrite Hecho in Hbad. apply not_false_is_true in Hbad. now rewrite Hbad.
  - intros Hf He Hbad. rewrite Hframe in Hf. rewrite Hecho in He.
    rewrite Hf, He. rewrite Hstat in Hbad.
    apply not_false_is_true in Hbad. now rewrite Hbad.
  - intros Hf He Hs. rewrite Hframe in Hf. rewrite Hecho in He.
    rewrite Hstat in Hs. now rewrite Hf, He, Hs.
Qed.

(** C5: for a buffer of any length, zero included, validation makes no
    access outside the buffer (it returns a result), and a buffer that is
    too short, or has a wrong header, a wrong footer, a wrong echo or
    marker byte, or a nonzero status, is never accepted. *)
Theorem validate_ack_safe (ack : list byte) (cmd : ld2450_cmd_t) :
  exists r logs,
    ld2450_validate_ack hv ack cmd = Some (r, logs)
    /\ (length ack < 10 -> r = ESP_ERR_INVALID_SIZE)
    /\ (firstn 4 ack <> LD2450_CONFIG_FRAME_HEADER -> r <> ESP_OK)
    /\ (skipn (length ack - 4) ack <> LD2450_CONFIG_FRAME_FOOTER -> r <> ESP_OK)
    /\ (nth 6 ack 0%Z <> cmd_low_byte hv cmd -> r <> ESP_OK)
    /\ (nth 7 ack 0%Z <> 0x01%Z -> r <> ESP_OK)
    /\ (nth 8 ack 0%Z <> 0%Z \/ nth 9 ack 0%Z <> 0%Z -> r <> ESP_OK).
Proof.
  destruct (validate_ack_eq ack cmd) as [logs [H _]].
  exists (esp_err_of (spec_validate hv ack cmd)), logs.
  split; [exact H|].
  split.
  { intro Hlen. unfold spec_validate.
    now rewrite (proj2 (Nat.ltb_lt _ _) Hlen). }
  repeat split; intros Hbad Hok; apply esp_err_of_ok in Hok;
    apply spec_validate_ok in Hok;
    destruct Hok as (_ & Hh & Hf & H6 & H7 & H8 & H9);
    try contradiction.
  destruct Hbad; contradiction.
Qed.

(** C10: validation succeeds only on buffers of at least 14 bytes.  The
    guard asks for 10, but for a length of 10 to 13 the footer 04 03 02 01
    at the end covers the marker byte (which must be 01) or a status byte
    (which must be 00). *)
Theorem validate_ack_ok_min_length (ack : list byte) (cmd : ld2450_cmd_t)
    (logs : list log_line) :
  ld2450_validate_ack hv ack cmd = Some (ESP_OK, logs) ->
  14 <= length ack.
Proof.
  intro Hok.
  destruct (validate_ack_eq ack cmd) as [logs' [H _]].
  rewrite H in Hok. injection Hok as Hok _.
  apply esp_err_of_ok in Hok. now apply spec_validate_min_length in Hok.
Qed.

End Validation.

Section Transaction.

Variable hv : header_values.

Lemma write_at_0 (data buf : list byte) :
  write_at 0 data buf = data ++ skipn (length data) buf.
Proof. reflexivity. Qed.

Lemma firstn_skipn_app (n off : nat) (d t : list byte) :
  off + n <= length d ->
  firstn n (skipn off (d ++ t)) = firstn n (skipn off d).
Proof.
  intro Hle. rewrite skipn_app, firstn_app, length_skipn.
  replace (n - (length d - off)) with 0 by lia.
  now rewrite firstn_O, app_nil_r.
Qed.

Lemma mem_eq_write_at_0 (data buf : list byte) (off : nat) (pat : list byte) :
  off + length pat <= length data ->
  mem_eq (write_at 0 data buf) off pat = mem_eq data off pat.
Proof.
  intro Hle. unfold mem_eq. rewrite write_at_0.
  now rewrite firstn_skipn_app.
Qed.

Lemma firstn_write_at_0 (data buf : list byte) :
  firstn (length data) (write_at 0 data buf) = data.
Proof.
  rewrite write_at_0, firstn_app, Nat.sub_diag, firstn_O, app_nil_r.
  apply firstn_all.
Qed.

Lemma length_write_at (off : nat) (data buf : list byte) :
  off <= length buf -> off + length data <= length (write_at off data buf).
Proof.
  intro Hle. unfold write_at.
  rewrite !length_app, length_firstn, length_skipn. lia.
Qed.

Lemma rx_data_inv (cmd : ld2450_cmd_t) (chunk : list byte) (st : rx_state) :
  found_footer st = false -> rx_inv st -> rx_inv (rx_data hv cmd chunk st).
Proof.
  intros Hff [Hidx _]. unfold rx_data.
  set (got := firstn _ (rx_fifo st ++ chunk)).
  pose proof (length_write_at (rx_idx st) got (rx_buf st) Hidx) as Hlen.
  destruct (0 <? length got);
    [destruct (negb (found_header st) && (4 <=? rx_idx st + length got)
               && mem_eq _ 0 LD2450_DATA_FRAME_HEADER)|];
    (split; cbn [rx_idx rx_buf found_header found_footer]; [lia|]);
    rewrite ?Hff; try discriminate.
  destruct (found_header st); cbn [negb andb]; [reflexivity|].
  destruct (4 <=? rx_idx st + length got); [|discriminate].
  destruct (mem_eq _ 0 LD2450_CONFIG_FRAME_HEADER); cbn [andb];
    [reflexivity | discriminate].
Qed.

Lemma await_ack_inv (cmd : ld2450_cmd_t) (timeout_ticks : N)
    (polls : list (N * poll)) :
  forall elapsed st,
    found_footer st = false -> rx_inv st ->
    rx_inv (await_ack hv cmd timeout_ticks polls elapsed st).
Proof.
  induction polls as [|[dt p] rest IH]; intros elapsed st Hff Hinv; simpl.
  - now destruct (_ && _).
  - destruct (_ && _); [|assumption].
    destruct p as [| |chunk]; try (apply IH; assumption).
    destruct (found_footer (rx_data hv cmd chunk st)) eqn:Hff'.
    + now apply rx_data_inv.
    + apply IH; [assumption | now apply rx_data_inv].
Qed.

Lemma rx_start_inv (instance : ld2450_state_t) : rx_inv (rx_start instance).
Proof. split; simpl; [lia | discriminate]. Qed.

Lemma send_command_uninitialized cmd value want timeout_ms (w : world) :
  initialized (dev w) = false ->
  ld2450_send_command hv cmd value want timeout_ms w
  = ((ESP_ERR_INVALID_STATE, None), w).
Proof.
  intro Hinit. unfold ld2450_send_command. run_monad.
  now rewrite Hinit.
Qed.

Lemma send_command_busy cmd value want timeout_ms (w : world) :
  initialized (dev w) = true ->
  xSemaphoreTake (fst (next_exchange w)) (pdMS_TO_TICKS hv timeout_ms) = false ->
  ld2450_send_command hv cmd value want timeout_ms w
  = ((ESP_ERR_TIMEOUT, None),
     {| dev := dev w;
        pending := pending (snd (next_exchange w));
        effects := effects w ++ [Log (LogMutexTimeout cmd);
                                 Txn cmd timeout_ms ESP_ERR_TIMEOUT] |}).
Proof.
  intros Hinit Hlock. unfold ld2450_send_command. run_monad.
  rewrite Hinit. cbn [negb].
  destruct (next_exchange w) as [ex w1] eqn:Hex. cbn [fst snd] in *.
  rewrite Hlock. cbn [negb].
  unfold next_exchange in Hex.
  destruct (pending w); injection Hex as <- <-; reflexivity.
Qed.

Lemma next_exchange_keeps (w : world) :
  dev (snd (next_exchange w)) = dev w
  /\ effects (snd (next_exchange w)) = effects w.
Proof.
  unfold next_exchange. destruct (pending w); split; reflexivity.
Qed.

Lemma send_command_short_write cmd value want timeout_ms (w : world) :
  initialized (dev w) = true ->
  xSemaphoreTake (fst (next_exchange w)) (pdMS_TO_TICKS hv timeout_ms) = true ->
  uart_write_bytes (fst (next_exchange w)) (8 + length value + 4)
  <> Z.of_nat (8 + length value + 4) ->
  exists d,
    ld2450_send_command hv cmd value want timeout_ms w
    = ((ESP_FAIL, None),
       {| dev := d;
          pending := pending (snd (next_exchange w));
          effects := effects w ++ tx_effects hv cmd value w
                     ++ [Log (LogSendFailed cmd
                                (uart_write_bytes (fst (next_exchange w))
                                                  (8 + length value + 4))
                                (8 + length value + 4))]
                     ++ [Txn cmd timeout_ms ESP_FAIL] |})
    /\ initialized d = true
    /\ in_config_mode d = in_config_mode (dev w)
    /\ mutex_held d = false.
Proof.
  intros Hinit Hlock Hshort. unfold ld2450_send_command, tx_effects. run_monad.
  rewrite Hinit. cbn [negb].
  destruct (next_exchange_keeps w) as [Hd He].
  destruct (next_exchange w) as [ex w1]. cbn [fst snd] in *.
  rewrite Hlock. cbn [negb]. unfold build_command_packet.
  apply Z.eqb_neq in Hshort. rewrite Hshort.
  cbn [negb fst snd dev pending effects cmd_buffer set_cmd_buffer].
  rewrite He, <- !app_assoc.
  eexists. split; [reflexivity|].
  cbn. rewrite Hd. auto.
Qed.

Lemma send_command_incomplete cmd value want timeout_ms (w : world) :
  initialized (dev w) = true ->
  xSemaphoreTake (fst (next_exchange w)) (pdMS_TO_TICKS hv timeout_ms) = true ->
  uart_write_bytes (fst (next_exchange w)) (8 + length value + 4)
  = Z.of_nat (8 + length value + 4) ->
  negb (found_header (rx_result hv cmd timeout_ms w))
  || negb (found_footer (rx_result hv cmd timeout_ms w)) = true ->
  let st := rx_result hv cmd timeout_ms w in
  exists d,
    ld2450_send_command hv cmd value want timeout_ms w
    = ((ESP_ERR_TIMEOUT, None),
       {| dev := d;
          pending := pending (snd (next_exchange w));
          effects := effects w ++ tx_effects hv cmd value w
                     ++ repeat (Log LogRadarFrameSkipped) (rx_skips st)
                     ++ [Log (LogIncompleteAck cmd (rx_idx st))]
                     ++ [Txn cmd timeout_ms ESP_ERR_TIMEOUT] |})
    /\ initialized d = true
    /\ in_config_mode d = in_config_mode (dev w)
    /\ mutex_held d = false
    /\ ack_buffer d = rx_buf st
    /\ error_buffer_len d = capture_len hv (rx_idx st)
    /\ error_buffer d
       = (if 0 <? rx_idx st
          then write_at 0 (firstn (capture_len hv (rx_idx st)) (rx_buf st))
                        (error_buffer (dev w))
          else error_buffer (dev w)).
Proof.
  intros Hinit Hlock Hsent Hinc st.
  unfold ld2450_send_command, tx_effects. run_monad.
  rewrite Hinit. cbn [negb].
  destruct (next_exchange_keeps w) as [Hd He].
  unfold st, rx_result in *. clear st.
  destruct (next_exchange w) as [ex w1]. cbn [fst snd] in *.
  rewrite Hlock. cbn [negb]. unfold build_command_packet.
  rewrite Hsent, Z.eqb_refl. cbn [negb].
  rewrite Hinc.
  cbn [negb fst snd dev pending effects cmd_buffer set_cmd_buffer].
  rewrite He, <- !app_assoc.
  eexists. split; [reflexivity|].
  cbn. rewrite Hd. unfold capture_len. auto 10.
Qed.

Lemma send_command_complete cmd value want timeout_ms (w : world) :
  initialized (dev w) = true ->
  xSemaphoreTake (fst (next_exchange w)) (pdMS_TO_TICKS hv timeout_ms) = true ->
  uart_write_bytes (fst (next_exchange w)) (8 + length value + 4)
  = Z.of_nat (8 + length value + 4) ->
  found_header (rx_result hv cmd timeout_ms w) = true ->
  found_footer (rx_result hv cmd timeout_ms w) = true ->
  let st := rx_result hv cmd timeout_ms w in
  let ack := firstn (rx_idx st) (rx_buf st) in
  exists d r logs,
    ld2450_validate_ack hv ack cmd = Some (r, logs)
    /\ ld2450_send_command hv cmd value want timeout_ms w
       = ((r, if want then Some ack else None),
          {| dev := d;
             pending := pending (snd (next_exchange w));
             effects := effects w ++ tx_effects hv cmd value w
                        ++ repeat (Log LogRadarFrameSkipped) (rx_skips st)
                        ++ map Log logs
                        ++ [Txn cmd timeout_ms r] |})
    /\ initialized d = true
    /\ in_config_mode d = in_config_mode (dev w)
    /\ mutex_held d = false
    /\ ack_buffer d = rx_buf st
    /\ error_buffer_len d = error_buffer_len (dev w)
    /\ error_buffer d = error_buffer (dev w).
Proof.
  intros Hinit Hlock Hsent Hfh Hff st ack.
  destruct (validate_ack_total hv ack cmd) as [r [logs Hval]].
  unfold ld2450_send_command, tx_effects. run_monad.
  rewrite Hinit. cbn [negb].
  destruct (next_exchange_keeps w) as [Hd He].
  unfold ack, st, rx_result in *. clear ack st.
  destruct (next_exchange w) as [ex w1]. cbn [fst snd] in *.
  rewrite Hlock. cbn [negb]. unfold build_command_packet.
  rewrite Hsent, Z.eqb_refl. cbn [negb].
  rewrite Hfh, Hff. cbn [negb orb].
  rewrite Hval.
  cbn [negb fst snd dev pending effects cmd_buffer set_cmd_buffer].
  rewrite He, <- !app_assoc.
  exists (set_mutex_held false
            (set_ack_buffer
               (rx_buf (await_ack hv cmd (pdMS_TO_TICKS hv timeout_ms)
                                  (rx_polls ex) 0%N (rx_start (dev w))))
               (set_cmd_buffer
                  (write_at 0 (command_frame hv cmd value) (cmd_buffer (dev w)))
                  (set_mutex_held true (dev w1))))), r, logs.
  split; [reflexivity|]. split; [reflexivity|].
  cbn. rewrite Hd. auto 10.
Qed.

Lemma no_txn_in_logs (ls : list log_line) :
  Forall (fun e => is_txn e = false) (map Log ls).
Proof.
  induction ls; simpl; constructor; auto.
Qed.

Lemma no_txn_in_skips (n : nat) :
  Forall (fun e => is_txn e = false) (repeat (Log LogRadarFrameSkipped) n).
Proof.
  induction n; simpl; constructor; auto.
Qed.

Lemma no_txn_in_tx_effects cmd value (w : world) :
  Forall (fun e => is_txn e = false) (tx_effects hv cmd value w).
Proof.
  unfold tx_effects. repeat constructor.
Qed.

(** Every transaction of an initialised session leaves the mutex
    released and the mode flag alone, consumes one exchange and ends its
    effects with the one [Txn] mark that carries its result. *)
Lemma send_command_summary cmd value want timeout_ms (w : world) :
  initialized (dev w) = true ->
  exists r out d evs,
    ld2450_send_command hv cmd value want timeout_ms w
    = ((r, out),
       {| dev := d;
          pending := pending (snd (next_exchange w));
          effects := effects w ++ evs ++ [Txn cmd timeout_ms r] |})
    /\ initialized d = true
    /\ in_config_mode d = in_config_mode (dev w)
    /\ (mutex_held (dev w) = false -> mutex_held d = false)
    /\ Forall (fun e => is_txn e = false) evs.
Proof.
  intro Hinit.
  destruct (xSemaphoreTake (fst (next_exchange w))
              (pdMS_TO_TICKS hv timeout_ms)) eqn:Hlock.
  2:{ exists ESP_ERR_TIMEOUT, None, (dev w), [Log (LogMutexTimeout cmd)].
      rewrite send_command_busy by assumption.
      repeat split; auto; repeat constructor. }
  destruct (Z.eq_dec (uart_write_bytes (fst (next_exchange w))
                                       (8 + length value + 4))
                     (Z.of_nat (8 + length value + 4))) as [Hsent|Hshort].
  2:{ destruct (send_command_short_write cmd value want timeout_ms w
                  Hinit Hlock Hshort) as (d & Heq & Hi & Hc & Hm).
      exists ESP_FAIL, None, d.
      exists (tx_effects hv cmd value w
              ++ [Log (LogSendFailed cmd
                         (uart_write_bytes (fst (next_exchange w))
                                           (8 + length value + 4))
                         (8 + length value + 4))]).
      rewrite Heq, <- !app_assoc. repeat split; auto.
      apply Forall_app. split; [apply no_txn_in_tx_effects|].
      repeat constructor. }
  destruct (negb (found_header (rx_result hv cmd timeout_ms w))
            || negb (found_footer (rx_result hv cmd timeout_ms w))) eqn:Hinc.
  - destruct (send_command_incomplete cmd value want timeout_ms w
                Hinit Hlock Hsent Hinc) as (d & Heq & Hi & Hc & Hm & _).
    exists ESP_ERR_TIMEOUT, None, d.
    exists (tx_effects hv cmd value w
            ++ repeat (Log LogRadarFrameSkipped)
                      (rx_skips (rx_result hv cmd timeout_ms w))
            ++ [Log (LogIncompleteAck cmd
                       (rx_idx (rx_result hv cmd timeout_ms w)))]).
    rewrite Heq, <- !app_assoc. repeat split; auto.
    repeat (apply Forall_app; split);
      auto using no_txn_in_tx_effects, no_txn_in_skips.
  - apply orb_false_iff in Hinc. destruct Hinc as [Hfh Hff].
    apply negb_false_iff in Hfh, Hff.
    destruct (send_command_complete cmd value want timeout_ms w
                Hinit Hlock Hsent Hfh Hff)
      as (d & r & logs & _ & Heq & Hi & Hc & Hm & _).
    exists r, (if want
               then Some (firstn (rx_idx (rx_result hv cmd timeout_ms w))
                                 (rx_buf (rx_result hv cmd timeout_ms w)))
               else None), d.
    exists (tx_effects hv cmd value w
            ++ repeat (Log LogRadarFrameSkipped)
                      (rx_skips (rx_result hv cmd timeout_ms w))
            ++ map Log logs).
    rewrite Heq, <- !app_assoc. repeat split; auto.
    repeat (apply Forall_app; split);
      auto using no_txn_in_tx_effects, no_txn_in_skips, no_txn_in_logs.
Qed.

(** C6: when the await loop ends without a complete candidate (the
    deadline passed or the ACK buffer is full, so the header or the footer
    was not found), the transaction returns ESP_ERR_TIMEOUT with the mutex
    released, and the diagnostic buffer holds the bytes collected so far,
    cut to its capacity, whatever it held before. *)
Theorem incomplete_ack_is_captured cmd value want timeout_ms (w : world)
    (buffer_size : nat) :
  initialized (dev w) = true ->
  xSemaphoreTake (fst (next_exchange w)) (pdMS_TO_TICKS hv timeout_ms) = true ->
  uart_write_bytes (fst (next_exchange w)) (8 + length value + 4)
  = Z.of_nat (8 + length value + 4) ->
  negb (found_header (rx_result hv cmd timeout_ms w))
  || negb (found_footer (rx_result hv cmd timeout_ms w)) = true ->
  let st := rx_result hv cmd timeout_ms w in
  let collected := firstn (rx_idx st) (rx_buf st) in
  let result := ld2450_send_command hv cmd value want timeout_ms w in
  fst result = (ESP_ERR_TIMEOUT, None)
  /\ mutex_held (dev (snd result)) = false
  /\ error_buffer_len (dev (snd result))
     = Nat.min (rx_idx st) (LD2450_ERROR_BUFFER_SIZE hv)
  /\ ld2450_get_last_error_data (dev (snd result)) buffer_size true
     = (ESP_OK,
        firstn buffer_size (firstn (LD2450_ERROR_BUFFER_SIZE hv) collected)).
Proof.
  intros Hinit Hlock Hsent Hinc st collected result.
  destruct (send_command_incomplete cmd value want timeout_ms w
              Hinit Hlock Hsent Hinc)
    as (d & Heq & Hi & _ & Hm & _ & Hlen & Hbuf).
  fold st in Hlen, Hbuf.
  assert (Hinv : rx_inv st).
  { apply await_ack_inv; [reflexivity | apply rx_start_inv]. }
  destruct Hinv as [Hidx _].
  assert (Hcap : capture_len hv (rx_idx st)
                 = Nat.min (rx_idx st) (LD2450_ERROR_BUFFER_SIZE hv)).
  { unfold capture_len.
    destruct (Nat.ltb_spec (LD2450_ERROR_BUFFER_SIZE hv) (rx_idx st)); lia. }
  unfold result. rewrite Heq. cbn [fst snd dev].
  repeat split; auto; [congruence|].
  unfold ld2450_get_last_error_data. rewrite Hi. cbn [negb].
  rewrite Hlen, Hbuf, Hcap.
  set (n := Nat.min (rx_idx st) (LD2450_ERROR_BUFFER_SIZE hv)).
  f_equal. unfold collected.
  rewrite (firstn_firstn _ (LD2450_ERROR_BUFFER_SIZE hv) (rx_idx st)).
  rewrite (Nat.min_comm (LD2450_ERROR_BUFFER_SIZE hv)). fold n.
  assert (Hcopy : firstn n (if 0 <? rx_idx st
                            then write_at 0 (firstn n (rx_buf st))
                                          (error_buffer (dev w))
                            else error_buffer (dev w))
                  = firstn n (rx_buf st)).
  { destruct (Nat.ltb_spec 0 (rx_idx st)) as [Hpos|Hzero].
    - assert (Hn : length (firstn n (rx_buf st)) = n)
        by (rewrite length_firstn; unfold n; lia).
      rewrite <- Hn at 1. apply firstn_write_at_0.
    - replace n with 0 by (unfold n; lia). reflexivity. }
  destruct (Nat.ltb_spec buffer_size n) as [Hsmall|Hbig].
  - rewrite <- Hcopy at 2. rewrite firstn_firstn.
    now rewrite (Nat.min_l buffer_size n) by lia.
  - rewrite Hcopy. symmetry. apply firstn_all2.
    rewrite length_firstn. lia.
Qed.

(** C9 (amended): a transaction that cannot take the mutex within
    [pdMS_TO_TICKS(timeout_ms)] fails with ESP_ERR_TIMEOUT before anything
    is flushed or written, leaving the session as it was; this is the same
    code a transaction returns when no complete ACK arrives before the
    deadline, and only the log line tells the two apart. *)
Theorem busy_and_protocol_timeout_share_code cmd value want timeout_ms
    (w : world) :
  initialized (dev w) = true ->
  xSemaphoreTake (fst (next_exchange w)) (pdMS_TO_TICKS hv timeout_ms) = false ->
  let result := ld2450_send_command hv cmd value want timeout_ms w in
  fst result = (ESP_ERR_TIMEOUT, None)
  /\ dev (snd result) = dev w
  /\ effects (snd result)
     = effects w ++ [Log (LogMutexTimeout cmd);
                     Txn cmd timeout_ms ESP_ERR_TIMEOUT]
  /\ forall cmd' value' want' timeout_ms' (w' : world),
       initialized (dev w') = true ->
       xSemaphoreTake (fst (next_exchange w'))
                      (pdMS_TO_TICKS hv timeout_ms') = true ->
       uart_write_bytes (fst (next_exchange w')) (8 + length value' + 4)
       = Z.of_nat (8 + length value' + 4) ->
       negb (found_header (rx_result hv cmd' timeout_ms' w'))
       || negb (found_footer (rx_result hv cmd' timeout_ms' w')) = true ->
       fst (fst (ld2450_send_command hv cmd' value' want' timeout_ms' w'))
       = fst (fst result).
Proof.
  intros Hinit Hlock result. unfold result.
  rewrite send_command_busy by assumption. cbn [fst snd dev effects].
  repeat split.
  intros cmd' value' want' timeout_ms' w' Hinit' Hlock' Hsent' Hinc'.
  destruct (send_command_incomplete cmd' value' want' timeout_ms' w'
              Hinit' Hlock' Hsent' Hinc') as (d & Heq & _).
  now rewrite Heq.
Qed.

(** *** Resynchronisation *)

Lemma header_chunk_length (f pat : list byte) :
  firstn 4 f = pat -> length pat = 4 -> 4 <= length f.
Proof.
  intros Hf Hp. rewrite <- Hf, length_firstn in Hp. lia.
Qed.

(** The reset of the accumulation buffer, in any state of the loop. *)
Lemma rx_data_reset cmd (chunk : list byte) (st : rx_state) :
  let got := firstn (Nat.min (length chunk)
                             (LD2450_ACK_BUFFER_SIZE hv - rx_idx st))
                    (rx_fifo st ++ chunk) in
  found_header st = false ->
  0 < length got ->
  4 <= rx_idx st + length got ->
  firstn 4 (write_at (rx_idx st) got (rx_buf st)) = LD2450_DATA_FRAME_HEADER ->
  rx_idx (rx_data hv cmd chunk st) = 0
  /\ found_header (rx_data hv cmd chunk st) = false
  /\ rx_skips (rx_data hv cmd chunk st) = S (rx_skips st).
Proof.
  intros got Hfh Hpos Hfour Hhdr.
  assert (Hm : mem_eq (write_at (rx_idx st) got (rx_buf st)) 0
                      LD2450_DATA_FRAME_HEADER = true).
  { unfold mem_eq. change (skipn 0 ?l) with l.
    change (length LD2450_DATA_FRAME_HEADER) with 4.
    now rewrite Hhdr. }
  unfold rx_data. fold got.
  rewrite (proj2 (Nat.ltb_lt _ _) Hpos), Hfh.
  rewrite (proj2 (Nat.leb_le _ _) Hfour), Hm.
  cbn [negb andb rx_idx found_header rx_skips]. auto.
Qed.

(** A telemetry frame read on its own into the empty buffer is dropped. *)
Lemma rx_data_telemetry cmd (f : list byte) (st : rx_state) :
  telemetry_chunk hv f ->
  rx_idx st = 0 -> rx_fifo st = [] -> found_header st = false ->
  rx_data hv cmd f st
  = {| rx_buf := write_at 0 f (rx_buf st); rx_idx := 0; rx_fifo := [];
       found_header := false; found_cmd_echo := found_cmd_echo st;
       found_footer := found_footer st; rx_skips := S (rx_skips st) |}.
Proof.
  intros [Hhdr Hcap] Hidx Hfifo Hfh.
  pose proof (header_chunk_length f _ Hhdr eq_refl) as Hlen.
  unfold rx_data. rewrite Hidx, Hfifo, Hfh, Nat.sub_0_r.
  cbn [app Nat.add negb andb].
  rewrite (Nat.min_l _ _ Hcap), firstn_all, skipn_all.
  rewrite (proj2 (Nat.ltb_lt 0 (length f))) by lia.
  rewrite (proj2 (Nat.leb_le 4 (length f)) Hlen).
  rewrite mem_eq_write_at_0 by (simpl; lia).
  unfold mem_eq. change (skipn 0 f) with f.
  change (length LD2450_DATA_FRAME_HEADER) with 4.
  rewrite Hhdr. reflexivity.
Qed.

(** A well-formed ACK read on its own into the empty buffer completes the
    candidate. *)
Lemma rx_data_ack cmd (ack : list byte) (st : rx_state) :
  spec_validate hv ack cmd = None ->
  length ack <= LD2450_ACK_BUFFER_SIZE hv ->
  rx_idx st = 0 -> rx_fifo st = [] -> found_header st = false ->
  found_header (rx_data hv cmd ack st) = true
  /\ found_footer (rx_data hv cmd ack st) = true
  /\ rx_idx (rx_data hv cmd ack st) = length ack
  /\ firstn (length ack) (rx_buf (rx_data hv cmd ack st)) = ack
  /\ rx_skips (rx_data hv cmd ack st) = rx_skips st.
Proof.
  intros Hok Hcap Hidx Hfifo Hfh.
  pose proof (spec_validate_ok hv ack cmd Hok)
    as (Hlen & Hhdr & Hftr & _).
  pose proof (spec_validate_min_length hv ack cmd Hok) as Hlen14.
  unfold rx_data. rewrite Hidx, Hfifo, Hfh, Nat.sub_0_r.
  cbn [app Nat.add negb andb].
  rewrite (Nat.min_l _ _ Hcap), firstn_all, skipn_all.
  rewrite (proj2 (Nat.ltb_lt 0 (length ack))) by lia.
  rewrite (proj2 (Nat.leb_le 4 (length ack))) by lia.
  rewrite (proj2 (Nat.leb_le 12 (length ack))) by lia.
  rewrite !mem_eq_write_at_0 by (simpl; lia).
  assert (Hd : mem_eq ack 0 LD2450_DATA_FRAME_HEADER = false).
  { unfold mem_eq. change (skipn 0 ack) with ack.
    change (length LD2450_DATA_FRAME_HEADER) with 4. now rewrite Hhdr. }
  assert (Hc : mem_eq ack 0 LD2450_CONFIG_FRAME_HEADER = true).
  { unfold mem_eq. change (skipn 0 ack) with ack.
    change (length LD2450_CONFIG_FRAME_HEADER) with 4. now rewrite Hhdr. }
  assert (Hf : mem_eq ack (length ack - 4) LD2450_CONFIG_FRAME_FOOTER = true).
  { rewrite mem_eq_tail by lia. now rewrite Hftr. }
  rewrite Hd, Hc, Hf.
  cbn [andb found_header found_footer rx_idx rx_buf rx_skips].
  repeat split; try reflexivity.
  apply firstn_write_at_0.
Qed.

Lemma await_ack_noise cmd (timeout_ticks : N) (rest : list (N * poll))
    (noise : list (N * poll)) :
  forall elapsed st,
    Forall (harmless hv) noise ->
    0 < LD2450_ACK_BUFFER_SIZE hv ->
    (elapsed + ticks_spent noise < timeout_ticks)%N ->
    rx_idx st = 0 -> rx_fifo st = [] ->
    found_header st = false -> found_footer st = false ->
    exists st',
      await_ack hv cmd timeout_ticks (noise ++ rest) elapsed st
      = await_ack hv cmd timeout_ticks rest (elapsed + ticks_spent noise)%N st'
      /\ rx_idx st' = 0 /\ rx_fifo st' = []
      /\ found_header st' = false /\ found_footer st' = false
      /\ rx_skips st' = rx_skips st + data_events noise.
Proof.
  induction noise as [|[dt p] noise IH];
    intros elapsed st Hharm Hcap Htime Hidx Hfifo Hfh Hff.
  - exists st. cbn [app ticks_spent fold_right data_events filter length].
    rewrite N.add_0_r, Nat.add_0_r. auto 10.
  - inversion Hharm as [|? ? Hp Hrest]; subst.
    cbn [ticks_spent fold_right fst] in Htime. fold (ticks_spent noise) in Htime.
    cbn [app await_ack].
    rewrite (proj2 (N.ltb_lt elapsed timeout_ticks)) by lia.
    rewrite Hidx, (proj2 (Nat.ltb_lt 0 _) Hcap). cbn [andb].
    cbn [ticks_spent fold_right fst]. fold (ticks_spent noise).
    rewrite N.add_assoc.
    destruct p as [| |f].
    + destruct (IH (elapsed + dt)%N st Hrest Hcap) as (st' & H); auto; [lia|].
      exists st'. exact H.
    + destruct (IH (elapsed + dt)%N st Hrest Hcap) as (st' & H); auto; [lia|].
      exists st'. exact H.
    + unfold harmless in Hp. cbn [snd] in Hp.
      rewrite (rx_data_telemetry cmd f st Hp Hidx Hfifo Hfh).
      cbn [found_footer]. rewrite Hff.
      match goal with
      | |- context [await_ack hv cmd timeout_ticks (noise ++ rest) _ ?s] =>
          destruct (IH (elapsed + dt)%N s Hrest Hcap)
            as (st' & Heq & H1 & H2 & H3 & H4 & H5); auto; [lia|]
      end.
      exists st'. rewrite Heq. repeat split; auto.
      rewrite H5. cbn [rx_skips data_events filter snd length]. 
      fold (data_events noise). lia.
Qed.

Lemma rx_result_aligned cmd timeout_ms (w : world)
    (noise : list (N * poll)) (dt : N) (ack : list byte)
    (rest : list (N * poll)) :
  rx_polls (fst (next_exchange w)) = noise ++ (dt, UartData ack) :: rest ->
  Forall (harmless hv) noise ->
  (ticks_spent noise < pdMS_TO_TICKS hv timeout_ms)%N ->
  spec_validate hv ack cmd = None ->
  length ack <= LD2450_ACK_BUFFER_SIZE hv ->
  let st := rx_result hv cmd timeout_ms w in
  found_header st = true /\ found_footer st = true
  /\ firstn (rx_idx st) (rx_buf st) = ack
  /\ rx_skips st = data_events noise.
Proof.
  intros Hpolls Hharm Htime Hok Hcap st.
  pose proof (spec_validate_ok hv ack cmd Hok) as (Hlen & _).
  assert (Hpos : 0 < LD2450_ACK_BUFFER_SIZE hv) by lia.
  destruct (await_ack_noise cmd (pdMS_TO_TICKS hv timeout_ms)
              ((dt, UartData ack) :: rest) noise 0%N (rx_start (dev w))
              Hharm Hpos)
    as (st' & Heq & Hidx & Hfifo & Hfh & Hff & Hskips); auto.
  unfold st, rx_result. rewrite Hpolls, Heq.
  cbn [await_ack].
  rewrite (proj2 (N.ltb_lt _ _)) by lia.
  rewrite Hidx, (proj2 (Nat.ltb_lt 0 _) Hpos). cbn [andb].
  destruct (rx_data_ack cmd ack st' Hok Hcap Hidx Hfifo Hfh)
    as (H1 & H2 & H3 & H4 & H5).
  rewrite H2. rewrite H3, H5, Hskips. auto.
Qed.

(** C1 (amended): the await loop empties its accumulation buffer whenever
    the configuration header is not yet confirmed and the first four
    accumulated bytes are the telemetry header; and when every telemetry
    frame and the ACK frame come each in a read of their own (a UART_DATA
    event per frame, none longer than the ACK buffer), the ACK's event
    arriving before the deadline, the transaction succeeds and returns
    exactly the bytes of the ACK frame. *)
Theorem resynchronises_frame_aligned_stream cmd value timeout_ms (w : world)
    (noise : list (N * poll)) (dt : N) (ack : list byte)
    (rest : list (N * poll)) :
  initialized (dev w) = true ->
  xSemaphoreTake (fst (next_exchange w)) (pdMS_TO_TICKS hv timeout_ms) = true ->
  uart_write_bytes (fst (next_exchange w)) (8 + length value + 4)
  = Z.of_nat (8 + length value + 4) ->
  rx_polls (fst (next_exchange w)) = noise ++ (dt, UartData ack) :: rest ->
  Forall (harmless hv) noise ->
  (ticks_spent noise < pdMS_TO_TICKS hv timeout_ms)%N ->
  spec_validate hv ack cmd = None ->
  length ack <= LD2450_ACK_BUFFER_SIZE hv ->
  let result := ld2450_send_command hv cmd value true timeout_ms w in
  fst result = (ESP_OK, Some ack)
  /\ effects (snd result)
     = effects w ++ tx_effects hv cmd value w
       ++ repeat (Log LogRadarFrameSkipped) (data_events noise)
       ++ [Txn cmd timeout_ms ESP_OK]
  /\ (forall (chunk : list byte) (st : rx_state),
        let got := firstn (Nat.min (length chunk)
                                   (LD2450_ACK_BUFFER_SIZE hv - rx_idx st))
                          (rx_fifo st ++ chunk) in
        found_header st = false ->
        0 < length got ->
        4 <= rx_idx st + length got ->
        firstn 4 (write_at (rx_idx st) got (rx_buf st))
        = LD2450_DATA_FRAME_HEADER ->
        rx_idx (rx_data hv cmd chunk st) = 0).
Proof.
  intros Hinit Hlock Hsent Hpolls Hharm Htime Hok Hcap result.
  destruct (rx_result_aligned cmd timeout_ms w noise dt ack rest
              Hpolls Hharm Htime Hok Hcap) as (Hfh & Hff & Hack & Hskips).
  destruct (send_command_complete cmd value true timeout_ms w
              Hinit Hlock Hsent Hfh Hff)
    as (d & r & logs & Hval & Heq & _).
  rewrite Hack in Hval, Heq. rewrite Hskips in Heq.
  rewrite (validate_ack_accepts hv ack cmd Hok) in Hval.
  injection Hval as <- <-. cbn [map app] in Heq.
  unfold result. rewrite Heq. cbn [fst snd effects].
  split; [reflexivity|]. split; [reflexivity|].
  intros chunk st Hfh' Hpos Hfour Hhdr.
  apply (rx_data_reset cmd chunk st Hfh' Hpos Hfour Hhdr).
Qed.

End Transaction.

Section Gate.

Variable hv : header_values.

Lemma is_ok_true (r : esp_err_t) : is_ok r = true <-> r = ESP_OK.
Proof. destruct r; simpl; split; congruence. Qed.

Lemma is_ok_false (r : esp_err_t) : is_ok r = false <-> r <> ESP_OK.
Proof. destruct r; simpl; split; congruence. Qed.

Lemma enter_uninitialized (w : world) :
  initialized (dev w) = false ->
  ld2450_enter_config_mode hv w = (ESP_ERR_INVALID_STATE, w).
Proof.
  intro Hinit. unfold ld2450_enter_config_mode. run_monad.
  now rewrite Hinit.
Qed.

Lemma enter_already (w : world) :
  initialized (dev w) = true -> in_config_mode (dev w) = true ->
  ld2450_enter_config_mode hv w = (ESP_OK, w).
Proof.
  intros Hinit Hmode. unfold ld2450_enter_config_mode. run_monad.
  now rewrite Hinit, Hmode.
Qed.

Lemma enter_runs (w : world) :
  initialized (dev w) = true -> in_config_mode (dev w) = false ->
  ld2450_enter_config_mode hv w
  = let t := ld2450_send_command hv LD2450_CMD_ENABLE_CONFIG [0x01; 0x00]%Z
                                 false LD2450_CONFIG_TIMEOUT_MS (entering w) in
    (fst (fst t),
     if is_ok (fst (fst t)) then snd t else with_mode false (snd t)).
Proof.
  intros Hinit Hmode. unfold ld2450_enter_config_mode. run_monad.
  rewrite Hinit, Hmode. cbn [negb].
  rewrite <- app_assoc.
  change {| dev := set_in_config_mode true (dev w); pending := pending w;
            effects := effects w ++ [TaskDelay 50] ++ [UartFlush] |}
    with (entering w).
  destruct (ld2450_send_command hv LD2450_CMD_ENABLE_CONFIG _ false _
              (entering w)) as [[r out] w2].
  cbn [fst snd]. destruct (is_ok r); reflexivity.
Qed.

Lemma exit_uninitialized (w : world) :
  initialized (dev w) = false ->
  ld2450_exit_config_mode hv w = (ESP_ERR_INVALID_STATE, w).
Proof.
  intro Hinit. unfold ld2450_exit_config_mode. run_monad.
  now rewrite Hinit.
Qed.

Lemma exit_already (w : world) :
  initialized (dev w) = true -> in_config_mode (dev w) = false ->
  ld2450_exit_config_mode hv w = (ESP_OK, w).
Proof.
  intros Hinit Hmode. unfold ld2450_exit_config_mode. run_monad.
  now rewrite Hinit, Hmode.
Qed.

Lemma exit_runs (w : world) :
  initialized (dev w) = true -> in_config_mode (dev w) = true ->
  ld2450_exit_config_mode hv w
  = let t := ld2450_send_command hv LD2450_CMD_END_CONFIG [] false
                                 LD2450_CONFIG_TIMEOUT_MS w in
    (fst (fst t),
     if is_ok (fst (fst t)) then with_mode false (snd t) else snd t).
Proof.
  intros Hinit Hmode. unfold ld2450_exit_config_mode. run_monad.
  rewrite Hinit, Hmode. cbn [negb].
  destruct (ld2450_send_command hv LD2450_CMD_END_CONFIG _ false _ w)
    as [[r out] w2].
  cbn [fst snd]. destruct (is_ok r); reflexivity.
Qed.

Lemma acknowledged_mode_app (start : bool) (a b : list effect) :
  acknowledged_mode start (a ++ b)
  = acknowledged_mode (acknowledged_mode start a) b.
Proof. unfold acknowledged_mode. apply fold_left_app. Qed.

Lemma acknowledged_mode_quiet (start : bool) (evs : list effect) :
  Forall (fun e => is_txn e = false) evs ->
  acknowledged_mode start evs = start.
Proof.
  revert start. induction evs as [|e evs IH]; intros start Hq; [reflexivity|].
  inversion Hq as [|? ? He Hrest]; subst.
  destruct e; try discriminate; apply (IH _ Hrest).
Qed.

(** The flag after a call of the gate whose transaction runs. *)
Lemma enter_result (w : world) :
  initialized (dev w) = true -> in_config_mode (dev w) = false ->
  exists r evs,
    fst (ld2450_enter_config_mode hv w) = r
    /\ effects (snd (ld2450_enter_config_mode hv w))
       = effects w ++ [TaskDelay 50; UartFlush] ++ evs
         ++ [Txn LD2450_CMD_ENABLE_CONFIG LD2450_CONFIG_TIMEOUT_MS r]
    /\ Forall (fun e => is_txn e = false) evs
    /\ in_config_mode (dev (snd (ld2450_enter_config_mode hv w))) = is_ok r
    /\ initialized (dev (snd (ld2450_enter_config_mode hv w))) = true
    /\ pending (snd (ld2450_enter_config_mode hv w))
       = pending (snd (next_exchange w)).
Proof.
  intros Hinit Hmode. rewrite enter_runs by assumption.
  destruct (send_command_summary hv LD2450_CMD_ENABLE_CONFIG [0x01; 0x00]%Z
              false LD2450_CONFIG_TIMEOUT_MS (entering w) Hinit)
    as (r & out & d & evs & Heq & Hi & Hc & _ & Hq).
  rewrite Heq. cbn [fst snd]. exists r, evs.
  assert (Hp : pending (snd (next_exchange (entering w)))
               = pending (snd (next_exchange w))).
  { unfold next_exchange, entering. cbn [pending].
    destruct (pending w) eqn:E; cbn [snd pending]; auto. }
  destruct (is_ok r) eqn:Hok; cbn [with_mode dev effects pending entering];
    rewrite <- ?app_assoc; repeat split; auto.
Qed.

Lemma exit_result (w : world) :
  initialized (dev w) = true -> in_config_mode (dev w) = true ->
  exists r evs,
    fst (ld2450_exit_config_mode hv w) = r
    /\ effects (snd (ld2450_exit_config_mode hv w))
       = effects w ++ evs
         ++ [Txn LD2450_CMD_END_CONFIG LD2450_CONFIG_TIMEOUT_MS r]
    /\ Forall (fun e => is_txn e = false) evs
    /\ in_config_mode (dev (snd (ld2450_exit_config_mode hv w)))
       = negb (is_ok r)
    /\ initialized (dev (snd (ld2450_exit_config_mode hv w))) = true
    /\ pending (snd (ld2450_exit_config_mode hv w))
       = pending (snd (next_exchange w)).
Proof.
  intros Hinit Hmode. rewrite exit_runs by assumption.
  destruct (send_command_summary hv LD2450_CMD_END_CONFIG [] false
              LD2450_CONFIG_TIMEOUT_MS w Hinit)
    as (r & out & d & evs & Heq & Hi & Hc & _ & Hq).
  rewrite Heq. cbn [fst snd]. exists r, evs.
  destruct (is_ok r) eqn:Hok; cbn [with_mode dev effects pending negb];
    repeat split; auto; congruence.
Qed.

Lemma gate_step_keeps_agreement (c : gate_call) (w : world) :
  in_config_mode (dev w) = acknowledged_mode false (effects w) ->
  in_config_mode (dev (snd (gate_step hv c w)))
  = acknowledged_mode false (effects (snd (gate_step hv c w))).
Proof.
  intro Hagree.
  destruct (initialized (dev w)) eqn:Hinit.
  2:{ destruct c; cbn [gate_step];
        [rewrite enter_uninitialized | rewrite exit_uninitialized]; auto. }
  destruct c; cbn [gate_step]; destruct (in_config_mode (dev w)) eqn:Hmode.
  - rewrite enter_already by assumption. cbn [snd]. congruence.
  - destruct (enter_result w Hinit Hmode)
      as (r & evs & _ & He & Hq & Hm & _).
    rewrite Hm, He, !acknowledged_mode_app, <- Hagree.
    rewrite (acknowledged_mode_quiet _ evs Hq).
    destruct r; reflexivity.
  - destruct (exit_result w Hinit Hmode)
      as (r & evs & _ & He & Hq & Hm & _).
    rewrite Hm, He, !acknowledged_mode_app, <- Hagree.
    rewrite (acknowledged_mode_quiet _ evs Hq).
    destruct r; reflexivity.
  - rewrite exit_already by assumption. cbn [snd]. congruence.
Qed.

Lemma run_gate_cons (c : gate_call) (rest : list gate_call) (w : world) :
  snd (run_gate hv (c :: rest) w)
  = snd (run_gate hv rest (snd (gate_step hv c w))).
Proof.
  cbn [run_gate]. unfold bind, ret.
  destruct (gate_step hv c w) as [r w1]. cbn [snd].
  destruct (run_gate hv rest w1). reflexivity.
Qed.

(** C4: the gate's flag follows the acknowledgements.  [enter] on a gate
    that is CONFIGURING, and [exit] on one that is NORMAL, succeed and leave
    the world untouched (nothing on the wire); a failed ENABLE_CONFIG
    leaves the flag at NORMAL and a failed END_CONFIG leaves it at
    CONFIGURING, a successful one moves it; so after any sequence of calls
    the flag is CONFIGURING exactly when the last acknowledged mode
    transaction is ENABLE_CONFIG, and NORMAL exactly when it is END_CONFIG
    or there is none. *)
Theorem gate_flag_follows_acknowledgements :
  (forall w, initialized (dev w) = true -> in_config_mode (dev w) = true ->
             ld2450_enter_config_mode hv w = (ESP_OK, w))
  /\ (forall w, initialized (dev w) = true -> in_config_mode (dev w) = false ->
       in_config_mode (dev (snd (ld2450_enter_config_mode hv w)))
       = is_ok (fst (ld2450_enter_config_mode hv w)))
  /\ (forall w, initialized (dev w) = true -> in_config_mode (dev w) = false ->
       ld2450_exit_config_mode hv w = (ESP_OK, w))
  /\ (forall w, initialized (dev w) = true -> in_config_mode (dev w) = true ->
       in_config_mode (dev (snd (ld2450_exit_config_mode hv w)))
       = negb (is_ok (fst (ld2450_exit_config_mode hv w))))
  /\ (forall calls w,
       in_config_mode (dev w) = acknowledged_mode false (effects w) ->
       in_config_mode (dev (snd (run_gate hv calls w)))
       = acknowledged_mode false (effects (snd (run_gate hv calls w)))).
Proof.
  split; [exact enter_already|].
  split.
  { intros w Hinit Hmode.
    destruct (enter_result w Hinit Hmode) as (r & evs & Hr & _ & _ & Hm & _).
    now rewrite Hr. }
  split; [exact exit_already|].
  split.
  { intros w Hinit Hmode.
    destruct (exit_result w Hinit Hmode) as (r & evs & Hr & _ & _ & Hm & _).
    now rewrite Hr. }
  induction calls as [|c rest IH]; intros w Hagree; [exact Hagree|].
  rewrite run_gate_cons. apply IH. now apply gate_step_keeps_agreement.
Qed.

End Gate.

Section Bracket.

Variable hv : header_values.

(** After a successful enter the session is initialised and CONFIGURING. *)
Lemma entered_is_configuring (w : world) :
  initialized (dev w) = true ->
  fst (ld2450_enter_config_mode hv w) = ESP_OK ->
  initialized (dev (snd (ld2450_enter_config_mode hv w))) = true
  /\ in_config_mode (dev (snd (ld2450_enter_config_mode hv w))) = true.
Proof.
  intros Hinit Hok.
  destruct (in_config_mode (dev w)) eqn:Hmode.
  - rewrite enter_already by assumption. auto.
  - destruct (enter_result hv w Hinit Hmode)
      as (r & evs & Hr & _ & _ & Hm & Hi & _).
    rewrite Hm, Hi. rewrite Hok in Hr. subst r. auto.
Qed.

(** C7: after a successful RESTART_MODULE transaction the operation only
    waits LD2450_RESTART_TIMEOUT_MS and sets the flag to NORMAL itself: no
    exchange is consumed and no END_CONFIG transaction is made; after a
    failed one it calls exit (which, the gate being CONFIGURING, runs the
    END_CONFIG transaction) and reports the failure of the restart. *)
Theorem restart_forces_normal (w : world) :
  initialized (dev w) = true ->
  let entered := ld2450_enter_config_mode hv w in
  let t := ld2450_send_command hv LD2450_CMD_RESTART_MODULE [] false
                               LD2450_CONFIG_TIMEOUT_MS (snd entered) in
  fst entered = ESP_OK ->
  (fst (fst t) = ESP_OK ->
     ld2450_restart_module hv w
     = (ESP_OK,
        {| dev := set_in_config_mode false (dev (snd t));
           pending := pending (snd t);
           effects := effects (snd t)
                      ++ [TaskDelay (LD2450_RESTART_TIMEOUT_MS hv)] |})
     /\ in_config_mode (dev (snd (ld2450_restart_module hv w))) = false)
  /\ (fst (fst t) <> ESP_OK ->
     ld2450_restart_module hv w
     = (fst (fst t), snd (ld2450_exit_config_mode hv (snd t)))
     /\ in_config_mode (dev (snd t)) = true
     /\ exists r evs,
          effects (snd (ld2450_exit_config_mode hv (snd t)))
          = effects (snd t) ++ evs
            ++ [Txn LD2450_CMD_END_CONFIG LD2450_CONFIG_TIMEOUT_MS r]
          /\ Forall (fun e => is_txn e = false) evs).
Proof.
  intros Hinit entered t Hentered.
  destruct (entered_is_configuring w Hinit Hentered) as [Hi1 Hm1].
  fold entered in Hi1, Hm1.
  destruct (send_command_summary hv LD2450_CMD_RESTART_MODULE [] false
              LD2450_CONFIG_TIMEOUT_MS (snd entered) Hi1)
    as (r & out & d & evs & Heq & Hi2 & Hc2 & _ & _).
  fold t in Heq.
  assert (Hrun : ld2450_restart_module hv w
                 = if is_ok (fst (fst t))
                   then (fst (fst t),
                         {| dev := set_in_config_mode false (dev (snd t));
                            pending := pending (snd t);
                            effects := effects (snd t)
                              ++ [TaskDelay (LD2450_RESTART_TIMEOUT_MS hv)] |})
                   else (fst (fst t),
                         snd (ld2450_exit_config_mode hv (snd t)))).
  { unfold t, entered in *. clear t entered.
    unfold ld2450_restart_module. run_monad. rewrite Hinit. cbn [negb].
    destruct (ld2450_enter_config_mode hv w) as [re w1].
    cbn [fst snd] in *. subst re. cbn [is_ok esp_err_eqb negb].
    destruct (ld2450_send_command hv _ _ _ _ w1) as [[rb o] w2].
    cbn [fst snd]. destruct (is_ok rb); [reflexivity|].
    destruct (ld2450_exit_config_mode hv w2). reflexivity. }
  split.
  - intro Hok. rewrite Hrun, Hok. cbn [is_ok esp_err_eqb]. auto.
  - intro Hbad. apply is_ok_false in Hbad. rewrite Hrun, Hbad.
    assert (Hi3 : initialized (dev (snd t)) = true) by now rewrite Heq.
    assert (Hm3 : in_config_mode (dev (snd t)) = true)
      by (rewrite Heq; cbn [snd dev]; congruence).
    repeat split; auto.
    destruct (exit_result hv (snd t) Hi3 Hm3)
      as (rx & evx & _ & He & Hq & _).
    exists rx, evx. auto.
Qed.

End Bracket.

Section Firmware.

Variable hv : header_values.

Lemma firmware_attempts_hit (n : nat) (r0 : esp_err_t)
    (version : ld2450_firmware_version_t) (w : world) :
  let t := ld2450_send_command hv LD2450_CMD_READ_FW_VERSION [] true 1000 w in
  attempt_hit (fst t) = true ->
  firmware_attempts hv (S n) r0 version w
  = ((fst (fst t),
      parse_firmware_version hv (ack_of (snd (fst t))) version),
     snd t).
Proof.
  intros t Hhit. unfold t, attempt_hit in *. clear t.
  cbn [firmware_attempts]. unfold bind, ret.
  destruct (ld2450_send_command hv _ _ _ _ w) as [b w1]. cbn [fst snd] in *.
  now rewrite Hhit.
Qed.

Lemma firmware_attempts_miss (n : nat) (r0 : esp_err_t)
    (version : ld2450_firmware_version_t) (w : world) :
  let t := ld2450_send_command hv LD2450_CMD_READ_FW_VERSION [] true 1000 w in
  attempt_hit (fst t) = false ->
  firmware_attempts hv (S n) r0 version w
  = firmware_attempts hv n (fst (fst t)) version
      {| dev := dev (snd t); pending := pending (snd t);
         effects := effects (snd t) ++ [TaskDelay 200; UartFlush] |}.
Proof.
  intros t Hmiss. unfold t, attempt_hit in *. clear t.
  cbn [firmware_attempts]. run_monad.
  destruct (ld2450_send_command hv _ _ _ _ w) as [b w1]. cbn [fst snd] in *.
  rewrite Hmiss, <- app_assoc. reflexivity.
Qed.

Lemma firmware_attempts_trace (n : nat) :
  forall (r0 : esp_err_t) (version : ld2450_firmware_version_t) (w : world),
    initialized (dev w) = true ->
    exists tr,
      effects (snd (firmware_attempts hv n r0 version w)) = effects w ++ tr
      /\ attempts_trace n tr.
Proof.
  induction n as [|n IH]; intros r0 version w Hinit.
  - exists []. cbn. rewrite app_nil_r. split; [reflexivity | constructor].
  - destruct (send_command_summary hv LD2450_CMD_READ_FW_VERSION [] true 1000
                w Hinit) as (r & out & d & evs & Heq & Hi & _ & _ & Hq).
    destruct (attempt_hit (fst (ld2450_send_command hv
                LD2450_CMD_READ_FW_VERSION [] true 1000 w))) eqn:Hhit.
    + rewrite firmware_attempts_hit by assumption.
      rewrite Heq in *. cbn [fst snd effects] in *.
      unfold attempt_hit in Hhit. cbn [fst] in Hhit.
      apply andb_true_iff in Hhit. destruct Hhit as [Hok _].
      apply is_ok_true in Hok. subst r.
      eexists. split; [reflexivity|]. now constructor.
    + rewrite firmware_attempts_miss by assumption.
      rewrite Heq. cbn [fst snd dev pending effects].
      match goal with
      | |- context [firmware_attempts hv n ?r1 version ?w1] =>
          destruct (IH r1 version w1 Hi) as (rest & Hrest & Htr)
      end.
      rewrite Hrest. cbn [effects].
      exists (evs ++ [Txn LD2450_CMD_READ_FW_VERSION 1000 r]
              ++ [TaskDelay 200; UartFlush] ++ rest).
      split; [now rewrite <- !app_assoc | now constructor].
Qed.

End Firmware.

(** * Runs of the model *)

(** C1, as stated, fails: two telemetry frames and the ACK arriving in one
    read are dropped together, and a telemetry frame cut after its header
    leaves the rest of it in front of the ACK; both transactions time
    out. *)
Lemma resync_fails_when_frames_share_a_read :
  fst (ld2450_send_command sample_headers LD2450_CMD_SINGLE_TARGET [] true 3000
         (world_with [replies [telemetry_frame ++ telemetry_frame
                               ++ ack_frame 0x80%Z []]]))
  = (ESP_ERR_TIMEOUT, None)
  /\ fst (ld2450_send_command sample_headers LD2450_CMD_SINGLE_TARGET [] true
            3000
            (world_with [replies [firstn 4 telemetry_frame;
                                  skipn 4 telemetry_frame;
                                  telemetry_frame;
                                  ack_frame 0x80%Z []]]))
     = (ESP_ERR_TIMEOUT, None).
Proof. split; vm_compute; reflexivity. Qed.

Lemma resynchronises_frame_aligned_stream_witness :
  fst (ld2450_send_command sample_headers LD2450_CMD_SINGLE_TARGET [] true 3000
         (world_with [replies [telemetry_frame; telemetry_frame;
                               ack_frame 0x80%Z []]]))
  = (ESP_OK, Some (ack_frame 0x80%Z [])).
Proof.
  refine (proj1 (resynchronises_frame_aligned_stream sample_headers
                   LD2450_CMD_SINGLE_TARGET [] 3000
                   (world_with [replies [telemetry_frame; telemetry_frame;
                                         ack_frame 0x80%Z []]])
                   [(1%N, UartData telemetry_frame);
                    (1%N, UartData telemetry_frame)]
                   1%N (ack_frame 0x80%Z []) [] _ _ _ _ _ _ _ _)).
  - reflexivity.
  - reflexivity.
  - reflexivity.
  - reflexivity.
  - repeat constructor; simpl; lia.
  - reflexivity.
  - reflexivity.
  - simpl; lia.
Defined.

Lemma validate_ack_checks_in_order_witness :
  ld2450_validate_ack sample_headers
    [0xFD; 0xFC; 0xFB; 0xFA; 0x04; 0x00; 0x80; 0x01; 0x01; 0x00;
     0x04; 0x03; 0x02; 0x01]%Z LD2450_CMD_SINGLE_TARGET
  = Some (ESP_ERR_INVALID_RESPONSE,
          [LogBadStatus LD2450_CMD_SINGLE_TARGET 0x01%Z 0x00%Z]).
Proof.
  refine (proj1 (proj2 (proj2 (proj2
            (validate_ack_checks_in_order sample_headers _
               LD2450_CMD_SINGLE_TARGET)))) _ _ _ _).
  - simpl; lia.
  - split; reflexivity.
  - split; reflexivity.
  - intros [H _]. discriminate H.
Defined.

Lemma gate_flag_follows_acknowledgements_witness :
  let w := world_with [replies [ack_frame 0xFF%Z [0x01; 0x00; 0x40; 0x00]%Z];
                       silent;
                       replies [ack_frame 0xFE%Z []]] in
  in_config_mode (dev w) = acknowledged_mode false (effects w)
  /\ in_config_mode (dev (snd (run_gate sample_headers
                                  [Enter; Enter; Exit; Exit] w)))
     = acknowledged_mode false
         (effects (snd (run_gate sample_headers [Enter; Enter; Exit; Exit] w))).
Proof.
  intro w. split; [reflexivity|].
  apply (proj2 (proj2 (proj2 (proj2
           (gate_flag_follows_acknowledgements sample_headers))))).
  reflexivity.
Defined.

Lemma validate_ack_safe_witness :
  exists r logs,
    ld2450_validate_ack sample_headers [0xFD; 0xFC; 0xFB]%Z
                        LD2450_CMD_END_CONFIG = Some (r, logs)
    /\ r = ESP_ERR_INVALID_SIZE.
Proof.
  destruct (validate_ack_safe sample_headers [0xFD; 0xFC; 0xFB]%Z
              LD2450_CMD_END_CONFIG) as (r & logs & Hv & Hshort & _).
  exists r, logs. split; [exact Hv|]. apply Hshort. simpl; lia.
Defined.

Lemma incomplete_ack_is_captured_witness :
  let w := world_with [replies [firstn 20 (firmware_ack 0x02%Z 0x01%Z)]] in
  ld2450_get_last_error_data
    (dev (snd (ld2450_send_command sample_headers LD2450_CMD_READ_FW_VERSION
                                   [] true 1000 w))) 64 true
  = (ESP_OK, firstn 16 (firmware_ack 0x02%Z 0x01%Z)).
Proof.
  intro w.
  rewrite (proj2 (proj2 (proj2
             (incomplete_ack_is_captured sample_headers
                LD2450_CMD_READ_FW_VERSION [] true 1000 w 64
                eq_refl eq_refl eq_refl eq_refl)))).
  vm_compute. reflexivity.
Defined.

Lemma restart_forces_normal_witness :
  let w := world_with [replies [ack_frame 0xFF%Z [0x01; 0x00; 0x40; 0x00]%Z];
                       replies [ack_frame 0xA3%Z []]] in
  in_config_mode (dev (snd (ld2450_restart_module sample_headers w))) = false.
Proof.
  intro w.
  apply (proj1 (restart_forces_normal sample_headers w eq_refl
                  ltac:(vm_compute; reflexivity))).
  vm_compute. reflexivity.
Defined.

(** C8, as stated, fails: main-version bytes 01 02 on the wire are the
    little-endian value 0x0201, printed as V2.01. *)
Lemma firmware_bytes_01_02_read_as_2_01 :
  let result := ld2450_get_firmware_version sample_headers blank_version
                  (firmware_retry_world 0x01%Z 0x02%Z) in
  fst (fst result) = ESP_OK
  /\ main_version (snd (fst result)) = 0x0201%Z
  /\ sub_version (snd (fst result)) = 0x22062416%Z
  /\ version_string (snd (fst result)) = "V2.01.570827798"%string
  /\ String.prefix "V1.02" (version_string (snd (fst result))) = false.
Proof. vm_compute. repeat split. Qed.

(** C9, as stated, fails: the code for a mutex that cannot be taken is the
    code for an ACK that does not arrive. *)
Lemma busy_code_is_protocol_timeout_code :
  fst (fst (ld2450_send_command sample_headers LD2450_CMD_SINGLE_TARGET []
                                false 3000 (world_with [locked_out])))
  = ESP_ERR_TIMEOUT
  /\ fst (fst (ld2450_send_command sample_headers LD2450_CMD_SINGLE_TARGET []
                                   false 3000 (world_with [silent])))
     = ESP_ERR_TIMEOUT
  /\ ~ (fst (fst (ld2450_send_command sample_headers LD2450_CMD_SINGLE_TARGET
                     [] false 3000 (world_with [locked_out])))
        <> fst (fst (ld2450_send_command sample_headers
                       LD2450_CMD_SINGLE_TARGET [] false 3000
                       (world_with [silent])))).
Proof.
  vm_compute. repeat split. intro H. apply H. reflexivity.
Qed.

Lemma busy_and_protocol_timeout_share_code_witness :
  effects (snd (ld2450_send_command sample_headers LD2450_CMD_SINGLE_TARGET []
                                    false 3000 (world_with [locked_out])))
  = [Log (LogMutexTimeout LD2450_CMD_SINGLE_TARGET);
     Txn LD2450_CMD_SINGLE_TARGET 3000 ESP_ERR_TIMEOUT].
Proof.
  exact (proj1 (proj2 (proj2
           (busy_and_protocol_timeout_share_code sample_headers
              LD2450_CMD_SINGLE_TARGET [] false 3000
              (world_with [locked_out]) eq_refl eq_refl)))).
Defined.

Lemma validate_ack_ok_min_length_witness :
  14 <= length (ack_frame 0x80%Z []).
Proof.
  exact (validate_ack_ok_min_length sample_headers (ack_frame 0x80%Z [])
           LD2450_CMD_SINGLE_TARGET [] eq_refl).
Defined.

(** * Further properties of the code *)

Section Codec.

Variable hv : header_values.

(** Low and high byte joined again give the low 16 bits. *)
Lemma join_low_high (x : Z) :
  Z.lor (Z.land x 0xFF) (Z.shiftl (Z.land (Z.shiftr x 8) 0xFF) 8)
  = Z.land x 0xFFFF.
Proof.
  apply Z.bits_inj'. intros n Hn.
  rewrite Z.lor_spec, !Z.land_spec.
  change 0xFF%Z with (Z.ones 8). change 0xFFFF%Z with (Z.ones 16).
  rewrite !Z.testbit_ones_nonneg by lia.
  destruct (Z.ltb_spec n 8) as [Hlow|Hhigh].
  - rewrite Z.shiftl_spec_low by lia.
    rewrite (proj2 (Z.ltb_lt n 16)) by lia.
    now rewrite orb_false_r.
  - rewrite Z.shiftl_spec, Z.land_spec, Z.shiftr_spec by lia.
    rewrite Z.testbit_ones_nonneg by lia.
    replace (n - 8 + 8)%Z with n by lia.
    rewrite andb_false_r. cbn [orb].
    destruct (Z.ltb_spec (n - 8) 8); destruct (Z.ltb_spec n 16);
      try lia; reflexivity.
Qed.

Lemma low16_small (x : Z) : (0 <= x < 0x10000)%Z -> Z.land x 0xFFFF = x.
Proof.
  intro Hx. change 0xFFFF%Z with (Z.ones 16).
  rewrite Z.land_ones by lia. apply Z.mod_small. exact Hx.
Qed.

Lemma command_frame_length cmd (value : list byte) :
  length (command_frame hv cmd value) = 8 + length value + 4.
Proof.
  unfold command_frame. rewrite !length_app. simpl. lia.
Qed.

Lemma command_frame_tail cmd (value : list byte) :
  skipn 8 (command_frame hv cmd value) = value ++ LD2450_CONFIG_FRAME_FOOTER.
Proof. reflexivity. Qed.

(** X1: for a frame that fits the command buffer, the packet
    [build_command_packet] leaves at the start of the buffer has the size
    the function returns and decodes to what went in: the header, a
    little-endian length of value length + 2, the little-endian command
    word, the value, and the footer.  The buffer keeps its length and the
    bytes behind the packet are not touched. *)
Theorem command_packet_round_trip (instance : ld2450_state_t)
    (cmd : ld2450_cmd_t) (value : list byte) :
  8 + length value + 4 <= length (cmd_buffer instance) ->
  (Z.of_nat (length value) + 2 < 0x10000)%Z ->
  (0 <= cmd_word hv cmd < 0x10000)%Z ->
  let built := build_command_packet hv instance cmd value in
  let packet := firstn (snd built) (cmd_buffer (fst built)) in
  length packet = 8 + length value + 4
  /\ firstn 4 packet = LD2450_CONFIG_FRAME_HEADER
  /\ le16 packet 4 = (Z.of_nat (length value) + 2)%Z
  /\ le16 packet 6 = cmd_word hv cmd
  /\ firstn (length value) (skipn 8 packet) = value
  /\ skipn (8 + length value) packet = LD2450_CONFIG_FRAME_FOOTER
  /\ length (cmd_buffer (fst built)) = length (cmd_buffer instance)
  /\ skipn (snd built) (cmd_buffer (fst built))
     = skipn (snd built) (cmd_buffer instance).
Proof.
  intros Hfits Hlen Hcmd built packet.
  assert (Hpacket : packet = command_frame hv cmd value).
  { unfold packet, built, build_command_packet. cbn [fst snd cmd_buffer set_cmd_buffer].
    rewrite <- (command_frame_length cmd value). apply firstn_write_at_0. }
  rewrite Hpacket. clear Hpacket packet.
  split; [apply command_frame_length|].
  split; [reflexivity|].
  split.
  { unfold le16, command_frame. cbn [app nth LD2450_CONFIG_FRAME_HEADER Nat.add].
    rewrite join_low_high. apply low16_small. lia. }
  split.
  { unfold le16, command_frame. cbn [app nth LD2450_CONFIG_FRAME_HEADER Nat.add].
    rewrite join_low_high. apply low16_small. exact Hcmd. }
  split.
  { rewrite command_frame_tail, firstn_app, Nat.sub_diag, firstn_O, app_nil_r.
    apply firstn_all. }
  split.
  { replace (8 + length value) with (length value + 8) by lia.
    rewrite <- skipn_skipn, command_frame_tail.
    rewrite skipn_app, Nat.sub_diag, skipn_all. reflexivity. }
  unfold built, build_command_packet.
  cbn [fst snd cmd_buffer set_cmd_buffer].
  rewrite write_at_0.
  pose proof (command_frame_length cmd value) as Hsize.
  split.
  { rewrite length_app, length_skipn. lia. }
  rewrite <- Hsize, skipn_app, Nat.sub_diag, skipn_all.
  reflexivity.
Qed.

(** X2: validation looks at the length of the buffer, its first four and
    last four bytes and the bytes at offsets 6 to 9, and at nothing else:
    two buffers that agree on these get the same verdict.  The length
    field at offsets 4-5 and the result data are never checked. *)
Theorem validate_ack_ignores_length_field_and_data (a b : list byte)
    (cmd : ld2450_cmd_t) :
  length a = length b ->
  firstn 4 a = firstn 4 b ->
  skipn (length a - 4) a = skipn (length b - 4) b ->
  nth 6 a 0%Z = nth 6 b 0%Z ->
  nth 7 a 0%Z = nth 7 b 0%Z ->
  nth 8 a 0%Z = nth 8 b 0%Z ->
  nth 9 a 0%Z = nth 9 b 0%Z ->
  ld2450_validate_ack hv a cmd = ld2450_validate_ack hv b cmd.
Proof.
  intros Hlen Hh Hf H6 H7 H8 H9.
  destruct (Nat.ltb_spec (length a) 10) as [Hshort|Hlong].
  - unfold ld2450_validate_ack. rewrite <- Hlen.
    now rewrite (proj2 (Nat.ltb_lt _ _) Hshort).
  - rewrite !validate_ack_unfolded by lia.
    now rewrite Hh, Hf, H6, H7, H8, H9.
Qed.

(** X3: a command frame that comes back from the line is not taken for
    its own acknowledgement: with a command word whose high byte is not
    01, validation of the frame just built fails on the marker byte. *)
Theorem own_command_frame_is_rejected (cmd : ld2450_cmd_t)
    (value : list byte) :
  Z.land (Z.shiftr (cmd_word hv cmd) 8) 0xFF <> 0x01%Z ->
  ld2450_validate_ack hv (command_frame hv cmd value) cmd
  = Some (ESP_ERR_INVALID_RESPONSE,
          [LogBadEcho (cmd_low_byte hv cmd)
                      (Z.land (Z.shiftr (cmd_word hv cmd) 8) 0xFF)]).
Proof.
  intro Hhigh.
  rewrite validate_ack_unfolded by (rewrite command_frame_length; lia).
  assert (Hf : skipn (length (command_frame hv cmd value) - 4)
                     (command_frame hv cmd value)
               = LD2450_CONFIG_FRAME_FOOTER).
  { rewrite command_frame_length.
    replace (8 + length value + 4 - 4) with (length value + 8) by lia.
    rewrite <- skipn_skipn, command_frame_tail.
    rewrite skipn_app, Nat.sub_diag, skipn_all. reflexivity. }
  rewrite Hf.
  change (firstn 4 (command_frame hv cmd value))
    with LD2450_CONFIG_FRAME_HEADER.
  change (nth 6 (command_frame hv cmd value) 0%Z) with (cmd_low_byte hv cmd).
  change (nth 7 (command_frame hv cmd value) 0%Z)
    with (Z.land (Z.shiftr (cmd_word hv cmd) 8) 0xFF).
  rewrite !(proj2 (bytes_eqb_eq _ _) eq_refl), Z.eqb_refl.
  apply Z.eqb_neq in Hhigh. rewrite Hhigh. reflexivity.
Qed.

End Codec.

Section Coordinator.

Variable hv : header_values.

(** The session a transaction leaves, path by path. *)
Lemma send_command_dev cmd value want timeout_ms (w : world) :
  initialized (dev w) = true ->
  let ex := fst (next_exchange w) in
  let st := rx_result hv cmd timeout_ms w in
  let d1 := set_cmd_buffer
              (write_at 0 (command_frame hv cmd value) (cmd_buffer (dev w)))
              (set_mutex_held true (dev w)) in
  let d2 := set_ack_buffer (rx_buf st) d1 in
  dev (snd (ld2450_send_command hv cmd value want timeout_ms w))
  = if negb (xSemaphoreTake ex (pdMS_TO_TICKS hv timeout_ms)) then dev w
    else if negb (Z.eqb (uart_write_bytes ex (8 + length value + 4))
                        (Z.of_nat (8 + length value + 4)))
    then set_mutex_held false d1
    else if negb (found_header st) || negb (found_footer st)
    then set_mutex_held false
           (set_error_capture
              (if 0 <? rx_idx st
               then write_at 0 (firstn (capture_len hv (rx_idx st)) (rx_buf st))
                             (error_buffer (dev w))
               else error_buffer (dev w))
              (capture_len hv (rx_idx st)) d2)
    else set_mutex_held false d2.
Proof.
  intros Hinit. cbv zeta.
  unfold rx_result, ld2450_send_command, capture_len. run_monad.
  rewrite Hinit. cbn [negb].
  destruct (next_exchange_keeps w) as [Hd _].
  destruct (next_exchange w) as [ex w1]. cbn [fst snd] in *.
  destruct (xSemaphoreTake ex _); cbn [negb snd dev]; [|exact Hd].
  unfold build_command_packet.
  destruct (Z.eqb _ _); cbn [negb snd dev].
  - destruct (negb (found_header _) || negb (found_footer _));
      cbn [snd dev].
    + rewrite Hd. reflexivity.
    + destruct (ld2450_validate_ack hv _ cmd) as [[r logs]|];
        cbn [snd dev]; rewrite Hd; reflexivity.
  - rewrite Hd. reflexivity.
Qed.

(** The loop stays inside the ACK buffer. *)
Lemma rx_data_within cmd (chunk : list byte) (st : rx_state) :
  rx_idx st <= LD2450_ACK_BUFFER_SIZE hv ->
  LD2450_ACK_BUFFER_SIZE hv <= length (rx_buf st) ->
  rx_idx (rx_data hv cmd chunk st) <= LD2450_ACK_BUFFER_SIZE hv
  /\ length (rx_buf (rx_data hv cmd chunk st)) = length (rx_buf st).
Proof.
  intros Hidx Hlen. unfold rx_data.
  set (n := Nat.min (length chunk) (LD2450_ACK_BUFFER_SIZE hv - rx_idx st)).
  set (got := firstn n (rx_fifo st ++ chunk)).
  assert (Hgot : length got <= LD2450_ACK_BUFFER_SIZE hv - rx_idx st).
  { unfold got. rewrite length_firstn. unfold n. lia. }
  assert (Hw : length (write_at (rx_idx st) got (rx_buf st))
               = length (rx_buf st)).
  { unfold write_at. rewrite !length_app, length_firstn, length_skipn. lia. }
  destruct (0 <? length got);
    [destruct (negb (found_header st) && (4 <=? rx_idx st + length got)
               && mem_eq _ 0 LD2450_DATA_FRAME_HEADER)|];
    cbn [rx_idx rx_buf]; split; auto; lia.
Qed.

Lemma await_ack_within cmd (timeout_ticks : N) (polls : list (N * poll)) :
  forall elapsed st,
    rx_idx st <= LD2450_ACK_BUFFER_SIZE hv ->
    LD2450_ACK_BUFFER_SIZE hv <= length (rx_buf st) ->
    rx_idx (await_ack hv cmd timeout_ticks polls elapsed st)
    <= LD2450_ACK_BUFFER_SIZE hv
    /\ length (rx_buf (await_ack hv cmd timeout_ticks polls elapsed st))
       = length (rx_buf st).
Proof.
  induction polls as [|[dt p] rest IH]; intros elapsed st Hidx Hlen;
    cbn [await_ack].
  - destruct (_ && _); auto.
  - destruct (_ && _); [|auto].
    destruct p as [| |chunk]; try (apply IH; assumption).
    destruct (rx_data_within cmd chunk st Hidx Hlen) as [Hidx' Hlen'].
    destruct (found_footer (rx_data hv cmd chunk st)); [auto|].
    destruct (IH (elapsed + dt)%N (rx_data hv cmd chunk st)) as [H1 H2];
      auto; [lia|]. split; [exact H1 | congruence].
Qed.

Lemma rx_idx_bound cmd timeout_ms (w : world) :
  rx_idx (rx_result hv cmd timeout_ms w) <= LD2450_ACK_BUFFER_SIZE hv.
Proof.
  unfold rx_result.
  remember (rx_polls (fst (next_exchange w))) as polls eqn:E. clear E.
  remember (rx_start (dev w)) as st0 eqn:E0.
  assert (H0 : rx_idx st0 <= LD2450_ACK_BUFFER_SIZE hv)
    by (subst st0; cbn; lia).
  clear E0. revert st0 H0. generalize 0%N.
  induction polls as [|[dt p] rest IH]; intros elapsed st Hidx;
    cbn [await_ack].
  - destruct (_ && _); auto.
  - destruct (_ && _); [|auto].
    destruct p as [| |chunk]; try (apply IH; assumption).
    assert (Hnext : rx_idx (rx_data hv cmd chunk st)
                    <= LD2450_ACK_BUFFER_SIZE hv).
    { unfold rx_data.
      set (got := firstn _ (rx_fifo st ++ chunk)).
      assert (Hgot : length got <= LD2450_ACK_BUFFER_SIZE hv - rx_idx st)
        by (unfold got; rewrite length_firstn; lia).
      destruct (0 <? length got);
        [destruct (negb (found_header st) && (4 <=? rx_idx st + length got)
                   && mem_eq _ 0 LD2450_DATA_FRAME_HEADER)|];
        cbn [rx_idx]; lia. }
    destruct (found_footer (rx_data hv cmd chunk st)); [exact Hnext|].
    apply IH. exact Hnext.
Qed.

(** The code of a transaction, path by path. *)
Lemma send_command_code cmd value want timeout_ms (w : world) :
  initialized (dev w) = true ->
  fst (fst (ld2450_send_command hv cmd value want timeout_ms w)) = ESP_OK ->
  xSemaphoreTake (fst (next_exchange w)) (pdMS_TO_TICKS hv timeout_ms) = true
  /\ uart_write_bytes (fst (next_exchange w)) (8 + length value + 4)
     = Z.of_nat (8 + length value + 4)
  /\ found_header (rx_result hv cmd timeout_ms w) = true
  /\ found_footer (rx_result hv cmd timeout_ms w) = true.
Proof.
  intros Hinit Hok.
  destruct (xSemaphoreTake (fst (next_exchange w))
              (pdMS_TO_TICKS hv timeout_ms)) eqn:Hlock.
  2:{ rewrite send_command_busy in Hok by assumption. discriminate. }
  destruct (Z.eq_dec (uart_write_bytes (fst (next_exchange w))
                                       (8 + length value + 4))
                     (Z.of_nat (8 + length value + 4))) as [Hsent|Hshort].
  2:{ destruct (send_command_short_write hv cmd value want timeout_ms w
                  Hinit Hlock Hshort) as (d & Heq & _).
      rewrite Heq in Hok. discriminate. }
  destruct (negb (found_header (rx_result hv cmd timeout_ms w))
            || negb (found_footer (rx_result hv cmd timeout_ms w))) eqn:Hinc.
  { destruct (send_command_incomplete hv cmd value want timeout_ms w
                Hinit Hlock Hsent Hinc) as (d & Heq & _).
    rewrite Heq in Hok. discriminate. }
  apply orb_false_iff in Hinc. destruct Hinc as [Hfh Hff].
  apply negb_false_iff in Hfh, Hff. auto.
Qed.

Lemma send_command_ok_ack cmd value want timeout_ms (w : world) :
  let result := ld2450_send_command hv cmd value want timeout_ms w in
  fst (fst result) = ESP_OK ->
  exists ack,
    ld2450_validate_ack hv ack cmd = Some (ESP_OK, [])
    /\ 14 <= length ack <= LD2450_ACK_BUFFER_SIZE hv
    /\ snd (fst result) = (if want then Some ack else None)
    /\ firstn (length ack) (ack_buffer (dev (snd result))) = ack
    /\ mutex_held (dev (snd result)) = false.
Proof.
  intros result Hok. unfold result in *. clear result.
  destruct (initialized (dev w)) eqn:Hinit.
  2:{ rewrite send_command_uninitialized in Hok by assumption.
      discriminate. }
  destruct (send_command_code cmd value want timeout_ms w Hinit Hok)
    as (Hlock & Hsent & Hfh & Hff).
  destruct (send_command_complete hv cmd value want timeout_ms w
              Hinit Hlock Hsent Hfh Hff)
    as (d & r & logs & Hval & Heq & _ & _ & Hm & Hbuf & _).
  rewrite Heq in Hok |- *. cbn [fst snd dev] in *. subst r.
  set (st := rx_result hv cmd timeout_ms w) in *.
  set (ack := firstn (rx_idx st) (rx_buf st)) in *.
  assert (Hinv : rx_inv st).
  { apply await_ack_inv; [reflexivity | apply rx_start_inv]. }
  destruct Hinv as [Hidx _].
  assert (Hlen : length ack = rx_idx st).
  { unfold ack. rewrite length_firstn. lia. }
  destruct (validate_ack_eq hv ack cmd) as [logs' [Hv _]].
  rewrite Hv in Hval. injection Hval as Hcode _.
  apply esp_err_of_ok in Hcode.
  exists ack. split; [now apply validate_ack_accepts|].
  split.
  { split; [now apply (spec_validate_min_length hv ack cmd)|].
    rewrite Hlen. apply rx_idx_bound. }
  split; [reflexivity|].
  split; [|exact Hm].
  rewrite Hbuf, Hlen. reflexivity.
Qed.

(** X4: a transaction returns ESP_OK only with an acknowledgement in
    hand: a frame of 14 bytes at least and of LD2450_ACK_BUFFER_SIZE at
    most that passes validation for the command sent.  It is what the
    caller's buffer receives, it lies at the start of the session's ACK
    buffer, and the mutex is released. *)
Theorem send_command_ok_returns_valid_ack cmd value want timeout_ms
    (w : world) :
  let result := ld2450_send_command hv cmd value want timeout_ms w in
  fst (fst result) = ESP_OK ->
  exists ack,
    ld2450_validate_ack hv ack cmd = Some (ESP_OK, [])
    /\ 14 <= length ack <= LD2450_ACK_BUFFER_SIZE hv
    /\ snd (fst result) = (if want then Some ack else None)
    /\ firstn (length ack) (ack_buffer (dev (snd result))) = ack
    /\ mutex_held (dev (snd result)) = false.
Proof. exact (send_command_ok_ack cmd value want timeout_ms w). Qed.

(** X5: only a transaction that ends for want of a complete
    acknowledgement writes the diagnostic buffer.  Whenever the code
    returned is not ESP_ERR_TIMEOUT (success, a failed write, an
    acknowledgement that fails validation, a session that is not
    initialised) [ld2450_get_last_error_data] still returns the capture of
    an earlier failure. *)
Theorem capture_survives_other_outcomes cmd value want timeout_ms
    (w : world) (buffer_size : nat) (mutex_free : bool) :
  let result := ld2450_send_command hv cmd value want timeout_ms w in
  fst (fst result) <> ESP_ERR_TIMEOUT ->
  ld2450_get_last_error_data (dev (snd result)) buffer_size mutex_free
  = ld2450_get_last_error_data (dev w) buffer_size mutex_free.
Proof.
  intros result Hcode. unfold result in *. clear result.
  destruct (initialized (dev w)) eqn:Hinit.
  2:{ now rewrite send_command_uninitialized by assumption. }
  pose proof (send_command_dev cmd value want timeout_ms w Hinit) as Hdev.
  cbv zeta in Hdev.
  destruct (xSemaphoreTake (fst (next_exchange w))
              (pdMS_TO_TICKS hv timeout_ms)) eqn:Hlock; cbn [negb] in Hdev.
  2:{ now rewrite Hdev. }
  destruct (Z.eqb_spec (uart_write_bytes (fst (next_exchange w))
                                         (8 + length value + 4))
                       (Z.of_nat (8 + length value + 4))) as [Hsent|Hshort];
    cbn [negb] in Hdev.
  2:{ rewrite Hdev. reflexivity. }
  destruct (negb (found_header (rx_result hv cmd timeout_ms w))
            || negb (found_footer (rx_result hv cmd timeout_ms w))) eqn:Hinc.
  { destruct (send_command_incomplete hv cmd value want timeout_ms w
                Hinit Hlock Hsent Hinc) as (d & Heq & _).
    rewrite Heq in Hcode. now contradiction Hcode. }
  rewrite Hdev. reflexivity.
Qed.

Lemma send_command_sizes cmd value want timeout_ms (w : world) :
  session_sized hv (dev w) ->
  8 + length value + 4 <= length (cmd_buffer (dev w)) ->
  let d := dev (snd (ld2450_send_command hv cmd value want timeout_ms w)) in
  session_sized hv d
  /\ length (cmd_buffer d) = length (cmd_buffer (dev w)).
Proof.
  intros (Hack & Herr & Hcap) Hfits d. unfold d. clear d.
  destruct (initialized (dev w)) eqn:Hinit.
  2:{ rewrite send_command_uninitialized by assumption.
      cbn [snd]. repeat split; auto. }
  rewrite (send_command_dev cmd value want timeout_ms w Hinit).
  cbv zeta.
  assert (Hcmd : length (write_at 0 (command_frame hv cmd value)
                                  (cmd_buffer (dev w)))
                 = length (cmd_buffer (dev w))).
  { unfold write_at. cbn [firstn app Nat.add].
    rewrite length_app, length_skipn, command_frame_length. lia. }
  destruct (await_ack_within cmd (pdMS_TO_TICKS hv timeout_ms)
              (rx_polls (fst (next_exchange w))) 0%N (rx_start (dev w)))
    as [Hidx Hbuf]; [cbn; lia | cbn [rx_start rx_buf]; lia |].
  fold (rx_result hv cmd timeout_ms w) in Hidx, Hbuf.
  cbn [rx_start rx_buf] in Hbuf.
  destruct (negb (xSemaphoreTake _ _)); [repeat split; auto|].
  destruct (negb (Z.eqb _ _)).
  { unfold session_sized. cbn [ack_buffer error_buffer error_buffer_len cmd_buffer
         set_mutex_held set_error_capture set_ack_buffer set_cmd_buffer]. repeat split; auto. }
  destruct (negb (found_header _) || negb (found_footer _)).
  - unfold session_sized. cbn [ack_buffer error_buffer error_buffer_len cmd_buffer
         set_mutex_held set_error_capture set_ack_buffer set_cmd_buffer].
    assert (Hn : capture_len hv (rx_idx (rx_result hv cmd timeout_ms w))
                 <= LD2450_ERROR_BUFFER_SIZE hv).
    { unfold capture_len. destruct (Nat.ltb_spec
        (LD2450_ERROR_BUFFER_SIZE hv)
        (rx_idx (rx_result hv cmd timeout_ms w))); lia. }
    repeat split; auto; [congruence|].
    destruct (0 <? rx_idx (rx_result hv cmd timeout_ms w)); [|exact Herr].
    unfold write_at. cbn [firstn app Nat.add].
    rewrite length_app, length_skipn, length_firstn. lia.
  - unfold session_sized. cbn [ack_buffer error_buffer error_buffer_len cmd_buffer
         set_mutex_held set_error_capture set_ack_buffer set_cmd_buffer]. repeat split; auto. congruence.
Qed.

(** X6: a transaction writes nothing outside the session's buffers.  On a
    session whose ACK and diagnostic buffers have their declared sizes and
    whose command buffer holds the frame, every buffer keeps its length,
    and the recorded diagnostic length stays within
    LD2450_ERROR_BUFFER_SIZE. *)
Theorem send_command_keeps_buffer_sizes cmd value want timeout_ms
    (w : world) :
  session_sized hv (dev w) ->
  8 + length value + 4 <= length (cmd_buffer (dev w)) ->
  let d := dev (snd (ld2450_send_command hv cmd value want timeout_ms w)) in
  session_sized hv d
  /\ length (cmd_buffer d) = length (cmd_buffer (dev w)).
Proof. exact (send_command_sizes cmd value want timeout_ms w). Qed.

(** *** Acknowledgements that arrive in several reads *)

Lemma firstn_write_at (off : nat) (data buf : list byte) :
  off <= length buf ->
  firstn (off + length data) (write_at off data buf) = firstn off buf ++ data.
Proof.
  intro Hoff. unfold write_at.
  rewrite firstn_app, length_firstn, Nat.min_l by lia.
  replace (off + length data - off) with (length data) by lia.
  rewrite firstn_app, Nat.sub_diag, firstn_O, app_nil_r, firstn_all.
  f_equal. apply firstn_all2. rewrite length_firstn. lia.
Qed.

Lemma mem_eq_of_prefix (buf s pat : list byte) (off : nat) :
  firstn (length s) buf = s ->
  off + length pat <= length s ->
  mem_eq buf off pat = mem_eq s off pat.
Proof.
  intros Hs Hfit. unfold mem_eq. f_equal.
  rewrite <- Hs.
  rewrite !firstn_skipn_comm, firstn_firstn.
  now rewrite Nat.min_l by lia.
Qed.

(** One more read of an acknowledgement whose first bytes [seen] are in
    the buffer. *)
Lemma rx_data_append cmd (chunk seen : list byte) (st : rx_state) :
  rx_idx st = length seen ->
  firstn (length seen) (rx_buf st) = seen ->
  rx_fifo st = [] ->
  found_header st = (4 <=? length seen) ->
  found_footer st = false ->
  chunk <> [] ->
  length (seen ++ chunk) <= LD2450_ACK_BUFFER_SIZE hv ->
  (4 <= length (seen ++ chunk) ->
   firstn 4 (seen ++ chunk) = LD2450_CONFIG_FRAME_HEADER) ->
  let st' := rx_data hv cmd chunk st in
  rx_idx st' = length (seen ++ chunk)
  /\ firstn (length (seen ++ chunk)) (rx_buf st') = seen ++ chunk
  /\ rx_fifo st' = []
  /\ found_header st' = (4 <=? length (seen ++ chunk))
  /\ found_footer st'
     = ((12 <=? length (seen ++ chunk))
        && bytes_eqb (skipn (length (seen ++ chunk) - 4) (seen ++ chunk))
                     LD2450_CONFIG_FRAME_FOOTER)
  /\ rx_skips st' = rx_skips st.
Proof.
  intros Hidx Hbuf Hfifo Hfh Hff Hne Hcap Hhdr st'.
  rewrite length_app in *.
  assert (Hpos : 0 < length chunk) by (destruct chunk; [easy | simpl; lia]).
  assert (Hin : length seen <= length (rx_buf st)).
  { rewrite <- Hbuf at 1. rewrite length_firstn. lia. }
  assert (Hnew : firstn (length seen + length chunk)
                   (write_at (length seen) chunk (rx_buf st))
                 = seen ++ chunk).
  { rewrite firstn_write_at by assumption. now rewrite Hbuf. }
  assert (Hlen' : length (seen ++ chunk) = length seen + length chunk)
    by apply length_app.
  unfold st', rx_data. clear st'.
  rewrite Hidx, Hfifo, Hff. cbn [app].
  rewrite Nat.min_l by lia.
  rewrite firstn_all, skipn_all.
  rewrite (proj2 (Nat.ltb_lt 0 (length chunk)) Hpos).
  set (buf' := write_at (length seen) chunk (rx_buf st)) in *.
  assert (Htele : negb (found_header st)
                  && (4 <=? length seen + length chunk)
                  && mem_eq buf' 0 LD2450_DATA_FRAME_HEADER = false).
  { destruct (Nat.leb_spec 4 (length seen + length chunk)) as [H4|H4];
      [|now rewrite andb_false_r].
    rewrite <- Hlen' in Hnew.
    rewrite (mem_eq_of_prefix buf' (seen ++ chunk) LD2450_DATA_FRAME_HEADER 0
               Hnew) by (rewrite Hlen'; simpl; lia).
    unfold mem_eq. change (skipn 0 ?l) with l.
    change (length LD2450_DATA_FRAME_HEADER) with 4.
    rewrite Hhdr by lia. now rewrite andb_false_r. }
  rewrite Htele.
  cbn [rx_idx rx_buf rx_fifo found_header found_footer rx_skips].
  split; [reflexivity|]. split; [exact Hnew|]. split; [reflexivity|].
  assert (Hhead : (if negb (found_header st)
                      && (4 <=? length seen + length chunk)
                   then if mem_eq buf' 0 LD2450_CONFIG_FRAME_HEADER
                        then true else found_header st
                   else found_header st)
                  = (4 <=? length seen + length chunk)).
  { rewrite Hfh.
    destruct (Nat.leb_spec 4 (length seen)) as [Hs|Hs]; cbn [negb andb].
    - symmetry. apply Nat.leb_le. lia.
    - destruct (Nat.leb_spec 4 (length seen + length chunk)) as [H4|H4];
        [|reflexivity].
      rewrite <- Hlen' in Hnew.
      rewrite (mem_eq_of_prefix buf' (seen ++ chunk)
                 LD2450_CONFIG_FRAME_HEADER 0 Hnew)
        by (rewrite Hlen'; simpl; lia).
      unfold mem_eq. change (skipn 0 ?l) with l.
      change (length LD2450_CONFIG_FRAME_HEADER) with 4.
      now rewrite Hhdr by lia. }
  rewrite Hhead. split; [reflexivity|]. split; [|reflexivity].
  destruct (Nat.leb_spec 12 (length seen + length chunk)) as [H12|H12].
  - rewrite (proj2 (Nat.leb_le 4 _)) by lia. cbn [andb].
    rewrite <- Hlen' in Hnew.
    rewrite (mem_eq_of_prefix buf' (seen ++ chunk)
               LD2450_CONFIG_FRAME_FOOTER
               (length seen + length chunk - 4) Hnew)
      by (rewrite Hlen'; simpl; lia).
    rewrite <- Hlen'. rewrite mem_eq_tail by (rewrite Hlen'; lia).
    now destruct (bytes_eqb _ _).
  - now rewrite andb_false_r.
Qed.

Lemma firstn_4_of_prefix (a b : list byte) :
  4 <= length a -> firstn 4 (a ++ b) = firstn 4 a.
Proof.
  intro Hlen. rewrite firstn_app.
  replace (4 - length a) with 0 by lia.
  now rewrite firstn_O, app_nil_r.
Qed.

Lemma await_ack_gathers cmd (timeout_ticks : N) (ack : list byte)
    (rest : list (N * poll)) :
  firstn 4 ack = LD2450_CONFIG_FRAME_HEADER ->
  length ack <= LD2450_ACK_BUFFER_SIZE hv ->
  forall (before : list (N * poll)) (seen tl : list byte) elapsed st,
    ack = seen ++ polls_bytes before ++ tl ->
    tl <> [] ->
    no_early_footer seen before ->
    (elapsed + ticks_spent before < timeout_ticks)%N ->
    rx_idx st = length seen ->
    firstn (length seen) (rx_buf st) = seen ->
    rx_fifo st = [] ->
    found_header st = (4 <=? length seen) ->
    found_footer st = false ->
    exists st',
      await_ack hv cmd timeout_ticks (before ++ rest) elapsed st
      = await_ack hv cmd timeout_ticks rest
                  (elapsed + ticks_spent before)%N st'
      /\ rx_idx st' = length (seen ++ polls_bytes before)
      /\ firstn (length (seen ++ polls_bytes before)) (rx_buf st')
         = seen ++ polls_bytes before
      /\ rx_fifo st' = []
      /\ found_header st' = (4 <=? length (seen ++ polls_bytes before))
      /\ found_footer st' = false
      /\ rx_skips st' = rx_skips st.
Proof.
  intros Hhdr Hcap.
  induction before as [|[dt p] before IH];
    intros seen tl elapsed st Hack Htl Hclean Htime Hidx Hbuf Hfifo Hfh Hff.
  - exists st. cbn [app polls_bytes ticks_spent fold_right].
    rewrite N.add_0_r, app_nil_r. auto 10.
  - assert (Htl_len : 0 < length tl)
      by (destruct tl; [easy | simpl; lia]).
    assert (Hroom : length seen < LD2450_ACK_BUFFER_SIZE hv).
    { rewrite Hack, !length_app in Hcap. lia. }
    cbn [ticks_spent fold_right fst] in Htime |- *.
    fold (ticks_spent before) in Htime |- *.
    cbn [app await_ack].
    rewrite (proj2 (N.ltb_lt elapsed timeout_ticks)) by lia.
    rewrite Hidx, (proj2 (Nat.ltb_lt _ _) Hroom). cbn [andb].
    rewrite N.add_assoc.
    destruct p as [| |chunk]; cbn [polls_bytes no_early_footer] in *.
    + apply (IH seen tl); auto. lia.
    + apply (IH seen tl); auto. lia.
    + destruct Hclean as [Hnot Hclean].
      destruct chunk as [|b chunk].
      * (* an empty read changes nothing *)
        rewrite app_nil_r in Hclean. cbn [app] in Hack |- *.
        assert (Hsame : rx_data hv cmd [] st
                        = {| rx_buf := rx_buf st; rx_idx := rx_idx st;
                             rx_fifo := []; found_header := found_header st;
                             found_cmd_echo := found_cmd_echo st;
                             found_footer := found_footer st;
                             rx_skips := rx_skips st |}).
        { unfold rx_data. rewrite Hfifo. cbn [app length Nat.min firstn skipn].
          cbn [Nat.ltb Nat.leb]. unfold write_at. cbn [app length].
          now rewrite Nat.add_0_r, firstn_skipn. }
        rewrite Hsame. cbn [found_footer]. rewrite Hff.
        match goal with
        | |- context [await_ack hv cmd timeout_ticks (before ++ rest) _ ?s] =>
            destruct (IH seen tl (elapsed + dt)%N s Hack Htl Hclean)
              as (st' & Heq & K); auto; [lia|]
        end.
        exists st'. rewrite Heq. exact (conj eq_refl K).
      * assert (Hack' : ack = (seen ++ b :: chunk)
                              ++ polls_bytes before ++ tl).
        { rewrite Hack, <- !app_assoc. reflexivity. }
        assert (Hfit : length (seen ++ b :: chunk)
                       <= LD2450_ACK_BUFFER_SIZE hv).
        { rewrite Hack', !length_app in Hcap. rewrite length_app. lia. }
        assert (Hh : 4 <= length (seen ++ b :: chunk) ->
                     firstn 4 (seen ++ b :: chunk)
                     = LD2450_CONFIG_FRAME_HEADER).
        { intro H4. rewrite <- Hhdr, Hack'. symmetry.
          now apply firstn_4_of_prefix. }
        destruct (rx_data_append cmd (b :: chunk) seen st Hidx Hbuf Hfifo
                    Hfh Hff ltac:(discriminate) Hfit Hh)
          as (H1 & H2 & H3 & H4 & H5 & H6).
        assert (Hff' : found_footer (rx_data hv cmd (b :: chunk) st) = false).
        { rewrite H5. destruct Hnot as [Hshort|Hother].
          - now rewrite (proj2 (Nat.leb_gt _ _) Hshort).
          - destruct (bytes_eqb _ _) eqn:E; [|now rewrite andb_false_r].
            apply bytes_eqb_eq in E. contradiction. }
        rewrite Hff'.
        destruct (IH (seen ++ b :: chunk) tl (elapsed + dt)%N
                    (rx_data hv cmd (b :: chunk) st) Hack' Htl Hclean)
          as (st' & Heq & K1 & K2 & K3 & K4 & K5 & K6); auto; [lia|].
        exists st'. rewrite Heq.
        rewrite <- !app_assoc in K1, K2, K4.
        repeat split; auto. congruence.
Qed.

(** X7: an acknowledgement that arrives in several reads is put together
    again.  When the reads before the last bring the first bytes of a
    well-formed ACK, none of them ending on bytes the loop takes for a
    complete frame, and the last read brings the rest before the deadline,
    the transaction succeeds and returns exactly the frame. *)
Theorem split_ack_is_reassembled cmd value timeout_ms (w : world)
    (before : list (N * poll)) (dt : N) (last : list byte)
    (rest : list (N * poll)) (ack : list byte) :
  initialized (dev w) = true ->
  xSemaphoreTake (fst (next_exchange w)) (pdMS_TO_TICKS hv timeout_ms) = true ->
  uart_write_bytes (fst (next_exchange w)) (8 + length value + 4)
  = Z.of_nat (8 + length value + 4) ->
  rx_polls (fst (next_exchange w)) = before ++ (dt, UartData last) :: rest ->
  ack = polls_bytes before ++ last ->
  last <> [] ->
  no_early_footer [] before ->
  (ticks_spent before < pdMS_TO_TICKS hv timeout_ms)%N ->
  spec_validate hv ack cmd = None ->
  length ack <= LD2450_ACK_BUFFER_SIZE hv ->
  fst (ld2450_send_command hv cmd value true timeout_ms w)
  = (ESP_OK, Some ack).
Proof.
  intros Hinit Hlock Hsent Hpolls Hack Hlast Hclean Htime Hok Hcap.
  pose proof (spec_validate_ok hv ack cmd Hok) as (_ & Hhdr & Hftr & _).
  pose proof (spec_validate_min_length hv ack cmd Hok) as Hlen14.
  destruct (await_ack_gathers cmd (pdMS_TO_TICKS hv timeout_ms) ack
              ((dt, UartData last) :: rest) Hhdr Hcap
              before [] last 0%N (rx_start (dev w)))
    as (st' & Heq & K1 & K2 & K3 & K4 & K5 & K6); auto.
  cbn [app] in K1, K2, K4.
  assert (Hfit : length (polls_bytes before ++ last)
                 <= LD2450_ACK_BUFFER_SIZE hv) by now rewrite <- Hack.
  assert (Hh : 4 <= length (polls_bytes before ++ last) ->
               firstn 4 (polls_bytes before ++ last)
               = LD2450_CONFIG_FRAME_HEADER)
    by (intros _; now rewrite <- Hack).
  destruct (rx_data_append cmd last (polls_bytes before) st' K1 K2 K3 K4 K5
              Hlast Hfit Hh) as (H1 & H2 & H3 & H4 & H5 & H6).
  rewrite <- Hack in H1, H2, H4, H5.
  assert (Hfound : found_footer (rx_data hv cmd last st') = true).
  { rewrite H5, (proj2 (Nat.leb_le 12 _)) by lia.
    rewrite Hftr. now rewrite (proj2 (bytes_eqb_eq _ _) eq_refl). }
  assert (Hroom : length (polls_bytes before) < LD2450_ACK_BUFFER_SIZE hv).
  { rewrite Hack, length_app in Hcap.
    destruct last; [easy | simpl in Hcap; lia]. }
  assert (Hres : rx_result hv cmd timeout_ms w = rx_data hv cmd last st').
  { unfold rx_result. rewrite Hpolls, Heq. cbn [await_ack].
    rewrite (proj2 (N.ltb_lt _ _)) by lia.
    rewrite K1, (proj2 (Nat.ltb_lt _ _) Hroom). cbn [andb].
    now rewrite Hfound. }
  assert (Hfh : found_header (rx_result hv cmd timeout_ms w) = true).
  { rewrite Hres, H4. apply Nat.leb_le. lia. }
  assert (Hff : found_footer (rx_result hv cmd timeout_ms w) = true)
    by now rewrite Hres.
  destruct (send_command_complete hv cmd value true timeout_ms w
              Hinit Hlock Hsent Hfh Hff)
    as (d & r & logs & Hval & Hrun & _).
  rewrite Hres, H1, H2 in Hval, Hrun.
  rewrite (validate_ack_accepts hv ack cmd Hok) in Hval.
  injection Hval as <- <-.
  now rewrite Hrun.
Qed.

End Coordinator.

Section Api.

Variable hv : header_values.

(** The shape of the operations, as one equation each. *)
Lemma run_op_rejects (op : public_op) (w : world) :
  (initialized (dev w) = false -> run_op hv op w = (uninitialized_code op, w))
  /\ (initialized (dev w) = true -> args_ok hv op = false ->
      run_op hv op w = (ESP_ERR_INVALID_ARG, w)).
Proof.
  split.
  - intro Hinit.
    destruct op; cbn [run_op uninitialized_code];
      unfold ld2450_set_tracking_mode, ld2450_get_tracking_mode,
        ld2450_get_firmware_version, ld2450_set_baud_rate,
        ld2450_restore_factory_settings, ld2450_restart_module,
        ld2450_set_bluetooth, ld2450_get_mac_address,
        ld2450_set_region_filter, ld2450_get_region_filter;
      run_monad; rewrite Hinit; reflexivity.
  - intros Hinit Hargs.
    destruct op; cbn [args_ok] in Hargs; try discriminate.
    apply negb_false_iff in Hargs.
    cbn [run_op]. unfold ld2450_set_baud_rate. run_monad.
    now rewrite Hinit, Hargs.
Qed.

Ltac enter_split :=
  destruct (ld2450_enter_config_mode hv _) as [re w1]; cbn [fst snd];
  destruct (is_ok re); cbn [negb]; [|reflexivity].

Ltac body_exit :=
  destruct (ld2450_send_command hv _ _ _ _ _) as [[rb out] w2];
  cbn [fst snd];
  try match goal with
      | |- context [parse_tracking_mode ?b ?m] =>
          destruct (parse_tracking_mode b m) as [rp mode']
      | |- context [parse_mac_address ?b ?m] =>
          destruct (parse_mac_address b m) as [rp mac']
      | |- context [parse_region_filter ?b ?m] =>
          destruct (parse_region_filter b m) as [rp new]
      end;
  cbn [fst snd];
  destruct (ld2450_exit_config_mode hv _) as [rx w3]; reflexivity.

Lemma run_op_bracket (op : public_op) (w : world) :
  initialized (dev w) = true ->
  args_ok hv op = true ->
  is_restart op = false ->
  run_op hv op w
  = let entered := ld2450_enter_config_mode hv w in
    if is_ok (fst entered) then
      let body := body_step hv op (snd entered) in
      let exited := ld2450_exit_config_mode hv (snd body) in
      (first_error (fst body) (fst exited), snd exited)
    else entered.
Proof.
  intros Hinit Hargs Hrestart. cbv zeta.
  destruct op; cbn [run_op body_step args_ok is_restart] in *;
    try discriminate.
  - unfold ld2450_set_tracking_mode. run_monad. rewrite Hinit. cbn [negb].
    enter_split. body_exit.
  - unfold ld2450_get_tracking_mode. run_monad. rewrite Hinit. cbn [negb].
    enter_split. body_exit.
  - unfold ld2450_get_firmware_version. run_monad. rewrite Hinit.
    cbn [negb].
    destruct (ld2450_enter_config_mode hv w) as [re w1]. cbn [fst snd].
    destruct (is_ok re) eqn:Hre; cbn [negb]; [|reflexivity].
    apply is_ok_true in Hre. subst re.
    destruct (firmware_attempts hv 3 ESP_OK version _) as [[ra v'] w2].
    cbn [fst snd].
    destruct (ld2450_exit_config_mode hv w2) as [rx w3]. reflexivity.
  - unfold ld2450_set_baud_rate. apply negb_true_iff in Hargs.
    run_monad. rewrite Hinit, Hargs. cbn [negb].
    enter_split. body_exit.
  - unfold ld2450_restore_factory_settings. run_monad. rewrite Hinit.
    cbn [negb]. enter_split. body_exit.
  - unfold ld2450_set_bluetooth. run_monad. rewrite Hinit. cbn [negb].
    enter_split. body_exit.
  - unfold ld2450_get_mac_address. run_monad. rewrite Hinit. cbn [negb].
    enter_split. body_exit.
  - unfold ld2450_set_region_filter. run_monad. rewrite Hinit. cbn [negb].
    enter_split. destruct regions as [[r0 r1] r2]. body_exit.
  - unfold ld2450_get_region_filter. run_monad. rewrite Hinit. cbn [negb].
    enter_split. body_exit.
Qed.

Lemma restart_runs (w : world) :
  initialized (dev w) = true ->
  ld2450_restart_module hv w
  = let entered := ld2450_enter_config_mode hv w in
    if is_ok (fst entered) then
      let t := ld2450_send_command hv LD2450_CMD_RESTART_MODULE [] false
                                   LD2450_CONFIG_TIMEOUT_MS (snd entered) in
      if is_ok (fst (fst t))
      then (fst (fst t),
            {| dev := set_in_config_mode false (dev (snd t));
               pending := pending (snd t);
               effects := effects (snd t)
                          ++ [TaskDelay (LD2450_RESTART_TIMEOUT_MS hv)] |})
      else (fst (fst t), snd (ld2450_exit_config_mode hv (snd t)))
    else entered.
Proof.
  intro Hinit. cbv zeta. unfold ld2450_restart_module. run_monad.
  rewrite Hinit. cbn [negb]. enter_split.
  destruct (ld2450_send_command hv _ _ _ _ w1) as [[rb o] w2].
  cbn [fst snd]. destruct (is_ok rb); [reflexivity|].
  destruct (ld2450_exit_config_mode hv w2). reflexivity.
Qed.

Lemma exit_ok_is_normal (w : world) :
  fst (ld2450_exit_config_mode hv w) = ESP_OK ->
  initialized (dev (snd (ld2450_exit_config_mode hv w))) = true
  /\ in_config_mode (dev (snd (ld2450_exit_config_mode hv w))) = false.
Proof.
  intro Hok.
  destruct (initialized (dev w)) eqn:Hinit.
  2:{ rewrite exit_uninitialized in Hok by assumption. discriminate. }
  destruct (in_config_mode (dev w)) eqn:Hmode.
  - destruct (exit_result hv w Hinit Hmode)
      as (r & evs & Hr & _ & _ & Hm & Hi & _).
    rewrite Hm, Hi. rewrite Hok in Hr. subst r. auto.
  - rewrite exit_already by assumption. auto.
Qed.

Lemma uninitialized_code_not_ok (op : public_op) :
  uninitialized_code op <> ESP_OK.
Proof. destruct op; discriminate. Qed.

Lemma first_error_ok (r exit_ret : esp_err_t) :
  first_error r exit_ret = ESP_OK -> r = ESP_OK /\ exit_ret = ESP_OK.
Proof.
  unfold first_error. destruct (is_ok r) eqn:E; cbn [negb].
  - apply is_ok_true in E. auto.
  - intro H. apply is_ok_false in E. contradiction.
Qed.

(** X8: an operation that returns ESP_OK leaves the gate NORMAL, whatever
    state it started in: either END_CONFIG was acknowledged or, for the
    restart, the flag was reset after the module rebooted. *)
Theorem ok_operation_leaves_gate_normal (op : public_op) (w : world) :
  fst (run_op hv op w) = ESP_OK ->
  in_config_mode (dev (snd (run_op hv op w))) = false.
Proof.
  intro Hok.
  destruct (run_op_rejects op w) as [Huninit Hargs].
  destruct (initialized (dev w)) eqn:Hinit.
  2:{ rewrite Huninit in Hok by reflexivity.
      now apply uninitialized_code_not_ok in Hok. }
  destruct (args_ok hv op) eqn:Ha.
  2:{ rewrite Hargs in Hok by reflexivity. discriminate. }
  destruct (is_restart op) eqn:Hr.
  - destruct op; try discriminate. cbn [run_op] in *.
    rewrite restart_runs in Hok |- * by assumption. cbv zeta in *.
    destruct (ld2450_enter_config_mode hv w) as [re w1].
    cbn [fst snd] in *.
    destruct (is_ok re) eqn:Hre.
    + destruct (ld2450_send_command hv _ _ _ _ w1) as [[rb o] w2].
      cbn [fst snd] in *.
      destruct (is_ok rb) eqn:Hrb; [reflexivity|].
      cbn [fst] in Hok. apply is_ok_false in Hrb. contradiction.
    + cbn [fst] in Hok. apply is_ok_false in Hre. contradiction.
  - rewrite run_op_bracket in Hok |- * by assumption. cbv zeta in *.
    destruct (is_ok (fst (ld2450_enter_config_mode hv w))) eqn:Hre.
    + cbn [fst snd] in *. apply first_error_ok in Hok.
      destruct Hok as [_ Hexit].
      now apply exit_ok_is_normal in Hexit.
    + apply is_ok_false in Hre. contradiction.
Qed.

(** X9: the calls of the gate repeat without effect.  A second enter after
    a successful enter, and a second exit after a successful exit, return
    ESP_OK and leave the world as it is: one ENABLE_CONFIG, one END_CONFIG
    on the wire. *)
Theorem gate_calls_repeat_without_effect (w : world) :
  (fst (ld2450_enter_config_mode hv w) = ESP_OK ->
   ld2450_enter_config_mode hv (snd (ld2450_enter_config_mode hv w))
   = (ESP_OK, snd (ld2450_enter_config_mode hv w)))
  /\ (fst (ld2450_exit_config_mode hv w) = ESP_OK ->
      ld2450_exit_config_mode hv (snd (ld2450_exit_config_mode hv w))
      = (ESP_OK, snd (ld2450_exit_config_mode hv w))).
Proof.
  split; intro Hok.
  - destruct (initialized (dev w)) eqn:Hinit.
    2:{ rewrite enter_uninitialized in Hok by assumption. discriminate. }
    destruct (entered_is_configuring hv w Hinit Hok) as [Hi Hm].
    now apply enter_already.
  - destruct (exit_ok_is_normal w Hok) as [Hi Hm].
    now apply exit_already.
Qed.

(** X10: what the operations refuse.  On a session that is not
    initialised every operation returns at once, ESP_ERR_INVALID_ARG for
    the getters and the region setter and ESP_ERR_INVALID_STATE for the
    others, and a baud-rate index outside LD2450_BAUD_9600 ..
    LD2450_BAUD_460800 gives ESP_ERR_INVALID_ARG; in both cases nothing is
    sent, no exchange is consumed and the session is untouched. *)
Theorem refused_operations_touch_nothing (op : public_op) (w : world) :
  (initialized (dev w) = false -> run_op hv op w = (uninitialized_code op, w))
  /\ (initialized (dev w) = true -> args_ok hv op = false ->
      run_op hv op w = (ESP_ERR_INVALID_ARG, w)).
Proof. exact (run_op_rejects op w). Qed.

End Api.

Section Preservation.

Variable hv : header_values.

(** A property of the session that the mode flag does not affect and that
    every transaction with a value of at most 26 bytes keeps. *)
Variable P : ld2450_state_t -> Prop.

Hypothesis P_mode : forall b d, P d -> P (set_in_config_mode b d).

Hypothesis P_send :
  forall cmd value want timeout_ms (w : world),
    length value <= 26 ->
    P (dev w) ->
    P (dev (snd (ld2450_send_command hv cmd value want timeout_ms w))).

Lemma enter_keeps (w : world) :
  P (dev w) -> P (dev (snd (ld2450_enter_config_mode hv w))).
Proof.
  intro Hp.
  destruct (initialized (dev w)) eqn:Hinit.
  2:{ now rewrite enter_uninitialized by assumption. }
  destruct (in_config_mode (dev w)) eqn:Hmode.
  { now rewrite enter_already by assumption. }
  rewrite enter_runs by assumption. cbv zeta. cbn [snd].
  assert (Hsent : P (dev (snd (ld2450_send_command hv
                    LD2450_CMD_ENABLE_CONFIG [0x01; 0x00]%Z false
                    LD2450_CONFIG_TIMEOUT_MS (entering w))))).
  { apply P_send; [simpl; lia|]. cbn [entering dev]. now apply P_mode. }
  destruct (is_ok _); [exact Hsent|].
  cbn [with_mode dev]. now apply P_mode.
Qed.

Lemma exit_keeps (w : world) :
  P (dev w) -> P (dev (snd (ld2450_exit_config_mode hv w))).
Proof.
  intro Hp.
  destruct (initialized (dev w)) eqn:Hinit.
  2:{ now rewrite exit_uninitialized by assumption. }
  destruct (in_config_mode (dev w)) eqn:Hmode.
  2:{ now rewrite exit_already by assumption. }
  rewrite exit_runs by assumption. cbv zeta. cbn [snd].
  assert (Hsent : P (dev (snd (ld2450_send_command hv
                    LD2450_CMD_END_CONFIG [] false
                    LD2450_CONFIG_TIMEOUT_MS w)))).
  { apply P_send; [simpl; lia | exact Hp]. }
  destruct (is_ok _); [|exact Hsent].
  cbn [with_mode dev]. now apply P_mode.
Qed.

Lemma attempts_keep (n : nat) :
  forall r0 version (w : world),
    P (dev w) -> P (dev (snd (firmware_attempts hv n r0 version w))).
Proof.
  induction n as [|n IH]; intros r0 version w Hp; [exact Hp|].
  pose proof (P_send LD2450_CMD_READ_FW_VERSION [] true 1000%N w
                ltac:(simpl; lia) Hp) as Hsent.
  destruct (attempt_hit (fst (ld2450_send_command hv
              LD2450_CMD_READ_FW_VERSION [] true 1000 w))) eqn:Hhit.
  - now rewrite firmware_attempts_hit by assumption.
  - rewrite firmware_attempts_miss by assumption. apply IH. exact Hsent.
Qed.

Lemma body_keeps (op : public_op) (w : world) :
  P (dev w) -> P (dev (snd (body_step hv op w))).
Proof.
  intro Hp.
  assert (Hsend : forall cmd value want (f : esp_err_t * option (list byte)
                                             -> esp_err_t),
             length value <= 26 ->
             P (dev (snd ((b <- ld2450_send_command hv cmd value want
                                  LD2450_CONFIG_TIMEOUT_MS ;;
                           ret (f b)) w)))).
  { intros cmd value want f Hlen. unfold bind, ret.
    pose proof (P_send cmd value want LD2450_CONFIG_TIMEOUT_MS w Hlen Hp)
      as Hsent.
    destruct (ld2450_send_command hv cmd value want _ w). exact Hsent. }
  destruct op; cbn [body_step];
    try (apply (Hsend _ _ _ (fun b => fst b)); simpl; lia).
  - apply (Hsend _ _ _ (fun b => fst (parse_tracking_mode b mode))).
    simpl; lia.
  - run_monad.
    match goal with
    | |- context [firmware_attempts hv 3 ESP_OK version ?w0] =>
        pose proof (attempts_keep 3 ESP_OK version w0 Hp) as Hdone;
        destruct (firmware_attempts hv 3 ESP_OK version w0) as [a w2]
    end.
    exact Hdone.
  - apply (Hsend _ _ _ (fun b => fst (parse_mac_address b mac))).
    simpl; lia.
  - destruct regions as [[r0 r1] r2].
    apply (Hsend _ _ _ (fun b => fst b)). simpl; lia.
  - apply (Hsend _ _ _ (fun b => fst (parse_region_filter b old))).
    simpl; lia.
Qed.

Lemma run_op_keeps (op : public_op) (w : world) :
  P (dev w) -> P (dev (snd (run_op hv op w))).
Proof.
  intro Hp.
  destruct (run_op_rejects hv op w) as [Huninit Hargs].
  destruct (initialized (dev w)) eqn:Hinit.
  2:{ now rewrite Huninit. }
  destruct (args_ok hv op) eqn:Ha.
  2:{ now rewrite Hargs. }
  pose proof (enter_keeps w Hp) as Hentered.
  destruct (is_restart op) eqn:Hr.
  - destruct op; try discriminate. cbn [run_op].
    rewrite restart_runs by assumption. cbv zeta.
    destruct (is_ok (fst (ld2450_enter_config_mode hv w)));
      [|exact Hentered].
    pose proof (P_send LD2450_CMD_RESTART_MODULE [] false
                  LD2450_CONFIG_TIMEOUT_MS
                  (snd (ld2450_enter_config_mode hv w))
                  ltac:(simpl; lia) Hentered) as Hsent.
    destruct (is_ok (fst (fst _))); cbn [snd dev].
    + now apply P_mode.
    + now apply exit_keeps.
  - rewrite run_op_bracket by assumption. cbv zeta.
    destruct (is_ok (fst (ld2450_enter_config_mode hv w)));
      [|exact Hentered].
    cbn [snd]. apply exit_keeps. now apply body_keeps.
Qed.

End Preservation.

Section Invariants.

Variable hv : header_values.

Lemma send_command_idle cmd value want timeout_ms (w : world) :
  mutex_held (dev w) = false ->
  mutex_held (dev (snd (ld2450_send_command hv cmd value want timeout_ms w)))
  = false
  /\ initialized (dev (snd (ld2450_send_command hv cmd value want
                                                 timeout_ms w)))
     = initialized (dev w).
Proof.
  intro Hidle.
  destruct (initialized (dev w)) eqn:Hinit.
  2:{ rewrite send_command_uninitialized by assumption. auto. }
  destruct (send_command_summary hv cmd value want timeout_ms w Hinit)
    as (r & out & d & evs & Heq & Hi & _ & Hm & _).
  rewrite Heq. cbn [snd dev]. auto.
Qed.

(** X11: the operations keep the session sound.  On a session whose
    buffers have their declared sizes, whose command buffer holds the
    longest frame (38 bytes) and whose mutex is free, every public
    operation, whatever the device does, writes nothing outside the
    buffers, returns with the mutex released and leaves the session
    initialised as it was. *)
Theorem operations_keep_session_sound (op : public_op) (w : world) :
  session_sized hv (dev w) ->
  38 <= length (cmd_buffer (dev w)) ->
  mutex_held (dev w) = false ->
  let d := dev (snd (run_op hv op w)) in
  session_sized hv d
  /\ length (cmd_buffer d) = length (cmd_buffer (dev w))
  /\ mutex_held d = false
  /\ initialized d = initialized (dev w).
Proof.
  intros Hsized Hcmd Hidle. cbv zeta.
  apply (run_op_keeps hv
           (fun d => session_sized hv d
                     /\ length (cmd_buffer d) = length (cmd_buffer (dev w))
                     /\ mutex_held d = false
                     /\ initialized d = initialized (dev w))).
  - intros b d H. exact H.
  - intros cmd value want timeout_ms w0 Hlen (Hs & Hc & Hm & Hi).
    destruct (send_command_sizes hv cmd value want timeout_ms w0 Hs)
      as [Hs' Hc']; [lia|].
    destruct (send_command_idle cmd value want timeout_ms w0 Hm)
      as [Hm' Hi'].
    repeat split; try apply Hs'; congruence.
  - auto.
Qed.

End Invariants.

Section Regions.

Variable hv : header_values.

Lemma int16_round_trip (x : Z) :
  is_int16 x ->
  to_int16 (Z.lor (Z.land x 0xFF) (Z.shiftl (Z.land (Z.shiftr x 8) 0xFF) 8))
  = x.
Proof.
  unfold is_int16, to_int16. intro Hx.
  rewrite join_low_high, <- Z.land_assoc, Z.land_diag.
  change 0xFFFF%Z with (Z.ones 16). rewrite Z.land_ones by lia.
  change (2 ^ 16)%Z with 0x10000%Z.
  destruct (Z.ltb_spec (x mod 0x10000) 0x8000) as [Hlow|Hhigh];
    Z.div_mod_to_equations; lia.
Qed.

Lemma uint16_round_trip (x : Z) :
  (0 <= x < 0x10000)%Z ->
  Z.lor (Z.land x 0xFF) (Z.shiftl (Z.land (Z.shiftr x 8) 0xFF) 8) = x.
Proof.
  intro Hx. rewrite join_low_high. now apply low16_small.
Qed.

(** The 26 bytes of a region filter, found at offset 10 of an
    acknowledgement that came back with ESP_OK, are parsed to the filter
    type and the regions they were built from. *)
Lemma region_value_decodes (type : Z) (regions : regions3)
    (pre post : list byte) (old : Z * regions3) :
  (0 <= type < 0x10000)%Z ->
  region_in_range (fst (fst regions)) ->
  region_in_range (snd (fst regions)) ->
  region_in_range (snd regions) ->
  length pre = 10 ->
  4 <= length post ->
  parse_region_filter
    (ESP_OK, Some (pre ++ region_filter_value type regions ++ post)) old
  = (ESP_OK, (type, regions)).
Proof.
  intros Htype H0 H1 H2 Hpre Hpost.
  destruct regions as [[r0 r1] r2]. cbn [fst snd] in H0, H1, H2.
  destruct pre as [|p0 [|p1 [|p2 [|p3 [|p4 [|p5 [|p6 [|p7 [|p8 [|p9 [|]]]]]]]]]]];
    try discriminate.
  destruct r0 as [a0 b0 c0 d0], r1 as [a1 b1 c1 d1], r2 as [a2 b2 c2 d2].
  destruct H0 as (? & ? & ? & ?), H1 as (? & ? & ? & ?),
           H2 as (? & ? & ? & ?).
  cbn [x1 y1 x2 y2] in *.
  unfold parse_region_filter. cbn [fst snd ack_of is_ok esp_err_eqb andb].
  assert (Hlen : (40 <=? length ([p0; p1; p2; p3; p4; p5; p6; p7; p8; p9]
                   ++ region_filter_value type
                        ({| x1 := a0; y1 := b0; x2 := c0; y2 := d0 |},
                         {| x1 := a1; y1 := b1; x2 := c1; y2 := d1 |},
                         {| x1 := a2; y1 := b2; x2 := c2; y2 := d2 |})
                   ++ post)) = true).
  { apply Nat.leb_le. rewrite !length_app. simpl. lia. }
  rewrite Hlen.
  unfold region_at, le16.
  cbn [region_filter_value region_bytes app nth Nat.add Nat.mul x1 y1 x2 y2].
  rewrite !int16_round_trip by assumption.
  rewrite uint16_round_trip by assumption.
  reflexivity.
Qed.

End Regions.

Section Getters.

Variable hv : header_values.

Lemma get_tracking_mode_runs (mode : ld2450_tracking_mode_t) (w : world) :
  initialized (dev w) = true ->
  ld2450_get_tracking_mode hv mode w
  = let entered := ld2450_enter_config_mode hv w in
    if is_ok (fst entered) then
      let t := ld2450_send_command hv LD2450_CMD_QUERY_TARGET_MODE [] true
                                   LD2450_CONFIG_TIMEOUT_MS (snd entered) in
      let p := parse_tracking_mode (fst t) mode in
      let exited := ld2450_exit_config_mode hv (snd t) in
      ((first_error (fst p) (fst exited), snd p), snd exited)
    else ((fst entered, mode), snd entered).
Proof.
  intro Hinit. cbv zeta. unfold ld2450_get_tracking_mode. run_monad.
  rewrite Hinit. cbn [negb].
  destruct (ld2450_enter_config_mode hv w) as [re w1]. cbn [fst snd].
  destruct (is_ok re); cbn [negb]; [|reflexivity].
  destruct (ld2450_send_command hv _ _ _ _ w1) as [b w2]. cbn [fst snd].
  destruct (parse_tracking_mode b mode) as [rp mode']. cbn [fst snd].
  destruct (ld2450_exit_config_mode hv w2) as [rx w3]. reflexivity.
Qed.

Lemma get_mac_address_runs (mac : list byte) (w : world) :
  initialized (dev w) = true ->
  ld2450_get_mac_address hv mac w
  = let entered := ld2450_enter_config_mode hv w in
    if is_ok (fst entered) then
      let t := ld2450_send_command hv LD2450_CMD_GET_MAC_ADDRESS
                 [0x01; 0x00]%Z true LD2450_CONFIG_TIMEOUT_MS
                 (snd entered) in
      let p := parse_mac_address (fst t) mac in
      let exited := ld2450_exit_config_mode hv (snd t) in
      ((first_error (fst p) (fst exited), snd p), snd exited)
    else ((fst entered, mac), snd entered).
Proof.
  intro Hinit. cbv zeta. unfold ld2450_get_mac_address. run_monad.
  rewrite Hinit. cbn [negb].
  destruct (ld2450_enter_config_mode hv w) as [re w1]. cbn [fst snd].
  destruct (is_ok re); cbn [negb]; [|reflexivity].
  destruct (ld2450_send_command hv _ _ _ _ w1) as [b w2]. cbn [fst snd].
  destruct (parse_mac_address b mac) as [rp mac']. cbn [fst snd].
  destruct (ld2450_exit_config_mode hv w2) as [rx w3]. reflexivity.
Qed.

Lemma get_region_filter_runs (old : Z * regions3) (w : world) :
  initialized (dev w) = true ->
  ld2450_get_region_filter hv old w
  = let entered := ld2450_enter_config_mode hv w in
    if is_ok (fst entered) then
      let t := ld2450_send_command hv LD2450_CMD_QUERY_REGION [] true
                                   LD2450_CONFIG_TIMEOUT_MS (snd entered) in
      let p := parse_region_filter (fst t) old in
      let exited := ld2450_exit_config_mode hv (snd t) in
      ((first_error (fst p) (fst exited), snd p), snd exited)
    else ((fst entered, old), snd entered).
Proof.
  intro Hinit. cbv zeta. unfold ld2450_get_region_filter. run_monad.
  rewrite Hinit. cbn [negb].
  destruct (ld2450_enter_config_mode hv w) as [re w1]. cbn [fst snd].
  destruct (is_ok re); cbn [negb]; [|reflexivity].
  destruct (ld2450_send_command hv _ _ _ _ w1) as [b w2]. cbn [fst snd].
  destruct (parse_region_filter b old) as [rp new]. cbn [fst snd].
  destruct (ld2450_exit_config_mode hv w2) as [rx w3]. reflexivity.
Qed.

(** A query that returned ESP_OK handed out a validated frame. *)
Lemma query_ok_ack cmd value timeout_ms (w : world) :
  is_ok (fst (fst (ld2450_send_command hv cmd value true timeout_ms w)))
  = true ->
  exists ack,
    ld2450_validate_ack hv ack cmd = Some (ESP_OK, [])
    /\ 14 <= length ack
    /\ snd (fst (ld2450_send_command hv cmd value true timeout_ms w))
       = Some ack.
Proof.
  intro Hok. apply is_ok_true in Hok.
  destruct (send_command_ok_ack hv cmd value true timeout_ms w Hok)
    as (ack & Hval & [Hlen _] & Hout & _).
  exists ack. auto.
Qed.

(** X13: a getter that returns ESP_OK has filled its result from the
    acknowledgement its own query came back with.  The query transaction,
    made in the world enter left, returned ESP_OK and a validated frame,
    and the result is read from that frame: the tracking mode from the
    16-bit word at offset 10 (1 single, 2 multi), the MAC address from the
    six bytes at offset 10 of a frame of 16 bytes at least, the region
    filter from the 26 bytes at offset 10 of a frame of 40 bytes at
    least. *)
Theorem getters_ok_results_come_from_ack (w : world) :
  let entered := snd (ld2450_enter_config_mode hv w) in
  (forall mode,
     let res := ld2450_get_tracking_mode hv mode w in
     fst (fst res) = ESP_OK ->
     exists ack,
       fst (ld2450_send_command hv LD2450_CMD_QUERY_TARGET_MODE [] true
                                LD2450_CONFIG_TIMEOUT_MS entered)
       = (ESP_OK, Some ack)
       /\ ld2450_validate_ack hv ack LD2450_CMD_QUERY_TARGET_MODE
          = Some (ESP_OK, [])
       /\ ((to_uint16 (le16 ack 10) = 1%Z
            /\ snd (fst res) = LD2450_MODE_SINGLE_TARGET)
           \/ (to_uint16 (le16 ack 10) = 2%Z
               /\ snd (fst res) = LD2450_MODE_MULTI_TARGET)))
  /\ (forall mac,
        let res := ld2450_get_mac_address hv mac w in
        fst (fst res) = ESP_OK ->
        exists ack,
          fst (ld2450_send_command hv LD2450_CMD_GET_MAC_ADDRESS
                                   [0x01; 0x00]%Z true
                                   LD2450_CONFIG_TIMEOUT_MS entered)
          = (ESP_OK, Some ack)
          /\ ld2450_validate_ack hv ack LD2450_CMD_GET_MAC_ADDRESS
             = Some (ESP_OK, [])
          /\ 16 <= length ack
          /\ snd (fst res) = firstn 6 (skipn 10 ack))
  /\ (forall old,
        let res := ld2450_get_region_filter hv old w in
        fst (fst res) = ESP_OK ->
        exists ack,
          fst (ld2450_send_command hv LD2450_CMD_QUERY_REGION [] true
                                   LD2450_CONFIG_TIMEOUT_MS entered)
          = (ESP_OK, Some ack)
          /\ ld2450_validate_ack hv ack LD2450_CMD_QUERY_REGION
             = Some (ESP_OK, [])
          /\ 40 <= length ack
          /\ snd (fst res)
             = (le16 ack 10,
                (region_at ack 0, region_at ack 1, region_at ack 2))).
Proof.
  cbv zeta.
  destruct (initialized (dev w)) eqn:Hinit.
  2:{ repeat split; intros x Hok; exfalso;
        [unfold ld2450_get_tracking_mode in Hok
        |unfold ld2450_get_mac_address in Hok
        |unfold ld2450_get_region_filter in Hok];
        revert Hok; run_monad; rewrite Hinit; discriminate. }
  repeat split; intros x Hok.
  - rewrite get_tracking_mode_runs in Hok |- * by assumption.
    cbv zeta in *.
    destruct (is_ok (fst (ld2450_enter_config_mode hv w))) eqn:Hre.
    2:{ cbn [fst] in Hok. apply is_ok_false in Hre. contradiction. }
    cbn [fst snd] in *. apply first_error_ok in Hok. destruct Hok as [Hp _].
    set (t := ld2450_send_command hv LD2450_CMD_QUERY_TARGET_MODE [] true
                LD2450_CONFIG_TIMEOUT_MS
                (snd (ld2450_enter_config_mode hv w))) in *.
    unfold parse_tracking_mode in Hp |- *.
    destruct (is_ok (fst (fst t))) eqn:Hb.
    2:{ cbn [andb fst] in Hp. apply is_ok_false in Hb. contradiction. }
    destruct (query_ok_ack _ _ _ _ Hb) as (ack & Hval & Hlen & Hout).
    fold t in Hout. rewrite Hout in Hp |- *. cbn [ack_of andb] in *.
    rewrite (proj2 (Nat.leb_le 12 (length ack))) in Hp |- * by lia.
    exists ack. apply is_ok_true in Hb.
    split; [destruct t as [[r o] w2]; cbn [fst snd] in *; congruence|].
    split; [exact Hval|].
    destruct (Z.eqb_spec (to_uint16 (le16 ack 10)) 1) as [E1|N1];
      [left; auto|].
    destruct (Z.eqb_spec (to_uint16 (le16 ack 10)) 2) as [E2|N2];
      [right; auto|].
    discriminate Hp.
  - rewrite get_mac_address_runs in Hok |- * by assumption.
    cbv zeta in *.
    destruct (is_ok (fst (ld2450_enter_config_mode hv w))) eqn:Hre.
    2:{ cbn [fst] in Hok. apply is_ok_false in Hre. contradiction. }
    cbn [fst snd] in *. apply first_error_ok in Hok. destruct Hok as [Hp _].
    set (t := ld2450_send_command hv LD2450_CMD_GET_MAC_ADDRESS _ true
                LD2450_CONFIG_TIMEOUT_MS
                (snd (ld2450_enter_config_mode hv w))) in *.
    unfold parse_mac_address in Hp |- *.
    destruct (is_ok (fst (fst t))) eqn:Hb.
    2:{ cbn [andb fst] in Hp. discriminate Hp. }
    destruct (query_ok_ack _ _ _ _ Hb) as (ack & Hval & Hlen & Hout).
    fold t in Hout. rewrite Hout in Hp |- *. cbn [ack_of andb] in *.
    destruct (Nat.leb_spec 16 (length ack)) as [H16|H16];
      [|discriminate Hp].
    exists ack. apply is_ok_true in Hb.
    split; [destruct t as [[r o] w2]; cbn [fst snd] in *; congruence|].
    auto.
  - rewrite get_region_filter_runs in Hok |- * by assumption.
    cbv zeta in *.
    destruct (is_ok (fst (ld2450_enter_config_mode hv w))) eqn:Hre.
    2:{ cbn [fst] in Hok. apply is_ok_false in Hre. contradiction. }
    cbn [fst snd] in *. apply first_error_ok in Hok. destruct Hok as [Hp _].
    set (t := ld2450_send_command hv LD2450_CMD_QUERY_REGION [] true
                LD2450_CONFIG_TIMEOUT_MS
                (snd (ld2450_enter_config_mode hv w))) in *.
    unfold parse_region_filter in Hp |- *.
    destruct (is_ok (fst (fst t))) eqn:Hb.
    2:{ cbn [andb fst] in Hp. discriminate Hp. }
    destruct (query_ok_ack _ _ _ _ Hb) as (ack & Hval & Hlen & Hout).
    fold t in Hout. rewrite Hout in Hp |- *. cbn [ack_of andb] in *.
    destruct (Nat.leb_spec 40 (length ack)) as [H40|H40];
      [|discriminate Hp].
    exists ack. apply is_ok_true in Hb.
    split; [destruct t as [[r o] w2]; cbn [fst snd] in *; congruence|].
    auto.
Qed.

End Getters.

Section Reads.

Variable hv : header_values.


Lemma get_firmware_version_runs (version : ld2450_firmware_version_t)
    (w : world) :
  initialized (dev w) = true ->
  ld2450_get_firmware_version hv version w
  = let entered := ld2450_enter_config_mode hv w in
    if is_ok (fst entered) then
      let a := firmware_attempts hv 3 (fst entered) version
                                 (settled (snd entered)) in
      let r := if negb (is_ok (fst (fst a))) then ESP_ERR_INVALID_RESPONSE
               else fst (fst a) in
      let exited := ld2450_exit_config_mode hv (snd a) in
      ((first_error r (fst exited), snd (fst a)), snd exited)
    else ((fst entered, version), snd entered).
Proof.
  intro Hinit. cbv zeta. unfold ld2450_get_firmware_version. run_monad.
  rewrite Hinit. cbn [negb].
  destruct (ld2450_enter_config_mode hv w) as [re w1]. cbn [fst snd].
  destruct (is_ok re); cbn [negb]; [|reflexivity].
  rewrite <- !app_assoc.
  change {| dev := dev w1; pending := pending w1;
            effects := effects w1 ++ [TaskDelay 100] ++ [UartFlush]
                       ++ [QueueDrain] |}
    with (settled w1).
  destruct (firmware_attempts hv 3 re version (settled w1)) as [[ra v] w2].
  cbn [fst snd].
  destruct (ld2450_exit_config_mode hv w2) as [rx w3]. reflexivity.
Qed.

Lemma lor_shiftl_add (a b k : Z) :
  (0 <= k)%Z -> (0 <= a < 2 ^ k)%Z ->
  Z.lor a (Z.shiftl b k) = (a + b * 2 ^ k)%Z.
Proof.
  intros Hk Ha.
  assert (Hdisjoint : Z.land a (Z.shiftl b k) = 0%Z).
  { apply Z.bits_inj'. intros n Hn.
    rewrite Z.land_spec, Z.bits_0.
    destruct (Z.ltb_spec n k) as [Hlow|Hhigh].
    - rewrite Z.shiftl_spec_low by lia. apply andb_false_r.
    - rewrite <- (Z.mod_small a (2 ^ k)) by lia.
      rewrite Z.mod_pow2_bits_high by lia. reflexivity. }
  rewrite <- Z.lxor_lor, <- Z.add_nocarry_lxor by assumption.
  now rewrite Z.shiftl_mul_pow2.
Qed.

(** X16: the firmware fields are read little-endian.  For bytes in range,
    the main version is byte 12 plus 256 times byte 13, the sub-version is
    the 32-bit value of bytes 14 to 17, and the string is printed from the
    high byte (13) as major, the low byte (12) as two-digit minor and the
    sub-version in decimal. *)
Theorem firmware_fields_are_little_endian (ack : list byte)
    (version : ld2450_firmware_version_t) :
  is_byte (nth 12 ack 0%Z) -> is_byte (nth 13 ack 0%Z) ->
  is_byte (nth 14 ack 0%Z) -> is_byte (nth 15 ack 0%Z) ->
  is_byte (nth 16 ack 0%Z) -> is_byte (nth 17 ack 0%Z) ->
  let parsed := parse_firmware_version hv ack version in
  let sub := (nth 14 ack 0 + 0x100 * nth 15 ack 0 + 0x10000 * nth 16 ack 0
              + 0x1000000 * nth 17 ack 0)%Z in
  main_version parsed = (nth 12 ack 0 + 0x100 * nth 13 ack 0)%Z
  /\ sub_version parsed = sub
  /\ version_string parsed
     = snprintf_version (version_string version) (VERSION_STRING_SIZE hv)
                        (nth 13 ack 0%Z) (nth 12 ack 0%Z) sub.
Proof.
  unfold is_byte. intros H12 H13 H14 H15 H16 H17. cbv zeta.
  assert (Hmain : to_uint16 (le16 ack 12)
                  = (nth 12 ack 0 + 0x100 * nth 13 ack 0)%Z).
  { unfold le16, to_uint16. cbn [Nat.add].
    rewrite lor_shiftl_add by (simpl; lia).
    change (2 ^ 8)%Z with 0x100%Z.
    rewrite low16_small by lia. lia. }
  assert (Hsub : to_uint32
                   (Z.lor (Z.lor (Z.lor (nth 14 ack 0%Z)
                                        (Z.shiftl (nth 15 ack 0%Z) 8))
                                 (Z.shiftl (nth 16 ack 0%Z) 16))
                          (Z.shiftl (nth 17 ack 0%Z) 24))
                 = (nth 14 ack 0 + 0x100 * nth 15 ack 0
                    + 0x10000 * nth 16 ack 0
                    + 0x1000000 * nth 17 ack 0)%Z).
  { rewrite (lor_shiftl_add (nth 14 ack 0%Z)) by (simpl; lia).
    change (2 ^ 8)%Z with 0x100%Z.
    rewrite (lor_shiftl_add _ (nth 16 ack 0%Z))
      by (try change (2 ^ 16)%Z with 0x10000%Z; lia).
    change (2 ^ 16)%Z with 0x10000%Z.
    rewrite (lor_shiftl_add _ (nth 17 ack 0%Z))
      by (try change (2 ^ 24)%Z with 0x1000000%Z; lia).
    change (2 ^ 24)%Z with 0x1000000%Z.
    unfold to_uint32. change 0xFFFFFFFF%Z with (Z.ones 32).
    rewrite Z.land_ones by lia.
    change (2 ^ 32)%Z with 0x100000000%Z.
    rewrite Z.mod_small by lia. lia. }
  unfold parse_firmware_version.
  cbn [main_version sub_version version_string].
  rewrite Hmain, Hsub.
  split; [reflexivity|]. split; [reflexivity|].
  f_equal.
  - rewrite Z.shiftr_div_pow2 by lia. change 0xFF%Z with (Z.ones 8).
    rewrite Z.land_ones by lia. change (2 ^ 8)%Z with 0x100%Z.
    Z.div_mod_to_equations. lia.
  - change 0xFF%Z with (Z.ones 8).
    rewrite Z.land_ones by lia. change (2 ^ 8)%Z with 0x100%Z.
    Z.div_mod_to_equations. lia.
Qed.

End Reads.

Section Retries.

Variable hv : header_values.

Lemma attempt_hit_ok (b : esp_err_t * option (list byte)) :
  attempt_hit b = true -> fst b = ESP_OK /\ 22 <= length (ack_of (snd b)).
Proof.
  unfold attempt_hit. intro H. apply andb_true_iff in H.
  destruct H as [Hok Hlen]. apply is_ok_true in Hok.
  apply Nat.leb_le in Hlen. auto.
Qed.

(** The loop stops at the first attempt that hits and hands out its
    payload, parsed. *)
Lemma attempts_first_hit (n : nat) :
  forall k r0 version (w : world),
    k < n ->
    misses_before hv k w ->
    attempt_hit (fst (attempt hv k w)) = true ->
    firmware_attempts hv n r0 version w
    = ((ESP_OK,
        parse_firmware_version hv (ack_of (snd (fst (attempt hv k w))))
                               version),
       snd (attempt hv k w)).
Proof.
  induction n as [|n IH]; intros k r0 version w Hk Hmiss Hhit; [lia|].
  destruct k as [|k].
  - unfold attempt in *. cbn [attempt_world] in *. unfold fw_query in *.
    rewrite firmware_attempts_hit by assumption.
    apply attempt_hit_ok in Hhit. destruct Hhit as [Hok _].
    now rewrite Hok.
  - assert (Hfirst : attempt_hit (fst (ld2450_send_command hv
                        LD2450_CMD_READ_FW_VERSION [] true 1000 w)) = false)
      by (apply (Hmiss 0); lia).
    rewrite firmware_attempts_miss by assumption.
    apply (IH k); [lia| |exact Hhit].
    intros j Hj. apply (Hmiss (S j)). lia.
Qed.

(** After [n] misses the loop has made [n] attempts, each followed by
    the backoff, holds the code of the last one and has not touched the
    version. *)
Lemma attempts_all_miss (n : nat) :
  forall r0 version (w : world),
    misses_before hv n w ->
    firmware_attempts hv n r0 version w
    = ((match n with
        | 0 => r0
        | S m => fst (fst (attempt hv m w))
        end, version),
       attempt_world hv n w).
Proof.
  induction n as [|n IH]; intros r0 version w Hmiss; [reflexivity|].
  assert (Hfirst : attempt_hit (fst (ld2450_send_command hv
                      LD2450_CMD_READ_FW_VERSION [] true 1000 w)) = false)
    by (apply (Hmiss 0); lia).
  rewrite firmware_attempts_miss by assumption.
  change {| dev := dev (snd (ld2450_send_command hv
                               LD2450_CMD_READ_FW_VERSION [] true 1000 w));
            pending := pending (snd (ld2450_send_command hv
                               LD2450_CMD_READ_FW_VERSION [] true 1000 w));
            effects := effects (snd (ld2450_send_command hv
                               LD2450_CMD_READ_FW_VERSION [] true 1000 w))
                       ++ [TaskDelay 200; UartFlush] |}
    with (backed_off (snd (fw_query hv w))).
  rewrite IH by (intros j Hj; apply (Hmiss (S j)); lia).
  destruct n; reflexivity.
Qed.

Lemma first_hit_or_all_miss (n : nat) (w : world) :
  misses_before hv n w
  \/ exists k,
       k < n /\ misses_before hv k w
       /\ attempt_hit (fst (attempt hv k w)) = true.
Proof.
  induction n as [|n [Hall|(k & Hk & Hmiss & Hhit)]].
  - left. intros j Hj. lia.
  - destruct (attempt_hit (fst (attempt hv n w))) eqn:Hn.
    + right. exists n. auto.
    + left. intros j Hj.
      destruct (Nat.eq_dec j n) as [->|Hne]; [exact Hn|].
      apply Hall. lia.
  - right. exists k. auto.
Qed.

(** What [ld2450_get_firmware_version] comes to after a successful
    enter, by the attempt that hits first, if any. *)
Lemma firmware_read_outcome (version : ld2450_firmware_version_t)
    (w : world) :
  initialized (dev w) = true ->
  fst (ld2450_enter_config_mode hv w) = ESP_OK ->
  let w0 := settled (snd (ld2450_enter_config_mode hv w)) in
  let res := ld2450_get_firmware_version hv version w in
  (forall k,
     k < 3 -> misses_before hv k w0 ->
     attempt_hit (fst (attempt hv k w0)) = true ->
     let t := attempt hv k w0 in
     let exited := ld2450_exit_config_mode hv (snd t) in
     res = ((fst exited,
             parse_firmware_version hv (ack_of (snd (fst t))) version),
            snd exited))
  /\ (misses_before hv 3 w0 ->
      let last := attempt hv 2 w0 in
      let exited := ld2450_exit_config_mode hv (attempt_world hv 3 w0) in
      res = ((if is_ok (fst (fst last)) then fst exited
              else ESP_ERR_INVALID_RESPONSE, version),
             snd exited)).
Proof.
  intros Hinit Hentered. cbv zeta.
  rewrite get_firmware_version_runs by assumption. cbv zeta.
  rewrite Hentered. cbn [is_ok esp_err_eqb].
  split.
  - intros k Hk Hmiss Hhit.
    rewrite (attempts_first_hit 3 k) by assumption.
    cbn [fst snd is_ok esp_err_eqb negb]. reflexivity.
  - intro Hmiss.
    rewrite attempts_all_miss by assumption.
    cbn [fst snd]. unfold first_error.
    destruct (is_ok (fst (fst (attempt hv 2
                (settled (snd (ld2450_enter_config_mode hv w)))))))
      eqn:Hlast; cbn [negb].
    + rewrite Hlast. reflexivity.
    + reflexivity.
Qed.

(** The attempts leave the session initialised and the gate as it is. *)
Lemma attempts_keep_gate (n : nat) :
  forall r0 version (w : world),
    initialized (dev w) = true ->
    initialized (dev (snd (firmware_attempts hv n r0 version w))) = true
    /\ in_config_mode (dev (snd (firmware_attempts hv n r0 version w)))
       = in_config_mode (dev w).
Proof.
  induction n as [|n IH]; intros r0 version w Hinit; [now split|].
  destruct (send_command_summary hv LD2450_CMD_READ_FW_VERSION [] true 1000
              w Hinit) as (r & out & d & evs & Heq & Hi & Hc & _).
  destruct (attempt_hit (fst (ld2450_send_command hv
              LD2450_CMD_READ_FW_VERSION [] true 1000 w))) eqn:Hhit.
  - rewrite firmware_attempts_hit by assumption.
    rewrite Heq. cbn [snd dev]. auto.
  - rewrite firmware_attempts_miss by assumption.
    rewrite Heq. cbn [fst snd dev pending effects].
    match goal with
    | |- context [firmware_attempts hv n ?r1 version ?w1] =>
        destruct (IH r1 version w1 Hi) as [Hi' Hc']
    end.
    rewrite Hi', Hc'. cbn [dev]. auto.
Qed.

(** The effects of the operation after a successful enter: the settle
    delay, flush and drain, the attempts, then the END_CONFIG
    transaction of exit. *)
Lemma firmware_read_trace (version : ld2450_firmware_version_t)
    (w : world) :
  initialized (dev w) = true ->
  fst (ld2450_enter_config_mode hv w) = ESP_OK ->
  exists tr evs r,
    attempts_trace 3 tr
    /\ Forall (fun e => is_txn e = false) evs
    /\ effects (snd (ld2450_get_firmware_version hv version w))
       = effects (snd (ld2450_enter_config_mode hv w))
         ++ [TaskDelay 100; UartFlush; QueueDrain] ++ tr
         ++ evs ++ [Txn LD2450_CMD_END_CONFIG LD2450_CONFIG_TIMEOUT_MS r].
Proof.
  intros Hinit Hentered.
  destruct (entered_is_configuring hv w Hinit Hentered) as [Hi Hc].
  set (w0 := settled (snd (ld2450_enter_config_mode hv w))).
  destruct (firmware_attempts_trace hv 3 ESP_OK version w0 Hi)
    as (tr & Heff & Htr).
  destruct (attempts_keep_gate 3 ESP_OK version w0 Hi) as [Hi2 Hc2].
  assert (Hc0 : in_config_mode (dev w0) = true) by exact Hc.
  rewrite Hc0 in Hc2.
  destruct (exit_result hv _ Hi2 Hc2) as (r & evs & _ & Hexit & Hq & _).
  exists tr, evs, r.
  split; [exact Htr|]. split; [exact Hq|].
  rewrite get_firmware_version_runs by assumption. cbv zeta.
  rewrite Hentered. cbn [is_ok esp_err_eqb snd].
  fold w0. rewrite Hexit, Heff. unfold w0. cbn [settled effects].
  now rewrite <- !app_assoc.
Qed.

(** X15: the firmware version is only ever taken from the acknowledgement
    of one of the three queries.  After [ld2450_get_firmware_version] the
    version structure is as the caller passed it, or it is parsed from the
    frame that attempt [k] of the operation (k < 3, the first one to hit)
    returned with ESP_OK: a frame of 22 bytes at least that passed
    validation for READ_FW_VERSION. *)
Theorem firmware_version_comes_from_long_ack
    (version : ld2450_firmware_version_t) (w : world) :
  let res := ld2450_get_firmware_version hv version w in
  let w0 := settled (snd (ld2450_enter_config_mode hv w)) in
  snd (fst res) = version
  \/ exists k ack,
       k < 3
       /\ misses_before hv k w0
       /\ fst (attempt hv k w0) = (ESP_OK, Some ack)
       /\ ld2450_validate_ack hv ack LD2450_CMD_READ_FW_VERSION
          = Some (ESP_OK, [])
       /\ 22 <= length ack
       /\ snd (fst res) = parse_firmware_version hv ack version.
Proof.
  cbv zeta.
  destruct (initialized (dev w)) eqn:Hinit.
  2:{ left. unfold ld2450_get_firmware_version. run_monad.
      now rewrite Hinit. }
  destruct (is_ok (fst (ld2450_enter_config_mode hv w))) eqn:Hre.
  2:{ left. rewrite get_firmware_version_runs by assumption. cbv zeta.
      now rewrite Hre. }
  apply is_ok_true in Hre.
  destruct (firmware_read_outcome version w Hinit Hre) as [Hhit Hmiss].
  cbv zeta in Hhit, Hmiss.
  destruct (first_hit_or_all_miss 3
              (settled (snd (ld2450_enter_config_mode hv w))))
    as [Hall|(k & Hk & Hbefore & Hk_hit)].
  - left. rewrite (Hmiss Hall). reflexivity.
  - right. rewrite (Hhit k Hk Hbefore Hk_hit). cbn [fst snd].
    destruct (attempt_hit_ok _ Hk_hit) as [Hok Hlen].
    assert (Hq : is_ok (fst (fst (ld2450_send_command hv
                   LD2450_CMD_READ_FW_VERSION [] true 1000
                   (attempt_world hv k
                      (settled (snd (ld2450_enter_config_mode hv w)))))))
                 = true)
      by (unfold attempt, fw_query in Hok; now rewrite Hok).
    destruct (query_ok_ack hv _ _ _ _ Hq) as (ack & Hval & _ & Hout).
    fold (fw_query hv) in Hout.
    fold (attempt hv k (settled (snd (ld2450_enter_config_mode hv w))))
      in Hout.
    rewrite Hout in Hlen |- *. cbn [ack_of] in *.
    exists k, ack. repeat split; auto.
    destruct (attempt hv k _) as [[r o] w2]. cbn [fst snd] in *. congruence.
Qed.

End Retries.

(** C8 (amended): after a successful enter the effects of the firmware
    read are the settle delay, flush and drain, then at most three
    READ_FW_VERSION transactions, each with a timeout of 1000 ms, shorter
    than LD2450_CONFIG_TIMEOUT_MS, with a 200 ms backoff and a flush after
    each miss, then the END_CONFIG transaction of exit; the first attempt
    that returns ESP_OK with at least 22 bytes ends the loop and its payload
    is parsed, and after three misses the version is left alone and exit
    follows the third backoff.  With a device that
    is silent for attempts 1 and 2 and answers attempt 3 with main-version
    bytes 02 01 on the wire (little-endian 0x0102) and sub-version bytes
    16 24 06 22, the call succeeds with main version 0x0102, a version
    string that begins with V1.02. and sub-version 0x22062416. *)
Theorem firmware_read_retries :
  (1000 < LD2450_CONFIG_TIMEOUT_MS)%N
  /\ (forall hv version w,
        initialized (dev w) = true ->
        fst (ld2450_enter_config_mode hv w) = ESP_OK ->
        let w0 := settled (snd (ld2450_enter_config_mode hv w)) in
        let res := ld2450_get_firmware_version hv version w in
        (exists tr evs r,
           attempts_trace 3 tr
           /\ Forall (fun e => is_txn e = false) evs
           /\ effects (snd res)
              = effects (snd (ld2450_enter_config_mode hv w))
                ++ [TaskDelay 100; UartFlush; QueueDrain] ++ tr
                ++ evs
                ++ [Txn LD2450_CMD_END_CONFIG LD2450_CONFIG_TIMEOUT_MS r])
        /\ (forall k,
              k < 3 -> misses_before hv k w0 ->
              attempt_hit (fst (attempt hv k w0)) = true ->
              let t := attempt hv k w0 in
              let exited := ld2450_exit_config_mode hv (snd t) in
              res = ((fst exited,
                      parse_firmware_version hv (ack_of (snd (fst t)))
                                             version),
                     snd exited))
        /\ (misses_before hv 3 w0 ->
            snd (fst res) = version
            /\ snd res
               = snd (ld2450_exit_config_mode hv (attempt_world hv 3 w0))))
  /\ (let result := ld2450_get_firmware_version sample_headers blank_version
                       (firmware_retry_world 0x02%Z 0x01%Z) in
      fst (fst result) = ESP_OK
      /\ main_version (snd (fst result)) = 0x0102%Z
      /\ sub_version (snd (fst result)) = 0x22062416%Z
      /\ String.prefix "V1.02." (version_string (snd (fst result))) = true
      /\ filter is_txn (effects (snd result))
         = [Txn LD2450_CMD_ENABLE_CONFIG 3000 ESP_OK;
            Txn LD2450_CMD_READ_FW_VERSION 1000 ESP_ERR_TIMEOUT;
            Txn LD2450_CMD_READ_FW_VERSION 1000 ESP_ERR_TIMEOUT;
            Txn LD2450_CMD_READ_FW_VERSION 1000 ESP_OK;
            Txn LD2450_CMD_END_CONFIG 3000 ESP_OK]).
Proof.
  split; [reflexivity|].
  split; [|vm_compute; repeat split].
  intros hv version w Hinit Hentered. cbv zeta.
  destruct (firmware_read_outcome hv version w Hinit Hentered)
    as [Hhit Hmiss].
  cbv zeta in Hhit, Hmiss.
  split.
  { exact (firmware_read_trace hv version w Hinit Hentered). }
  split; [exact Hhit|].
  intro Hall. rewrite (Hmiss Hall). auto.
Qed.

Section Precedence.

Variable hv : header_values.

(** The body of an operation with one transaction: the world it leaves
    is the one the transaction leaves, and [ret] is the transaction's code,
    replaced by ESP_ERR_INVALID_RESPONSE where the reads do so. *)
Lemma body_step_single (op : public_op) (w : world) :
  is_firmware_read op = false ->
  let t := ld2450_send_command hv (body_cmd op) (body_value op)
             (body_wants_ack op) LD2450_CONFIG_TIMEOUT_MS w in
  snd (body_step hv op w) = snd t
  /\ fst (body_step hv op w)
     = (if is_ok (fst (fst t))
        then (if reply_accepted op (ack_of (snd (fst t))) then ESP_OK
              else ESP_ERR_INVALID_RESPONSE)
        else (if collapses_errors op then ESP_ERR_INVALID_RESPONSE
              else fst (fst t))).
Proof.
  intros Hfw. cbv zeta.
  destruct op as [[|]|mode|version|baud| | |enable|mac|type regions|old];
    try discriminate;
    try destruct regions as [[r0 r1] r2];
    cbn [body_step body_cmd body_value body_wants_ack reply_accepted
         collapses_errors region_filter_value];
    unfold bind, ret;
    match goal with
    | |- context [ld2450_send_command hv ?c ?v ?a ?t w] =>
        pose proof (query_ok_ack hv c v t w) as Hack;
        destruct (ld2450_send_command hv c v a t w) as [[rb out] w2]
    end;
    cbn [fst snd] in *;
    try (destruct (is_ok rb) eqn:Hrb;
         [apply is_ok_true in Hrb; subst rb|]; split; reflexivity).
  - (* tracking-mode query *)
    split; [unfold parse_tracking_mode;
            repeat match goal with |- context [if ?c then _ else _] =>
                     destruct c end; reflexivity|].
    unfold parse_tracking_mode. cbn [fst snd].
    destruct (is_ok rb) eqn:Hrb; cbn [andb fst]; [|reflexivity].
    destruct (Hack eq_refl) as (ack & _ & Hlen & Hout).
    subst out. cbn [ack_of].
    rewrite (proj2 (Nat.leb_le 12 (length ack))) by lia.
    apply is_ok_true in Hrb. subst rb.
    destruct (Z.eqb (to_uint16 (le16 ack 10)) 1); [reflexivity|].
    destruct (Z.eqb (to_uint16 (le16 ack 10)) 2); reflexivity.
  - (* MAC query *)
    unfold parse_mac_address. cbn [fst snd].
    destruct (is_ok rb) eqn:Hrb; cbn [andb];
      [|split; reflexivity].
    apply is_ok_true in Hrb. subst rb.
    destruct (16 <=? length (ack_of out)); split; reflexivity.
  - (* region query *)
    unfold parse_region_filter. cbn [fst snd].
    destruct (is_ok rb) eqn:Hrb; cbn [andb];
      [|split; reflexivity].
    apply is_ok_true in Hrb. subst rb.
    destruct (40 <=? length (ack_of out)); split; reflexivity.
Qed.


End Precedence.

Section RegionWire.

Variable hv : header_values.

(** Once the mutex is taken the transaction flushes, drains and
    writes its frame. *)
Lemma send_command_writes cmd value want timeout_ms (w : world) :
  initialized (dev w) = true ->
  xSemaphoreTake (fst (next_exchange w)) (pdMS_TO_TICKS hv timeout_ms) = true ->
  exists rest,
    effects (snd (ld2450_send_command hv cmd value want timeout_ms w))
    = effects w ++ tx_effects hv cmd value w ++ rest.
Proof.
  intros Hinit Hlock.
  destruct (Z.eq_dec (uart_write_bytes (fst (next_exchange w))
                                       (8 + length value + 4))
                     (Z.of_nat (8 + length value + 4))) as [Hsent|Hshort].
  2:{ destruct (send_command_short_write hv cmd value want timeout_ms w
                  Hinit Hlock Hshort) as (d & Heq & _).
      rewrite Heq. cbn [snd effects]. eexists. reflexivity. }
  destruct (negb (found_header (rx_result hv cmd timeout_ms w))
            || negb (found_footer (rx_result hv cmd timeout_ms w)))
    eqn:Hinc.
  - destruct (send_command_incomplete hv cmd value want timeout_ms w
                Hinit Hlock Hsent Hinc) as (d & Heq & _).
    rewrite Heq. cbn [snd effects]. eexists. reflexivity.
  - apply orb_false_iff in Hinc. destruct Hinc as [Hfh Hff].
    apply negb_false_iff in Hfh, Hff.
    destruct (send_command_complete hv cmd value want timeout_ms w
                Hinit Hlock Hsent Hfh Hff) as (d & r & logs & _ & Heq & _).
    rewrite Heq. cbn [snd effects]. eexists. reflexivity.
Qed.

Lemma exit_extends (w : world) :
  exists evs,
    effects (snd (ld2450_exit_config_mode hv w)) = effects w ++ evs.
Proof.
  destruct (initialized (dev w)) eqn:Hinit.
  2:{ rewrite exit_uninitialized by assumption.
      exists []. cbn. now rewrite app_nil_r. }
  destruct (in_config_mode (dev w)) eqn:Hmode.
  2:{ rewrite exit_already by assumption.
      exists []. cbn. now rewrite app_nil_r. }
  destruct (exit_result hv w Hinit Hmode) as (r & evs & _ & Heff & _).
  rewrite Heff. eexists. reflexivity.
Qed.

(** X12: the region filter survives the way out and back.  Once enter
    has succeeded and the mutex is taken, [ld2450_set_region_filter]
    writes one SET_REGION frame of 38 bytes, header first and footer last;
    and when the query of [ld2450_get_region_filter] comes back with an
    acknowledgement that carries the 26 value bytes of that frame at
    offset 10, the getter hands out the filter type and the three regions
    the setter was given, for a 16-bit type and corners within the range
    of [int16_t]. *)
Theorem region_filter_round_trip (type : Z) (regions : regions3)
    (w : world) :
  (0 <= type < 0x10000)%Z ->
  region_in_range (fst (fst regions)) ->
  region_in_range (snd (fst regions)) ->
  region_in_range (snd regions) ->
  initialized (dev w) = true ->
  fst (ld2450_enter_config_mode hv w) = ESP_OK ->
  let entered := snd (ld2450_enter_config_mode hv w) in
  38 <= length (cmd_buffer (dev entered)) ->
  xSemaphoreTake (fst (next_exchange entered))
                 (pdMS_TO_TICKS hv LD2450_CONFIG_TIMEOUT_MS) = true ->
  exists frame rest,
    effects (snd (ld2450_set_region_filter hv type regions w))
    = effects entered
      ++ [UartFlush; QueueDrain;
          UartWrite LD2450_CMD_SET_REGION frame
                    (uart_write_bytes (fst (next_exchange entered)) 38)]
      ++ rest
    /\ length frame = 38
    /\ firstn 4 frame = LD2450_CONFIG_FRAME_HEADER
    /\ skipn 34 frame = LD2450_CONFIG_FRAME_FOOTER
    /\ forall (pre post : list byte) (old : Z * regions3) (w' : world),
         length pre = 10 ->
         4 <= length post ->
         initialized (dev w') = true ->
         fst (ld2450_enter_config_mode hv w') = ESP_OK ->
         fst (ld2450_send_command hv LD2450_CMD_QUERY_REGION [] true
                LD2450_CONFIG_TIMEOUT_MS
                (snd (ld2450_enter_config_mode hv w')))
         = (ESP_OK, Some (pre ++ firstn 26 (skipn 8 frame) ++ post)) ->
         snd (fst (ld2450_get_region_filter hv old w')) = (type, regions).
Proof.
  intros Htype H0 H1 H2 Hinit Hentered entered Hfits Hlock.
  assert (Hvalue : length (region_filter_value type regions) = 26)
    by (destruct regions as [[r0 r1] r2]; reflexivity).
  exists (command_frame hv LD2450_CMD_SET_REGION
            (region_filter_value type regions)).
  destruct (entered_is_configuring hv w Hinit Hentered) as [Hi _].
  fold entered in Hi.
  destruct (send_command_writes LD2450_CMD_SET_REGION
              (region_filter_value type regions) false
              LD2450_CONFIG_TIMEOUT_MS entered Hi Hlock) as (rest & Hsend).
  destruct (exit_extends
              (snd (ld2450_send_command hv LD2450_CMD_SET_REGION
                      (region_filter_value type regions) false
                      LD2450_CONFIG_TIMEOUT_MS entered))) as (evs & Hexit).
  exists (rest ++ evs).
  split.
  { change (ld2450_set_region_filter hv type regions w)
      with (run_op hv (OpSetRegionFilter type regions) w).
    rewrite run_op_bracket by (assumption || reflexivity). cbv zeta.
    rewrite Hentered. cbn [is_ok esp_err_eqb snd].
    destruct (body_step_single hv (OpSetRegionFilter type regions) entered
                eq_refl) as [Hworld _].
    cbv zeta in Hworld. cbn [body_cmd body_value body_wants_ack] in Hworld.
    fold entered. rewrite Hworld, Hexit, Hsend.
    unfold tx_effects. rewrite Hvalue.
    change (8 + 26 + 4) with 38.
    pose proof (firstn_write_at_0
                  (command_frame hv LD2450_CMD_SET_REGION
                     (region_filter_value type regions))
                  (cmd_buffer (dev entered))) as Hframe.
    rewrite command_frame_length, Hvalue in Hframe.
    change (8 + 26 + 4) with 38 in Hframe. rewrite Hframe.
    rewrite <- !app_assoc. reflexivity. }
  split; [now rewrite command_frame_length, Hvalue|].
  split; [reflexivity|].
  split.
  { change 34 with (26 + 8). rewrite <- skipn_skipn, command_frame_tail.
    rewrite <- Hvalue, skipn_app, Nat.sub_diag, skipn_all. reflexivity. }
  intros pre post old w' Hpre Hpost Hinit' Hentered' Hquery.
  rewrite get_region_filter_runs by assumption. cbv zeta.
  rewrite Hentered'. cbn [is_ok esp_err_eqb fst snd].
  rewrite Hquery, command_frame_tail.
  rewrite <- Hvalue at 1.
  rewrite firstn_app, Nat.sub_diag, firstn_O, app_nil_r, firstn_all.
  now rewrite region_value_decodes.
Qed.

End RegionWire.

(** ** Runs of the further properties *)

Ltac in_byte_range := vm_compute; split; [discriminate | reflexivity].

Lemma command_packet_round_trip_witness :
  let built := build_command_packet sample_headers fresh_session
                 LD2450_CMD_SET_BLUETOOTH [0x01; 0x00]%Z in
  let packet := firstn (snd built) (cmd_buffer (fst built)) in
  length packet = 14
  /\ le16 packet 4 = 4%Z
  /\ le16 packet 6 = 0xA4%Z
  /\ length (cmd_buffer (fst built)) = 64.
Proof.
  intros built packet.
  destruct (command_packet_round_trip sample_headers fresh_session
              LD2450_CMD_SET_BLUETOOTH [0x01; 0x00]%Z
              ltac:(simpl; lia) ltac:(simpl; lia) ltac:(simpl; lia))
    as (Hsize & _ & Hlen & Hword & _ & _ & Hbuf & _).
  split; [exact Hsize|]. split; [exact Hlen|].
  split; [exact Hword | exact Hbuf].
Defined.

Lemma validate_ack_ignores_length_field_and_data_witness :
  ld2450_validate_ack sample_headers
    [0xFD; 0xFC; 0xFB; 0xFA; 0x63; 0x63; 0x80; 0x01; 0x00; 0x00;
     0x04; 0x03; 0x02; 0x01]%Z LD2450_CMD_SINGLE_TARGET
  = Some (ESP_OK, []).
Proof.
  rewrite <- (validate_ack_ignores_length_field_and_data sample_headers
                (ack_frame 0x80%Z [])
                [0xFD; 0xFC; 0xFB; 0xFA; 0x63; 0x63; 0x80; 0x01; 0x00; 0x00;
                 0x04; 0x03; 0x02; 0x01]%Z LD2450_CMD_SINGLE_TARGET
                eq_refl eq_refl eq_refl eq_refl eq_refl eq_refl eq_refl).
  vm_compute. reflexivity.
Defined.

Lemma own_command_frame_is_rejected_witness :
  ld2450_validate_ack sample_headers
    (command_frame sample_headers LD2450_CMD_SET_BLUETOOTH [0x01; 0x00]%Z)
    LD2450_CMD_SET_BLUETOOTH
  = Some (ESP_ERR_INVALID_RESPONSE, [LogBadEcho 0xA4%Z 0x00%Z]).
Proof.
  exact (own_command_frame_is_rejected sample_headers
           LD2450_CMD_SET_BLUETOOTH [0x01; 0x00]%Z
           ltac:(vm_compute; discriminate)).
Defined.

Lemma send_command_ok_returns_valid_ack_witness :
  let result := ld2450_send_command sample_headers LD2450_CMD_SINGLE_TARGET
                  [] true 3000 (world_with [replies [ack_frame 0x80%Z []]]) in
  exists ack,
    ld2450_validate_ack sample_headers ack LD2450_CMD_SINGLE_TARGET
    = Some (ESP_OK, [])
    /\ 14 <= length ack <= 128
    /\ snd (fst result) = Some ack.
Proof.
  intro result.
  destruct (send_command_ok_returns_valid_ack sample_headers
              LD2450_CMD_SINGLE_TARGET [] true 3000
              (world_with [replies [ack_frame 0x80%Z []]])
              ltac:(vm_compute; reflexivity))
    as (ack & Hvalid & Hlen & Hout & _).
  exists ack. split; [exact Hvalid|]. split; [exact Hlen | exact Hout].
Defined.

Lemma capture_survives_other_outcomes_witness :
  let w := snd (ld2450_send_command sample_headers LD2450_CMD_READ_FW_VERSION
                  [] true 1000
                  (world_with [replies [firstn 20 (firmware_ack 0x02%Z 0x01%Z)];
                               replies [ack_frame 0x80%Z []]])) in
  ld2450_get_last_error_data
    (dev (snd (ld2450_send_command sample_headers LD2450_CMD_SINGLE_TARGET
                                   [] true 3000 w))) 64 true
  = (ESP_OK, firstn 16 (firmware_ack 0x02%Z 0x01%Z)).
Proof.
  intro w.
  rewrite (capture_survives_other_outcomes sample_headers
             LD2450_CMD_SINGLE_TARGET [] true 3000 w 64 true
             ltac:(vm_compute; discriminate)).
  vm_compute. reflexivity.
Defined.

Lemma send_command_keeps_buffer_sizes_witness :
  let d := dev (snd (ld2450_send_command sample_headers
                       LD2450_CMD_READ_FW_VERSION [] true 1000
                       (world_with
                          [replies [firstn 20 (firmware_ack 0x02%Z 0x01%Z)]])))
  in
  session_sized sample_headers d /\ length (cmd_buffer d) = 64.
Proof.
  exact (send_command_keeps_buffer_sizes sample_headers
           LD2450_CMD_READ_FW_VERSION [] true 1000
           (world_with [replies [firstn 20 (firmware_ack 0x02%Z 0x01%Z)]])
           ltac:(unfold session_sized; simpl; lia) ltac:(simpl; lia)).
Defined.

Lemma split_ack_is_reassembled_witness :
  fst (ld2450_send_command sample_headers LD2450_CMD_SINGLE_TARGET [] true 3000
         (world_with [replies [firstn 6 (ack_frame 0x80%Z []);
                               skipn 6 (ack_frame 0x80%Z [])]]))
  = (ESP_OK, Some (ack_frame 0x80%Z [])).
Proof.
  refine (split_ack_is_reassembled sample_headers
            LD2450_CMD_SINGLE_TARGET [] 3000
            (world_with [replies [firstn 6 (ack_frame 0x80%Z []);
                                  skipn 6 (ack_frame 0x80%Z [])]])
            [(1%N, UartData (firstn 6 (ack_frame 0x80%Z [])))]
            1%N (skipn 6 (ack_frame 0x80%Z [])) [] (ack_frame 0x80%Z [])
            _ _ _ _ _ _ _ _ _ _).
  - reflexivity.
  - reflexivity.
  - reflexivity.
  - reflexivity.
  - reflexivity.
  - vm_compute. discriminate.
  - simpl. split; [left; lia | exact I].
  - reflexivity.
  - reflexivity.
  - simpl; lia.
Defined.

Lemma ok_operation_leaves_gate_normal_witness :
  let w := world_with [replies [ack_frame 0xFF%Z [0x01; 0x00; 0x40; 0x00]%Z];
                       replies [ack_frame 0xA4%Z []];
                       replies [ack_frame 0xFE%Z []]] in
  in_config_mode (dev (snd (run_op sample_headers (OpSetBluetooth true) w)))
  = false.
Proof.
  intro w.
  exact (ok_operation_leaves_gate_normal sample_headers (OpSetBluetooth true)
           w ltac:(vm_compute; reflexivity)).
Defined.

Lemma gate_calls_repeat_without_effect_witness :
  let w := world_with [replies [ack_frame 0xFF%Z [0x01; 0x00; 0x40; 0x00]%Z];
                       replies [ack_frame 0xFE%Z []]] in
  let entered := snd (ld2450_enter_config_mode sample_headers w) in
  let left_again := snd (ld2450_exit_config_mode sample_headers entered) in
  ld2450_enter_config_mode sample_headers entered = (ESP_OK, entered)
  /\ ld2450_exit_config_mode sample_headers left_again = (ESP_OK, left_again).
Proof.
  intros w entered left_again. split.
  - exact (proj1 (gate_calls_repeat_without_effect sample_headers w)
             ltac:(vm_compute; reflexivity)).
  - exact (proj2 (gate_calls_repeat_without_effect sample_headers entered)
             ltac:(vm_compute; reflexivity)).
Defined.

Lemma refused_operations_touch_nothing_witness :
  let off := {| dev := {| initialized := false; in_config_mode := false;
                          mutex_held := false; cmd_buffer := [];
                          ack_buffer := []; error_buffer := [];
                          error_buffer_len := 0 |};
                pending := [replies [ack_frame 0xFF%Z []]];
                effects := [] |} in
  let on := world_with [replies [ack_frame 0xFF%Z []]] in
  run_op sample_headers OpRestartModule off = (ESP_ERR_INVALID_STATE, off)
  /\ run_op sample_headers (OpSetBaudRate 9) on = (ESP_ERR_INVALID_ARG, on).
Proof.
  intros off on. split.
  - exact (proj1 (refused_operations_touch_nothing sample_headers
                    OpRestartModule off) eq_refl).
  - exact (proj2 (refused_operations_touch_nothing sample_headers
                    (OpSetBaudRate 9) on) eq_refl eq_refl).
Defined.

Lemma operations_keep_session_sound_witness :
  let d := dev (snd (run_op sample_headers (OpGetMacAddress [])
                       mac_timeout_world)) in
  session_sized sample_headers d
  /\ length (cmd_buffer d) = 64
  /\ mutex_held d = false
  /\ initialized d = true.
Proof.
  exact (operations_keep_session_sound sample_headers (OpGetMacAddress [])
           mac_timeout_world
           ltac:(unfold session_sized; simpl; lia) ltac:(simpl; lia) eq_refl).
Defined.

Lemma getters_ok_results_come_from_ack_witness :
  let w := world_with [replies [ack_frame 0xFF%Z [0x01; 0x00; 0x40; 0x00]%Z];
                       replies [ack_frame 0x91%Z [0x02; 0x00]%Z];
                       replies [ack_frame 0xFE%Z []]] in
  let res := ld2450_get_tracking_mode sample_headers
               LD2450_MODE_SINGLE_TARGET w in
  exists ack,
    fst (ld2450_send_command sample_headers LD2450_CMD_QUERY_TARGET_MODE []
           true LD2450_CONFIG_TIMEOUT_MS
           (snd (ld2450_enter_config_mode sample_headers w)))
    = (ESP_OK, Some ack)
    /\ ld2450_validate_ack sample_headers ack LD2450_CMD_QUERY_TARGET_MODE
       = Some (ESP_OK, [])
    /\ ((to_uint16 (le16 ack 10) = 1%Z
         /\ snd (fst res) = LD2450_MODE_SINGLE_TARGET)
        \/ (to_uint16 (le16 ack 10) = 2%Z
            /\ snd (fst res) = LD2450_MODE_MULTI_TARGET)).
Proof.
  intros w res.
  exact (proj1 (getters_ok_results_come_from_ack sample_headers w)
           LD2450_MODE_SINGLE_TARGET ltac:(vm_compute; reflexivity)).
Defined.


Lemma firmware_fields_are_little_endian_witness :
  main_version (parse_firmware_version sample_headers
                  (firmware_ack 0x01%Z 0x02%Z) blank_version)
  = 0x0201%Z.
Proof.
  exact (proj1 (firmware_fields_are_little_endian sample_headers
                  (firmware_ack 0x01%Z 0x02%Z) blank_version
                  ltac:(in_byte_range) ltac:(in_byte_range)
                  ltac:(in_byte_range) ltac:(in_byte_range)
                  ltac:(in_byte_range) ltac:(in_byte_range))).
Defined.

(** ** Runs of the bracket and of the firmware retries *)



Lemma firmware_read_retries_witness :
  let w := firmware_retry_world 0x02%Z 0x01%Z in
  let w0 := settled (snd (ld2450_enter_config_mode sample_headers w)) in
  let third := attempt sample_headers 2 w0 in
  ld2450_get_firmware_version sample_headers blank_version w
  = ((fst (ld2450_exit_config_mode sample_headers (snd third)),
      parse_firmware_version sample_headers (firmware_ack 0x02%Z 0x01%Z)
                             blank_version),
     snd (ld2450_exit_config_mode sample_headers (snd third))).
Proof.
  intros w w0 third.
  rewrite (proj1 (proj2
             (proj1 (proj2 firmware_read_retries) sample_headers
                blank_version w eq_refl ltac:(vm_compute; reflexivity)))
             2 ltac:(lia)
             ltac:(intros j Hj; destruct j as [|[|j]];
                   [vm_compute; reflexivity | vm_compute; reflexivity | lia])
             ltac:(vm_compute; reflexivity)).
  vm_compute. reflexivity.
Defined.

Lemma region_filter_round_trip_witness :
  let zone := {| x1 := -100; y1 := 200; x2 := 300; y2 := -400 |}%Z in
  let none := {| x1 := 0; y1 := 0; x2 := 0; y2 := 0 |}%Z in
  let told :=
    world_with [replies [ack_frame 0xFF%Z [0x01; 0x00; 0x40; 0x00]%Z];
                replies [ack_frame 0xC2%Z []];
                replies [ack_frame 0xFE%Z []]] in
  let asked :=
    world_with [replies [ack_frame 0xFF%Z [0x01; 0x00; 0x40; 0x00]%Z];
                replies [ack_frame 0xC1%Z
                           (region_filter_value 1 (zone, none, none))];
                replies [ack_frame 0xFE%Z []]] in
  fst (ld2450_set_region_filter sample_headers 1 (zone, none, none) told)
  = ESP_OK
  /\ snd (fst (ld2450_get_region_filter sample_headers
                 (0%Z, (none, none, none)) asked))
     = (1%Z, (zone, none, none)).
Proof.
  intros zone none told asked.
  split; [vm_compute; reflexivity|].
  destruct (region_filter_round_trip sample_headers 1 (zone, none, none) told
              ltac:(lia)
              ltac:(unfold region_in_range, is_int16; simpl; lia)
              ltac:(unfold region_in_range, is_int16; simpl; lia)
              ltac:(unfold region_in_range, is_int16; simpl; lia)
              eq_refl
              ltac:(vm_compute; reflexivity)
              ltac:(apply Nat.leb_le; vm_compute; reflexivity)
              ltac:(vm_compute; reflexivity))
    as (frame & rest & Heff & _ & _ & _ & Hround).
  vm_compute in Heff. inversion Heff. subst frame.
  apply (Hround (firstn 10 (ack_frame 0xC1%Z (repeat 0%Z 26)))
                LD2450_CONFIG_FRAME_FOOTER).
  - reflexivity.
  - simpl; lia.
  - reflexivity.
  - vm_compute. reflexivity.
  - vm_compute. reflexivity.
Defined.

